(** * Analytics aggregation of the Go Finance / SpendWise application

    A shallow embedding of the aggregation code of the repository:

    - the SpendWise backend: the [/api/analytics/trends],
      [/api/analytics/categories] and [/api/budgets/status] handlers;
    - the web client: [App.tsx] (daily series, week-over-week change,
      [handleEditExpense]) and [SpendingTrendsModal.tsx] (category totals,
      pie-chart percentages, per-day average);
    - the other components of the client: the rest of [App.tsx] (adding and
      deleting expenses, saving goals, the summary of the month),
      [Calendar.tsx] (the grid of the month, its navigation and its editor),
      [Onboarding.tsx] (the wizard), [AddExpenseModal.tsx] and
      [AddGoalModal.tsx] (the two forms).

    Conventions of the embedding.

    - A JavaScript number that the application stores (an amount, a budget
      limit) is a finite number: it is a rational [Qc], and arithmetic
      between finite numbers is exact.  Statements on this embedding give a
      result as the expression the code evaluates, in its order.  Where a
      property depends on the rounding of binary64, the handler is given
      again over the binary64 numbers ([Binary64], [Backend64]).
    - The result of a JavaScript division or multiplication is a [number]:
      a finite rational, [Infinity], [-Infinity] or [NaN], following
      IEEE 754 at a zero divisor.  The sign of zero is not modelled: zero is
      [+0].
    - An instant (a [Date], a MongoDB timestamp) is a count of milliseconds
      since the epoch, in [Z].  In [Date], [Backend] and [Client] local time
      is UTC shifted by a fixed offset [tz] (in milliseconds).  Where a
      property depends on the changes of the offset, the code is given again
      under the rules of a time zone, after the date operations of
      ECMAScript ([Zoned], [ZonedBackend], [ZonedClient]); at a zone whose
      offset never changes the two agree.
    - A MongoDB collection is the list of its documents, and [find] is a
      filter of that list.
    - A JavaScript object used as a dictionary is an association list in
      insertion order, which is the order [Object.entries] enumerates string
      keys in.  Keys that are array indices, or names inherited from
      [Object.prototype], are outside the model: the categories of the
      backend are of an enumeration, and the statements on the free
      categories of the client assume plain keys. *)

From Stdlib Require Import ZArith QArith Qcanon Qpower Qround.
From Stdlib Require Import List String Ascii Bool Lia.
From Stdlib Require Import Permutation Sorted DecimalString.
From Stdlib Require DecimalPos DecimalZ.
From Stdlib Require Import SpecFloat.
Import ListNotations.

Open Scope Z_scope.

(** ** JavaScript numbers *)

Module JS.

Inductive number : Type :=
| Fin (q : Qc)
| Infinity
| NegInfinity
| NaN.

Definition isFinite (x : number) : bool :=
  match x with Fin _ => true | _ => false end.

Definition ofZ (z : Z) : Qc := Q2Qc (inject_Z z).

(** [a < b] on finite numbers, as a boolean. *)
Definition ltb (a b : Qc) : bool :=
  match (a ?= b)%Qc with Lt => true | _ => false end.

Definition eqb (a b : Qc) : bool :=
  match (a ?= b)%Qc with Eq => true | _ => false end.

(** Sign of a finite number: [-1], [0] or [1]. *)
Definition sign (a : Qc) : Z :=
  match (a ?= 0)%Qc with Lt => -1 | Eq => 0 | Gt => 1 end.

Definition signed_infinity (s : Z) : number :=
  if s <? 0 then NegInfinity else Infinity.

(** [x + y]. *)
Definition add (x y : number) : number :=
  match x, y with
  | NaN, _ | _, NaN => NaN
  | Fin a, Fin b => Fin (a + b)%Qc
  | Infinity, NegInfinity | NegInfinity, Infinity => NaN
  | Infinity, _ | _, Infinity => Infinity
  | NegInfinity, _ | _, NegInfinity => NegInfinity
  end.

(** [x * y]: an infinity times zero is [NaN]. *)
Definition mul (x y : number) : number :=
  match x, y with
  | NaN, _ | _, NaN => NaN
  | Fin a, Fin b => Fin (a * b)%Qc
  | Fin a, Infinity | Infinity, Fin a =>
      if sign a =? 0 then NaN else signed_infinity (sign a)
  | Fin a, NegInfinity | NegInfinity, Fin a =>
      if sign a =? 0 then NaN else signed_infinity (- sign a)
  | Infinity, Infinity | NegInfinity, NegInfinity => Infinity
  | Infinity, NegInfinity | NegInfinity, Infinity => NegInfinity
  end.

(** [x / y]: a non-zero finite number over zero is an infinity of its sign,
    zero over zero is [NaN]. *)
Definition div (x y : number) : number :=
  match x, y with
  | NaN, _ | _, NaN => NaN
  | Fin a, Fin b =>
      if sign b =? 0
      then (if sign a =? 0 then NaN else signed_infinity (sign a))
      else Fin (a / b)%Qc
  | Fin _, Infinity | Fin _, NegInfinity => Fin 0%Qc
  | Infinity, Fin b => signed_infinity (if sign b =? 0 then 1 else sign b)
  | NegInfinity, Fin b => signed_infinity (- (if sign b =? 0 then 1 else sign b))
  | _, _ => NaN
  end.

(** [xs.reduce((sum, x) => sum + x, 0)] over finite numbers. *)
Definition sum (xs : list Qc) : Qc :=
  fold_left Qcplus xs 0%Qc.

(** The same reduction over arbitrary numbers. *)
Definition sum_numbers (xs : list number) : number :=
  fold_left add xs (Fin 0%Qc).

End JS.

(** ** Dictionaries: a JavaScript object used as a map *)

Module Dict.

Definition t (V : Type) : Type := list (string * V).

(** [acc[k]]: the value under [k], or [undefined]. *)
Fixpoint get {V : Type} (k : string) (d : t V) : option V :=
  match d with
  | [] => None
  | (k', v) :: r => if String.eqb k k' then Some v else get k r
  end.

(** [acc[k] = v]: an existing key keeps its place, a new key goes last. *)
Fixpoint set {V : Type} (k : string) (v : V) (d : t V) : t V :=
  match d with
  | [] => [(k, v)]
  | (k', v') :: r =>
      if String.eqb k k' then (k', v) :: r else (k', v') :: set k v r
  end.

(** [Object.entries(acc)]. *)
Definition entries {V : Type} (d : t V) : list (string * V) := d.

End Dict.

(** ** Arrays: [sort] with a comparator, and [slice] *)

Module Array.

Section Sort.
Context {A : Type}.
Variable compareFn : A -> A -> Qc.

(** [x] goes after [y] exactly when [compareFn x y > 0]. *)
Fixpoint insert (x : A) (l : list A) : list A :=
  match l with
  | [] => [x]
  | y :: r =>
      if JS.ltb 0%Qc (compareFn x y) then y :: insert x r else x :: y :: r
  end.

(** [Array.prototype.sort(compareFn)] is a stable sort (ECMAScript 2019):
    it is modelled by the stable insertion sort. *)
Fixpoint sort (l : list A) : list A :=
  match l with
  | [] => []
  | x :: r => insert x (sort r)
  end.

End Sort.

(** [l.slice(0, n)]. *)
Definition slice0 {A : Type} (n : nat) (l : list A) : list A := firstn n l.

End Array.

(** ** Dates *)

Module Date.

Definition msPerDay : Z := 86400000.

(** Year, month (1 to 12) and day of the month of a day number (days since
    1970-01-01), in the proleptic Gregorian calendar. *)
Definition civil_from_days (z : Z) : Z * Z * Z :=
  let z := z + 719468 in
  let era := z / 146097 in
  let doe := z - era * 146097 in
  let yoe := (doe - doe / 1460 + doe / 36524 - doe / 146096) / 365 in
  let y := yoe + era * 400 in
  let doy := doe - (365 * yoe + yoe / 4 - yoe / 100) in
  let mp := (5 * doy + 2) / 153 in
  let d := doy - (153 * mp + 2) / 5 + 1 in
  let m := if mp <? 10 then mp + 3 else mp - 9 in
  (if m <=? 2 then y + 1 else y, m, d).

(** The day number of a year, a month (1 to 12) and a day of the month. *)
Definition days_from_civil (y m d : Z) : Z :=
  let y := if m <=? 2 then y - 1 else y in
  let era := y / 400 in
  let yoe := y - era * 400 in
  let doy := (153 * (if 2 <? m then m - 3 else m + 9) + 2) / 5 + d - 1 in
  let doe := yoe * 365 + yoe / 4 - yoe / 100 + doy in
  era * 146097 + doe - 719468.

(** The day number of the local calendar day of the instant [t]. *)
Definition localDay (tz t : Z) : Z := (t + tz) / msPerDay.

Definition getFullYear (tz t : Z) : Z :=
  let '(y, _, _) := civil_from_days (localDay tz t) in y.

(** [getMonth] counts months from 0. *)
Definition getMonth (tz t : Z) : Z :=
  let '(_, m, _) := civil_from_days (localDay tz t) in m - 1.

Definition getDate (tz t : Z) : Z :=
  let '(_, _, d) := civil_from_days (localDay tz t) in d.

(** [getDay]: 0 is Sunday; 1970-01-01 was a Thursday. *)
Definition getDay (tz t : Z) : Z := (localDay tz t + 4) mod 7.

(** [t.setDate(d)]: the day of the month becomes [d], the time of day is
    kept; a [d] outside the month carries into the neighbouring months, so
    the instant moves by [d - t.getDate()] days. *)
Definition setDate (tz t d : Z) : Z := t + (d - getDate tz t) * msPerDay.

(** [t.setHours(0, 0, 0, 0)]: local midnight of the day of [t]. *)
Definition setHoursZero (tz t : Z) : Z := t - (t + tz) mod msPerDay.

(** [new Date(year, monthIndex, day)]: local midnight of that day; a month
    index outside 0..11 carries into the year, and a year in 0..99 means
    1900 + year. *)
Definition makeDate (tz year monthIndex day : Z) : Z :=
  let year := if (0 <=? year) && (year <=? 99) then 1900 + year else year in
  let y := year + monthIndex / 12 in
  let m := monthIndex mod 12 + 1 in
  (days_from_civil y m 1 + (day - 1)) * msPerDay - tz.

Definition digit (n : Z) : ascii := ascii_of_nat (48 + Z.to_nat (n mod 10)).

(** The [k] low decimal digits of [n], the most significant first. *)
Fixpoint digits (k : nat) (n : Z) : string :=
  match k with
  | O => EmptyString
  | S k' => (digits k' (n / 10) ++ String (digit n) EmptyString)%string
  end.

(** The date part of [toISOString()]: the UTC calendar day, as
    [YYYY-MM-DD]; a year outside 0..9999 has a sign and six digits. *)
Definition isoDateOfDay (day : Z) : string :=
  let '(y, m, d) := civil_from_days day in
  let year :=
    if (0 <=? y) && (y <=? 9999) then digits 4 y
    else ((if (y <? 0)%Z then "-" else "+") ++ digits 6 (Z.abs y))%string in
  (year ++ "-" ++ digits 2 m ++ "-" ++ digits 2 d)%string.

(** [t.toISOString().split('T')[0]]. *)
Definition toISODate (t : Z) : string := isoDateOfDay (t / msPerDay).

End Date.

(** ** The SpendWise backend *)

Module Backend.

Inductive Source : Type := manual | ocr.

(** [expenseSchema]: [amount] is validated to be at least 0 and [category]
    to belong to the enumeration of the schema. *)
Record Expense : Type := {
  userId : N;
  amount : Qc;
  category : string;
  description : string;
  date : string;
  timestamp : Z;
  source : Source
}.

Inductive Period : Type := weekly | monthly.

(** [budgetSchema]: [b_category] is an expense category or ["Total"]. *)
Record Budget : Type := {
  b_userId : N;
  b_category : string;
  limit : Qc;
  period : Period
}.

(** [Model.find(query)]. *)
Definition find {D : Type} (query : D -> bool) (collection : list D) : list D :=
  filter query collection.

(** [expenses.reduce((sum, e) => sum + e.amount, 0)]. *)
Definition sumAmounts (expenses : list Expense) : Qc :=
  fold_left (fun sum e => (sum + amount e)%Qc) expenses 0%Qc.

(** *** GET /api/analytics/trends *)

Record Window : Type := {
  current : Qc;
  last : Qc;
  change : JS.number;
  difference : Qc
}.

Record Trends : Type := {
  week : Window;
  month : Window
}.

Definition startOfCurrentWeek (tz now : Z) : Z :=
  Date.setHoursZero tz
    (Date.setDate tz now (Date.getDate tz now - Date.getDay tz now)).

Definition startOfLastWeek (tz now : Z) : Z :=
  let s := startOfCurrentWeek tz now in
  Date.setDate tz s (Date.getDate tz s - 7).

Definition endOfLastWeek (tz now : Z) : Z := startOfCurrentWeek tz now.

Definition startOfCurrentMonth (tz now : Z) : Z :=
  Date.makeDate tz (Date.getFullYear tz now) (Date.getMonth tz now) 1.

Definition startOfLastMonth (tz now : Z) : Z :=
  Date.makeDate tz (Date.getFullYear tz now) (Date.getMonth tz now - 1) 1.

Definition endOfLastMonth (tz now : Z) : Z :=
  Date.makeDate tz (Date.getFullYear tz now) (Date.getMonth tz now) 1.


Definition currentWeekExpenses (tz now : Z) (user : N) (db : list Expense) :=
  find (fun e => (userId e =? user)%N
                 && (startOfCurrentWeek tz now <=? timestamp e)) db.

Definition lastWeekExpenses (tz now : Z) (user : N) (db : list Expense) :=
  find (fun e => (userId e =? user)%N
                 && ((startOfLastWeek tz now <=? timestamp e)
                     && (timestamp e <? endOfLastWeek tz now))) db.

Definition currentMonthExpenses (tz now : Z) (user : N) (db : list Expense) :=
  find (fun e => (userId e =? user)%N
                 && (startOfCurrentMonth tz now <=? timestamp e)) db.

Definition lastMonthExpenses (tz now : Z) (user : N) (db : list Expense) :=
  find (fun e => (userId e =? user)%N
                 && ((startOfLastMonth tz now <=? timestamp e)
                     && (timestamp e <? endOfLastMonth tz now))) db.

Definition trends (tz now : Z) (user : N) (db : list Expense) : Trends :=
  let currentWeekTotal := sumAmounts (currentWeekExpenses tz now user db) in
  let lastWeekTotal := sumAmounts (lastWeekExpenses tz now user db) in
  let currentMonthTotal := sumAmounts (currentMonthExpenses tz now user db) in
  let lastMonthTotal := sumAmounts (lastMonthExpenses tz now user db) in
  let weekChange :=
    if JS.ltb 0%Qc lastWeekTotal
    then JS.mul (JS.div (JS.Fin (currentWeekTotal - lastWeekTotal)%Qc)
                        (JS.Fin lastWeekTotal))
                (JS.Fin (JS.ofZ 100))
    else JS.Fin 0%Qc in
  let monthChange :=
    if JS.ltb 0%Qc lastMonthTotal
    then JS.mul (JS.div (JS.Fin (currentMonthTotal - lastMonthTotal)%Qc)
                        (JS.Fin lastMonthTotal))
                (JS.Fin (JS.ofZ 100))
    else JS.Fin 0%Qc in
  {| week := {| current := currentWeekTotal;
                last := lastWeekTotal;
                change := weekChange;
                difference := (currentWeekTotal - lastWeekTotal)%Qc |};
     month := {| current := currentMonthTotal;
                 last := lastMonthTotal;
                 change := monthChange;
                 difference := (currentMonthTotal - lastMonthTotal)%Qc |} |}.

(** *** GET /api/analytics/categories *)

Record Transaction : Type := {
  tx_amount : Qc;
  tx_description : string;
  tx_date : string
}.

Record CategoryData : Type := {
  total : Qc;
  count : nat;
  transactions : list Transaction
}.

(** One step of the reduction that groups the expenses: the entry of the
    category is created empty when it is missing, then the amount is added
    to its total, its count grows by one and the transaction is pushed. *)
Definition groupExpense (acc : Dict.t CategoryData) (exp : Expense)
  : Dict.t CategoryData :=
  let data :=
    match Dict.get (category exp) acc with
    | Some data => data
    | None => {| total := 0%Qc; count := 0%nat; transactions := [] |}
    end in
  Dict.set (category exp)
    {| total := (total data + amount exp)%Qc;
       count := (count data + 1)%nat;
       transactions := transactions data
                       ++ [ {| tx_amount := amount exp;
                               tx_description := description exp;
                               tx_date := date exp |} ] |}
    acc.

Definition categoryData (expenses : list Expense) : Dict.t CategoryData :=
  fold_left groupExpense expenses [].

Record CategoryInsight : Type := {
  cat_category : string;
  cat_total : Qc;
  cat_count : nat;
  percentage : JS.number;
  avgPerTransaction : JS.number;
  topExpenses : list Transaction
}.

Record CategoryReport : Type := {
  categories : list CategoryInsight;
  totalSpent : Qc;
  totalTransactions : nat
}.

(** The entry of the report for one category. *)
Definition insight (totalSpent : Qc) (entry : string * CategoryData)
  : CategoryInsight :=
  let '(category, data) := entry in
  {| cat_category := category;
     cat_total := total data;
     cat_count := count data;
     percentage :=
       if JS.ltb 0%Qc totalSpent
       then JS.mul (JS.div (JS.Fin (total data)) (JS.Fin totalSpent))
                   (JS.Fin (JS.ofZ 100))
       else JS.Fin 0%Qc;
     avgPerTransaction :=
       if (0 <? count data)%nat
       then JS.div (JS.Fin (total data))
                   (JS.Fin (JS.ofZ (Z.of_nat (count data))))
       else JS.Fin 0%Qc;
     topExpenses :=
       Array.slice0 5
         (Array.sort (fun a b => (tx_amount b - tx_amount a)%Qc)
                     (transactions data)) |}.

(** The report computed from the expenses the query found. *)
Definition categoryInsights (expenses : list Expense) : CategoryReport :=
  let totalSpent := sumAmounts expenses in
  let categories :=
    map (insight totalSpent) (Dict.entries (categoryData expenses)) in
  {| categories :=
       Array.sort (fun a b => (cat_total b - cat_total a)%Qc) categories;
     totalSpent := totalSpent;
     totalTransactions := List.length expenses |}.

(** A query parameter is truthy when it is present and not empty. *)
Definition truthy (param : option string) : bool :=
  match param with
  | Some s => negb (String.eqb s "")
  | None => false
  end.

(** The query of the handler: the expenses of the user, within the inclusive
    range of dates when both bounds are given. *)
Definition categoriesQuery (user : N) (startDate endDate : option string)
  (e : Expense) : bool :=
  (userId e =? user)%N
  && (if truthy startDate && truthy endDate
      then match startDate, endDate with
           | Some s, Some t => String.leb s (date e) && String.leb (date e) t
           | _, _ => true
           end
      else true).

Definition categories_handler (user : N) (startDate endDate : option string)
  (db : list Expense) : CategoryReport :=
  categoryInsights (find (categoriesQuery user startDate endDate) db).

(** *** GET /api/budgets/status *)

Record BudgetStatus : Type := {
  budget : Budget;
  spent : Qc;
  remaining : Qc;
  status_percentage : JS.number;
  isOverBudget : bool
}.

Definition startOfMonth (tz now : Z) : Z :=
  Date.makeDate tz (Date.getFullYear tz now) (Date.getMonth tz now) 1.

(** The start of the week of the budgets keeps the time of day of [now]. *)
Definition startOfWeek (tz now : Z) : Z :=
  Date.setDate tz now (Date.getDate tz now - Date.getDay tz now).

Definition startDate (tz now : Z) (b : Budget) : Z :=
  match period b with
  | monthly => startOfMonth tz now
  | weekly => startOfWeek tz now
  end.

(** The expenses a budget counts: ["Total"] asks only that the category
    exists, which every expense satisfies. *)
Definition budgetExpenses (tz now : Z) (user : N) (b : Budget)
  (db : list Expense) : list Expense :=
  find (fun e => (userId e =? user)%N
                 && (if String.eqb (b_category b) "Total" then true
                     else String.eqb (category e) (b_category b))
                 && (startDate tz now b <=? timestamp e)) db.

Definition statusOf (tz now : Z) (user : N) (db : list Expense) (b : Budget)
  : BudgetStatus :=
  let expenses := budgetExpenses tz now user b db in
  let spent := sumAmounts expenses in
  let remaining := (limit b - spent)%Qc in
  let percentage :=
    JS.mul (JS.div (JS.Fin spent) (JS.Fin (limit b))) (JS.Fin (JS.ofZ 100)) in
  {| budget := b;
     spent := spent;
     remaining := remaining;
     status_percentage := percentage;
     isOverBudget := JS.ltb (limit b) spent |}.

Definition budgetStatus (tz now : Z) (user : N) (budgets : list Budget)
  (db : list Expense) : list BudgetStatus :=
  map (statusOf tz now user db)
      (find (fun b => (b_userId b =? user)%N) budgets).

End Backend.

(** ** The web client *)

Module Client.

(** [Expense] of App.tsx. *)
Record Expense : Type := {
  id : string;
  amount : Qc;
  category : string;
  date : string
}.

(** [Omit<Expense, 'id'>]. *)
Record ExpenseFields : Type := {
  new_amount : Qc;
  new_category : string;
  new_date : string
}.

(** The two label formats the charts ask [toLocaleDateString] for. *)
Inductive LabelFormat : Type := weekdayShort | monthShortDayNumeric.

(** A point of a chart: [{ date: label, amount: total }]. *)
Record Point : Type := {
  point_date : string;
  point_amount : Qc
}.

(** An entry of [categoryData]: [{ category, amount }]. *)
Record CategoryAmount : Type := {
  ca_category : string;
  ca_amount : Qc
}.

(** An entry of [pieData]. *)
Record PieSlice : Type := {
  pie_category : string;
  pie_amount : Qc;
  pie_percentage : string
}.

(** [expenses.reduce((sum, e) => sum + e.amount, 0)]. *)
Definition sumAmounts (expenses : list Expense) : Qc :=
  fold_left (fun sum e => (sum + amount e)%Qc) expenses 0%Qc.

(** [handleEditExpense]: the new state of [expenses]. *)
Definition handleEditExpense (expenses : list Expense) (id0 : string)
  (updatedExpense : ExpenseFields) : list Expense :=
  map (fun exp =>
         if String.eqb (id exp) id0
         then {| id := id0;
                 amount := new_amount updatedExpense;
                 category := new_category updatedExpense;
                 date := new_date updatedExpense |}
         else exp)
      expenses.

(** [handleDeleteExpense]. *)
Definition handleDeleteExpense (expenses : list Expense) (id0 : string)
  : list Expense :=
  filter (fun exp => negb (String.eqb (id exp) id0)) expenses.

Fixpoint zeros (n : nat) : string :=
  match n with
  | O => EmptyString
  | S n' => String "0"%char (zeros n')
  end.

Section Platform.

(** What the platform provides: the offset of local time, the rendering of
    the day named by a date string in a label format
    ([new Date(s).toLocaleDateString('en-US', options)]), the instant a date
    string denotes ([new Date(s)], [None] for an invalid date), and the
    exponent notation [toString] gives a number of at least 10^21. *)
Variable tz : Z.
Variable toLocaleDateString : LabelFormat -> string -> string.
Variable parseDate : string -> option Z.
Variable exponentString : Qc -> string.

(** [x.toFixed(f)]: the integer nearest to [x * 10^f], the larger one of two
    nearest, written with [f] decimals. *)
Definition toFixed (f : nat) (x : JS.number) : string :=
  match x with
  | JS.NaN => "NaN"
  | JS.Infinity => "Infinity"
  | JS.NegInfinity => "-Infinity"
  | JS.Fin q =>
      let s := if JS.ltb q 0%Qc then "-"%string else ""%string in
      let x := if JS.ltb q 0%Qc then (- q)%Qc else q in
      if JS.ltb x (JS.ofZ (10 ^ 21))
      then
        let n := Qfloor (x * JS.ofZ (10 ^ Z.of_nat f) + Q2Qc (1 # 2))%Qc in
        let m := NilZero.string_of_uint (N.to_uint (Z.to_N n)) in
        let m :=
          match f with
          | O => m
          | _ =>
              let k := String.length m in
              let m := if (k <=? f)%nat then (zeros (f + 1 - k) ++ m)%string
                       else m in
              let k := String.length m in
              (substring 0 (k - f) m ++ "." ++ substring (k - f) f m)%string
          end in
        (s ++ m)%string
      else (s ++ exponentString x)%string
  end.

(** *** App.tsx: the dashboard *)

(** The keys of the last seven days; every [new Date()] of one rendering is
    the one instant [now]. *)
Definition last7Days (now : Z) : list string :=
  map (fun i =>
         let date := now in
         let date := Date.setDate tz date (Date.getDate tz date - (6 - i)) in
         Date.toISODate date)
      (map Z.of_nat (seq 0 7)).

Definition dailySpending (now : Z) (expenses : list Expense) : list Point :=
  map (fun key =>
         let dayExpenses :=
           filter (fun e => String.eqb (date e) key) expenses in
         let total := sumAmounts dayExpenses in
         {| point_date := toLocaleDateString weekdayShort key;
            point_amount := total |})
      (last7Days now).

Definition thisWeekTotal (now : Z) (expenses : list Expense) : Qc :=
  fold_left (fun sum day => (sum + point_amount day)%Qc)
            (dailySpending now expenses) 0%Qc.

Definition lastWeekTotal (now : Z) (expenses : list Expense) : Qc :=
  sumAmounts
    (filter (fun e =>
               let weekAgo := Date.setDate tz now (Date.getDate tz now - 7) in
               let twoWeeksAgo :=
                 Date.setDate tz now (Date.getDate tz now - 14) in
               match parseDate (date e) with
               | Some expenseDate =>
                   (twoWeeksAgo <=? expenseDate) && (expenseDate <? weekAgo)
               | None => false
               end)
            expenses).

Definition percentChange (now : Z) (expenses : list Expense) : JS.number :=
  if JS.ltb 0%Qc (lastWeekTotal now expenses)
  then JS.mul
         (JS.div (JS.Fin (thisWeekTotal now expenses
                          - lastWeekTotal now expenses)%Qc)
                 (JS.Fin (lastWeekTotal now expenses)))
         (JS.Fin (JS.ofZ 100))
  else JS.Fin 0%Qc.

(** *** SpendingTrendsModal.tsx *)

(** One step of the reduction: a missing or zero entry is set to 0, then the
    amount is added. *)
Definition addToCategory (acc : Dict.t Qc) (expense : Expense) : Dict.t Qc :=
  let acc :=
    match Dict.get (category expense) acc with
    | Some v => if JS.eqb v 0%Qc then Dict.set (category expense) 0%Qc acc
                else acc
    | None => Dict.set (category expense) 0%Qc acc
    end in
  match Dict.get (category expense) acc with
  | Some v => Dict.set (category expense) (v + amount expense)%Qc acc
  | None => acc
  end.

Definition categorySpending (expenses : list Expense) : Dict.t Qc :=
  fold_left addToCategory expenses [].

Definition categoryData (expenses : list Expense) : list CategoryAmount :=
  Array.sort (fun a b => (ca_amount b - ca_amount a)%Qc)
    (map (fun '(category, amount) =>
            {| ca_category := category; ca_amount := amount |})
         (Dict.entries (categorySpending expenses))).

(** The modal computes [last7Days] by the same code as the dashboard. *)
Definition dailyData (now : Z) (expenses : list Expense) : list Point :=
  map (fun key =>
         let dayExpenses :=
           filter (fun e => String.eqb (date e) key) expenses in
         let total := sumAmounts dayExpenses in
         {| point_date := toLocaleDateString monthShortDayNumeric key;
            point_amount := total |})
      (last7Days now).

Definition totalSpent (expenses : list Expense) : Qc := sumAmounts expenses.

Definition totalTransactions (expenses : list Expense) : nat :=
  List.length expenses.

Definition avgPerDay (expenses : list Expense) : JS.number :=
  JS.div (JS.Fin (totalSpent expenses))
         (JS.Fin (if (0 <? List.length expenses)%nat
                  then JS.ofZ 7 else JS.ofZ 1)).

Definition pieData (expenses : list Expense) : list PieSlice :=
  map (fun item =>
         {| pie_category := ca_category item;
            pie_amount := ca_amount item;
            pie_percentage :=
              toFixed 1
                (JS.mul (JS.div (JS.Fin (ca_amount item))
                                (JS.Fin (totalSpent expenses)))
                        (JS.Fin (JS.ofZ 100))) |})
      (categoryData expenses).

End Platform.

End Client.

(** ** Vocabulary of the statements *)

Module Spec.

(** The transaction the category report records for an expense. *)
Definition transactionOf (e : Backend.Expense) : Backend.Transaction :=
  {| Backend.tx_amount := Backend.amount e;
     Backend.tx_description := Backend.description e;
     Backend.tx_date := Backend.date e |}.

(** The expenses of a category, in the order of the input. *)
Definition inCategory (c : string) (expenses : list Backend.Expense)
  : list Backend.Expense :=
  filter (fun e => String.eqb (Backend.category e) c) expenses.

(** The transactions of a category, in the order of the input. *)
Definition transactionsOf (c : string) (expenses : list Backend.Expense)
  : list Backend.Transaction :=
  map transactionOf (inCategory c expenses).

(** The transactions of a list that have a given amount, in their order. *)
Definition withAmount (v : Qc) (txs : list Backend.Transaction)
  : list Backend.Transaction :=
  filter (fun t => JS.eqb (Backend.tx_amount t) v) txs.

(** [a] may stand before [b] in a list sorted by amount descending. *)
Definition descending (a b : Backend.Transaction) : Prop :=
  (Backend.tx_amount b <= Backend.tx_amount a)%Qc.

(** What the grouping holds for a category. *)
Definition groupOf (c : string) (expenses : list Backend.Expense)
  : Backend.CategoryData :=
  {| Backend.total := JS.sum (map Backend.amount (inCategory c expenses));
     Backend.count := List.length (inCategory c expenses);
     Backend.transactions := transactionsOf c expenses |}.

(** The sum of the totals a grouping holds. *)
Definition dictTotal (d : Dict.t Backend.CategoryData) : Qc :=
  JS.sum (map (fun kv => Backend.total (snd kv)) d).

End Spec.

(** ** Sample data *)

Module Examples.

Definition expense (user : N) (a : Z) (c d : string) (t : Z)
  : Backend.Expense :=
  {| Backend.userId := user;
     Backend.amount := JS.ofZ a;
     Backend.category := c;
     Backend.description := "";
     Backend.date := d;
     Backend.timestamp := t;
     Backend.source := Backend.manual |}.

(** The three expenses of the example of the specification, entered at
    10:00 UTC of their day. *)
Definition expenses : list Backend.Expense :=
  [ expense 1 50 "Food" "2024-01-01" 1704103200000;
    expense 1 30 "Food" "2024-01-02" 1704189600000;
    expense 1 20 "Transport" "2024-01-01" 1704103200000 ].

(** A collection: the same expenses, one of the following week, one entered
    at the first instant of that week (Sunday 2024-01-07, 00:00 UTC), and
    one of another user. *)
Definition db : list Backend.Expense :=
  expenses
  ++ [ expense 1 150 "Bills" "2024-01-08" 1704708000000;
       expense 1 50 "Food" "2024-01-07" 1704585600000;
       expense 2 100 "Food" "2024-01-08" 1704708000000 ].

(** Wednesday 2024-01-10, 12:00 UTC. *)
Definition now : Z := 1704888000000.

Definition foodBudget : Backend.Budget :=
  {| Backend.b_userId := 1;
     Backend.b_category := "Food";
     Backend.limit := JS.ofZ 100;
     Backend.period := Backend.monthly |}.

Definition totalBudget : Backend.Budget :=
  {| Backend.b_userId := 1;
     Backend.b_category := "Total";
     Backend.limit := JS.ofZ 100;
     Backend.period := Backend.weekly |}.

(** A budget whose limit is 0. *)
Definition zeroBudget : Backend.Budget :=
  {| Backend.b_userId := 1;
     Backend.b_category := "Food";
     Backend.limit := JS.ofZ 0;
     Backend.period := Backend.monthly |}.

(** A budget of a category without expenses, whose limit is 0. *)
Definition idleBudget : Backend.Budget :=
  {| Backend.b_userId := 1;
     Backend.b_category := "Health";
     Backend.limit := JS.ofZ 0;
     Backend.period := Backend.monthly |}.

Definition clientExpense (i : string) (a : Z) (c d : string)
  : Client.Expense :=
  {| Client.id := i;
     Client.amount := JS.ofZ a;
     Client.category := c;
     Client.date := d |}.

Definition clientExpenses : list Client.Expense :=
  [ clientExpense "1" 50 "Eating Out" "2024-01-09";
    clientExpense "2" 30 "Transport" "2024-01-10";
    clientExpense "3" 20 "Eating Out" "2024-01-10" ].

(** Two expenses of amount 0, as the expense form accepts them. *)
Definition freeExpenses : list Client.Expense :=
  [ clientExpense "1" 0 "Leisure" "2024-01-09";
    clientExpense "2" 0 "Leisure" "2024-01-10" ].

Definition edited : Client.ExpenseFields :=
  {| Client.new_amount := JS.ofZ 75;
     Client.new_category := "Shopping";
     Client.new_date := "2024-01-08" |}.

(** The finite value of a number, if it has one. *)
Definition value (x : JS.number) : option Q :=
  match x with
  | JS.Fin q => Some (this q)
  | _ => None
  end.

End Examples.

(** ** App.tsx: adding expenses and saving goals *)

Module App.

(** [n.toString()] for an integer [n] of fewer than 22 digits, as
    [Date.now()] is. *)
Definition integerToString (n : Z) : string :=
  NilZero.string_of_int (Z.to_int n).

(** [handleAddExpense]: the new state of [expenses]; [now] is
    [Date.now()]. *)
Definition handleAddExpense (now : Z) (expenses : list Client.Expense)
  (expense : Client.ExpenseFields) : list Client.Expense :=
  let newExpense :=
    {| Client.id := integerToString now;
       Client.amount := Client.new_amount expense;
       Client.category := Client.new_category expense;
       Client.date := Client.new_date expense |} in
  expenses ++ [newExpense].

(** [SavingGoal]; the target amount is what [parseFloat] made of the input
    of the form. *)
Record SavingGoal : Type := {
  goal_id : string;
  goal_name : string;
  targetAmount : JS.number;
  currentAmount : JS.number;
  targetDate : string
}.

(** [Omit<SavingGoal, 'id' | 'currentAmount'>]. *)
Record GoalFields : Type := {
  new_name : string;
  new_targetAmount : JS.number;
  new_targetDate : string
}.

(** [handleAddGoal]: the new state of [savingGoals]. *)
Definition handleAddGoal (now : Z) (savingGoals : list SavingGoal)
  (goal : GoalFields) : list SavingGoal :=
  let newGoal :=
    {| goal_id := integerToString now;
       goal_name := new_name goal;
       targetAmount := new_targetAmount goal;
       currentAmount := JS.Fin 0%Qc;
       targetDate := new_targetDate goal |} in
  savingGoals ++ [newGoal].

(** The progress of a goal, in percent. *)
Definition progress (goal : SavingGoal) : JS.number :=
  JS.mul (JS.div (currentAmount goal) (targetAmount goal))
         (JS.Fin (JS.ofZ 100)).

(** *** The summary of the month

    [tz] is the offset of local time, [parseDate] the instant [new Date(s)]
    denotes ([None] for an invalid date, whose getters give [NaN], which
    equals nothing), and [now] the instant of every [new Date()] of the
    rendering. *)

Section MonthlySummary.

Variable tz : Z.
Variable parseDate : string -> option Z.
Variable now : Z.
Variable expenses : list Client.Expense.

Definition currentMonth : Z := Date.getMonth tz now.

Definition currentYear : Z := Date.getFullYear tz now.

Definition monthlyExpenses : list Client.Expense :=
  filter (fun e =>
            match parseDate (Client.date e) with
            | Some expenseDate =>
                (Date.getMonth tz expenseDate =? currentMonth)
                && (Date.getFullYear tz expenseDate =? currentYear)
            | None => false
            end)
         expenses.

Definition totalMonthlyExpenses : Qc := Client.sumAmounts monthlyExpenses.

Definition daysInMonth : Z :=
  Date.getDate tz (Date.makeDate tz currentYear (currentMonth + 1) 0).

Definition currentDay : Z := Date.getDate tz now.

Definition avgDailySpending : JS.number :=
  if (0 <? List.length monthlyExpenses)%nat
  then JS.div (JS.Fin totalMonthlyExpenses) (JS.Fin (JS.ofZ currentDay))
  else JS.Fin 0%Qc.

Definition daysRemaining : Z := daysInMonth - currentDay.

Definition predictedSpending : JS.number :=
  JS.mul avgDailySpending (JS.Fin (JS.ofZ daysRemaining)).

End MonthlySummary.

End App.

(** ** Calendar.tsx *)

Module Calendar.

(** [String(n).padStart(2, '0')] for an integer [n]. *)
Definition pad2 (n : Z) : string :=
  let s := App.integerToString n in
  if (String.length s <? 2)%nat then String "0"%char s else s.

(** The state of the component. *)
Record State : Type := {
  currentDate : Z;
  selectedDate : option string;
  editingExpense : option Client.Expense
}.

(** A cell of the grid: an empty cell before day 1, or the cell of a day
    with its key, its expenses, its total and its two marks. *)
Inductive Cell : Type :=
| emptyCell (i : Z)
| dayCell (day : Z) (date : string) (dayExpenses : list Client.Expense)
          (total : Qc) (isToday isSelected : bool).

Section Component.

(** The offset of local time, the expenses the component is given, and the
    instant of [new Date()]. *)
Variable tz : Z.
Variable expenses : list Client.Expense.
Variable now : Z.

Definition year (st : State) : Z := Date.getFullYear tz (currentDate st).

Definition month (st : State) : Z := Date.getMonth tz (currentDate st).

Definition firstDayOfMonth (st : State) : Z :=
  Date.makeDate tz (year st) (month st) 1.

Definition lastDayOfMonth (st : State) : Z :=
  Date.makeDate tz (year st) (month st + 1) 0.

Definition startingDayOfWeek (st : State) : Z :=
  Date.getDay tz (firstDayOfMonth st).

Definition daysInMonth (st : State) : Z :=
  Date.getDate tz (lastDayOfMonth st).

(** [new Date(year, month - 1)]: the day is 1 when it is not given. *)
Definition previousMonth (st : State) : State :=
  {| currentDate := Date.makeDate tz (year st) (month st - 1) 1;
     selectedDate := None;
     editingExpense := editingExpense st |}.

Definition nextMonth (st : State) : State :=
  {| currentDate := Date.makeDate tz (year st) (month st + 1) 1;
     selectedDate := None;
     editingExpense := editingExpense st |}.

Definition getExpensesForDate (date : string) : list Client.Expense :=
  filter (fun expense => String.eqb (Client.date expense) date) expenses.

Definition getTotalForDate (date : string) : Qc :=
  let dayExpenses := getExpensesForDate date in
  fold_left (fun sum expense => (sum + Client.amount expense)%Qc)
            dayExpenses 0%Qc.

(** The key of a day of the month shown. *)
Definition dateKey (st : State) (day : Z) : string :=
  (App.integerToString (year st) ++ "-" ++ pad2 (month st + 1)
   ++ "-" ++ pad2 day)%string.

(** The cells: the two loops that fill [days]. *)
Definition days (st : State) : list Cell :=
  map (fun i => emptyCell i)
      (map Z.of_nat (seq 0 (Z.to_nat (startingDayOfWeek st))))
  ++ map (fun day =>
            let date := dateKey st day in
            let dayExpenses := getExpensesForDate date in
            let total := getTotalForDate date in
            let isToday := String.eqb date (Date.toISODate now) in
            let isSelected :=
              match selectedDate st with
              | Some selected => String.eqb date selected
              | None => false
              end in
            dayCell day date dayExpenses total isToday isSelected)
         (map Z.of_nat (seq 1 (Z.to_nat (daysInMonth st)))).

(** A click on the cell of a day selects it, or clears the selection when
    it is the selected one. *)
Definition clickDay (st : State) (date : string) : State :=
  let isSelected :=
    match selectedDate st with
    | Some selected => String.eqb date selected
    | None => false
    end in
  {| currentDate := currentDate st;
     selectedDate := if isSelected then None else Some date;
     editingExpense := editingExpense st |}.

Definition selectedExpenses (st : State) : list Client.Expense :=
  match selectedDate st with
  | Some selected =>
      if String.eqb selected "" then [] else getExpensesForDate selected
  | None => []
  end.

Definition selectedTotal (st : State) : Qc :=
  match selectedDate st with
  | Some selected =>
      if String.eqb selected "" then 0%Qc else getTotalForDate selected
  | None => 0%Qc
  end.

End Component.

(** *** Editing an expense of the selected day *)

(** The edit button of an expense. *)
Definition startEditing (st : State) (expense : Client.Expense) : State :=
  {| currentDate := currentDate st;
     selectedDate := selectedDate st;
     editingExpense := Some expense |}.

(** The amount input: [parseFloat(e.target.value) || 0]; [parsed] is what
    [parseFloat] gave, a finite number or [NaN] ([None]), as the value of a
    number input does. *)
Definition typeAmount (st : State) (parsed : option Qc) : State :=
  match editingExpense st with
  | Some editing =>
      {| currentDate := currentDate st;
         selectedDate := selectedDate st;
         editingExpense :=
           Some {| Client.id := Client.id editing;
                   Client.amount := match parsed with
                                    | Some x => x
                                    | None => 0%Qc
                                    end;
                   Client.category := Client.category editing;
                   Client.date := Client.date editing |} |}
  | None => st
  end.

(** The category input. *)
Definition typeCategory (st : State) (value : string) : State :=
  match editingExpense st with
  | Some editing =>
      {| currentDate := currentDate st;
         selectedDate := selectedDate st;
         editingExpense :=
           Some {| Client.id := Client.id editing;
                   Client.amount := Client.amount editing;
                   Client.category := value;
                   Client.date := Client.date editing |} |}
  | None => st
  end.

(** What is typed into the two inputs. *)
Inductive Edit : Type :=
| editAmount (parsed : option Qc)
| editCategory (value : string).

Definition edit (st : State) (e : Edit) : State :=
  match e with
  | editAmount parsed => typeAmount st parsed
  | editCategory value => typeCategory st value
  end.

(** Save: [onEditExpense] is [handleEditExpense] of App.tsx, so the result
    is the new state of the component and the new expenses of the
    application. *)
Definition save (st : State) (expenses : list Client.Expense)
  : State * list Client.Expense :=
  match editingExpense st with
  | Some editing =>
      ({| currentDate := currentDate st;
          selectedDate := selectedDate st;
          editingExpense := None |},
       Client.handleEditExpense expenses (Client.id editing)
         {| Client.new_amount := Client.amount editing;
            Client.new_category := Client.category editing;
            Client.new_date := Client.date editing |})
  | None => (st, expenses)
  end.

Definition cancel (st : State) : State :=
  {| currentDate := currentDate st;
     selectedDate := selectedDate st;
     editingExpense := None |}.

End Calendar.

(** ** Onboarding.tsx *)

Module Onboarding.

Record Country : Type := {
  code : string;
  name : string;
  currency : string;
  symbol : string;
  flag : string
}.

Definition countries : list Country :=
  [ {| code := "US"; name := "United States"; currency := "USD";
       symbol := "$"; flag := "🇺🇸" |};
    {| code := "GB"; name := "United Kingdom"; currency := "GBP";
       symbol := "£"; flag := "🇬🇧" |};
    {| code := "EU"; name := "European Union"; currency := "EUR";
       symbol := "€"; flag := "🇪🇺" |};
    {| code := "JP"; name := "Japan"; currency := "JPY";
       symbol := "¥"; flag := "🇯🇵" |};
    {| code := "AU"; name := "Australia"; currency := "AUD";
       symbol := "A$"; flag := "🇦🇺" |};
    {| code := "CA"; name := "Canada"; currency := "CAD";
       symbol := "C$"; flag := "🇨🇦" |};
    {| code := "IN"; name := "India"; currency := "INR";
       symbol := "₹"; flag := "🇮🇳" |};
    {| code := "CN"; name := "China"; currency := "CNY";
       symbol := "¥"; flag := "🇨🇳" |};
    {| code := "BR"; name := "Brazil"; currency := "BRL";
       symbol := "R$"; flag := "🇧🇷" |};
    {| code := "MX"; name := "Mexico"; currency := "MXN";
       symbol := "$"; flag := "🇲🇽" |};
    {| code := "SG"; name := "Singapore"; currency := "SGD";
       symbol := "S$"; flag := "🇸🇬" |};
    {| code := "ZA"; name := "South Africa"; currency := "ZAR";
       symbol := "R"; flag := "🇿🇦" |};
    {| code := "CH"; name := "Switzerland"; currency := "CHF";
       symbol := "Fr"; flag := "🇨🇭" |};
    {| code := "SE"; name := "Sweden"; currency := "SEK";
       symbol := "kr"; flag := "🇸🇪" |};
    {| code := "KR"; name := "South Korea"; currency := "KRW";
       symbol := "₩"; flag := "🇰🇷" |} ].

Record Habit : Type := {
  label : string;
  emoji : string
}.

Definition habits : list Habit :=
  [ {| label := "Shopping"; emoji := "🛍" |};
    {| label := "Dining Out"; emoji := "🍔" |};
    {| label := "Coffee"; emoji := "☕" |};
    {| label := "Transport"; emoji := "🚗" |};
    {| label := "Entertainment"; emoji := "🍿" |};
    {| label := "Gaming"; emoji := "🎮" |};
    {| label := "Travel"; emoji := "✈️" |};
    {| label := "Groceries"; emoji := "🛒" |} ].

(** A row of [fixedExpenses]: [{ name, amount }], both strings. *)
Record Row : Type := {
  row_name : string;
  row_amount : string
}.

Inductive Field : Type := fieldName | fieldAmount.

(** The state of the component. *)
Record State : Type := {
  step : Z;
  age : string;
  selectedCountry : option Country;
  income : string;
  fixedExpenses : list Row;
  spendingHabits : list string
}.

(** The initial values of [useState]. *)
Definition initial : State :=
  {| step := 1;
     age := "";
     selectedCountry := None;
     income := "";
     fixedExpenses := [ {| row_name := ""; row_amount := "" |} ];
     spendingHabits := [] |}.

Definition setStep (st : State) (n : Z) : State :=
  {| step := n; age := age st; selectedCountry := selectedCountry st;
     income := income st; fixedExpenses := fixedExpenses st;
     spendingHabits := spendingHabits st |}.

Definition setAge (st : State) (value : string) : State :=
  {| step := step st; age := value; selectedCountry := selectedCountry st;
     income := income st; fixedExpenses := fixedExpenses st;
     spendingHabits := spendingHabits st |}.

Definition setSelectedCountry (st : State) (country : Country) : State :=
  {| step := step st; age := age st; selectedCountry := Some country;
     income := income st; fixedExpenses := fixedExpenses st;
     spendingHabits := spendingHabits st |}.

Definition setIncome (st : State) (value : string) : State :=
  {| step := step st; age := age st; selectedCountry := selectedCountry st;
     income := value; fixedExpenses := fixedExpenses st;
     spendingHabits := spendingHabits st |}.

Definition setFixedExpenses (st : State) (rows : list Row) : State :=
  {| step := step st; age := age st; selectedCountry := selectedCountry st;
     income := income st; fixedExpenses := rows;
     spendingHabits := spendingHabits st |}.

Definition setSpendingHabits (st : State) (hs : list string) : State :=
  {| step := step st; age := age st; selectedCountry := selectedCountry st;
     income := income st; fixedExpenses := fixedExpenses st;
     spendingHabits := hs |}.

(** A string is truthy when it is not empty. *)
Definition truthy (s : string) : bool := negb (String.eqb s "").

Definition addExpenseRow (st : State) : State :=
  setFixedExpenses st
    (fixedExpenses st ++ [ {| row_name := ""; row_amount := "" |} ]).

(** [rows.filter((_, i) => i !== index)]. *)
Definition withoutIndex (index : nat) (rows : list Row) : list Row :=
  map snd
      (filter (fun ir => negb (Nat.eqb (fst ir) index))
              (combine (seq 0 (List.length rows)) rows)).

Definition removeExpenseRow (st : State) (index : nat) : State :=
  if (1 <? List.length (fixedExpenses st))%nat
  then setFixedExpenses st (withoutIndex index (fixedExpenses st))
  else st.

Definition assign (field : Field) (value : string) (row : Row) : Row :=
  match field with
  | fieldName => {| row_name := value; row_amount := row_amount row |}
  | fieldAmount => {| row_name := row_name row; row_amount := value |}
  end.

(** [newExpenses[index][field] = value]. *)
Fixpoint assignAt (index : nat) (field : Field) (value : string)
  (rows : list Row) : list Row :=
  match rows, index with
  | [], _ => []
  | row :: rest, O => assign field value row :: rest
  | row :: rest, S index' => row :: assignAt index' field value rest
  end.

(** [updateExpense]; with an index that is not one of a row the assignment
    throws and no state is set. *)
Definition updateExpense (st : State) (index : nat) (field : Field)
  (value : string) : State :=
  if (index <? List.length (fixedExpenses st))%nat
  then setFixedExpenses st (assignAt index field value (fixedExpenses st))
  else st.

Definition toggleHabit (st : State) (habit : string) : State :=
  if existsb (String.eqb habit) (spendingHabits st)
  then setSpendingHabits st
         (filter (fun h => negb (String.eqb h habit)) (spendingHabits st))
  else setSpendingHabits st (spendingHabits st ++ [habit]).

Definition handleNext (st : State) : State :=
  if (step st =? 1) && truthy (age st) then setStep st 2
  else if (step st =? 2)
          && match selectedCountry st with Some _ => true | None => false end
       then setStep st 3
  else if (step st =? 3) && truthy (income st) then setStep st 4
  else if step st =? 4 then setStep st 5
  else st.

(** [x > 0] for a number. *)
Definition positive (x : JS.number) : bool :=
  match x with
  | JS.Fin q => JS.ltb 0%Qc q
  | JS.Infinity => true
  | _ => false
  end.

(** [UserData] of App.tsx; the age is what [parseInt] gave, an integer or
    [NaN], which is [None]. *)
Record FixedExpense : Type := {
  fe_name : string;
  fe_amount : JS.number
}.

Record UserData : Type := {
  data_age : option Z;
  data_country : string;
  data_currency : string;
  data_currencySymbol : string;
  data_income : JS.number;
  data_fixedExpenses : list FixedExpense;
  data_spendingHabits : list string
}.

(** What a click may act on: the elements the component renders at its
    step. *)
Inductive Event : Type :=
| typeAge (value : string)
| clickCountry (i : nat)
| typeIncome (value : string)
| typeExpense (index : nat) (field : Field) (value : string)
| clickRemove (index : nat)
| clickAdd
| clickHabit (i : nat)
| clickBack
| clickNext
| clickFinish.

Section Platform.

(** [parseInt] gives an integer or [NaN] ([None]); [parseFloat] gives a
    number. *)
Variable parseInt : string -> option Z.
Variable parseFloat : string -> JS.number.

(** [parseInt(age) >= 18 && parseInt(age) <= 100]; a comparison with [NaN]
    is false. *)
Definition ageInRange (s : string) : bool :=
  match parseInt s with
  | Some n => (18 <=? n) && (n <=? 100)
  | None => false
  end.

Definition canProceed (st : State) : bool :=
  if step st =? 1 then truthy (age st) && ageInRange (age st)
  else if step st =? 2
       then match selectedCountry st with Some _ => true | None => false end
  else if step st =? 3
       then truthy (income st) && positive (parseFloat (income st))
  else true.

(** [handleFinish]: the data [onComplete] is called with, or [None] when it
    returns without the call. *)
Definition handleFinish (st : State) : option UserData :=
  match selectedCountry st with
  | None => None
  | Some country =>
      let validExpenses :=
        map (fun exp => {| fe_name := row_name exp;
                           fe_amount := parseFloat (row_amount exp) |})
            (filter (fun exp => truthy (row_name exp)
                                && truthy (row_amount exp))
                    (fixedExpenses st)) in
      Some {| data_age := parseInt (age st);
              data_country := name country;
              data_currency := currency country;
              data_currencySymbol := symbol country;
              data_income := parseFloat (income st);
              data_fixedExpenses := validExpenses;
              data_spendingHabits := spendingHabits st |}
  end.

(** The state after an event. Each step renders its own inputs; the button
    of a country or of a habit is one of the list; the button that removes
    a row is rendered when there is more than one row; Back is rendered
    after step 1; Next is rendered before step 5 and is disabled unless
    [canProceed()]; the last button, at step 5, calls [handleFinish], which
    sets no state. An event on an element that is not rendered changes
    nothing. *)
Definition react (st : State) (ev : Event) : State :=
  match ev with
  | typeAge value => if step st =? 1 then setAge st value else st
  | clickCountry i =>
      if step st =? 2
      then match nth_error countries i with
           | Some country => setSelectedCountry st country
           | None => st
           end
      else st
  | typeIncome value => if step st =? 3 then setIncome st value else st
  | typeExpense index field value =>
      if step st =? 4 then updateExpense st index field value else st
  | clickRemove index =>
      if (step st =? 4) && (1 <? List.length (fixedExpenses st))%nat
      then removeExpenseRow st index
      else st
  | clickAdd => if step st =? 4 then addExpenseRow st else st
  | clickHabit i =>
      if step st =? 5
      then match nth_error habits i with
           | Some habit => toggleHabit st (label habit)
           | None => st
           end
      else st
  | clickBack => if 1 <? step st then setStep st (step st - 1) else st
  | clickNext =>
      if (step st <? 5) && canProceed st then handleNext st else st
  | clickFinish => st
  end.

(** The state after the events of a session. *)
Definition run (events : list Event) : State :=
  fold_left react events initial.

End Platform.

End Onboarding.

(** ** AddExpenseModal.tsx *)

Module AddExpenseModal.

Record Category : Type := {
  name : string;
  emoji : string
}.

Definition categories : list Category :=
  [ {| name := "Eating Out"; emoji := "🍔" |};
    {| name := "Shopping"; emoji := "🛍️" |};
    {| name := "Subscription"; emoji := "📱" |};
    {| name := "Transport"; emoji := "🚗" |};
    {| name := "Leisure"; emoji := "🎬" |} ].

(** The state of the form. *)
Record State : Type := {
  amount : string;
  category : string;
  customCategory : string;
  showCustomInput : bool;
  date : string
}.

(** The initial values of [useState], which are also the values the form is
    reset to; [now] is the instant of [new Date()]. *)
Definition initial (now : Z) : State :=
  {| amount := "";
     category := "";
     customCategory := "";
     showCustomInput := false;
     date := Date.toISODate now |}.

(** What [onAdd] is called with; the amount is what [parseFloat] gave. *)
Record Submission : Type := {
  sub_amount : JS.number;
  sub_category : string;
  sub_date : string
}.

Definition truthy (s : string) : bool := negb (String.eqb s "").

Inductive Event : Type :=
| typeAmount (value : string)
| typeDate (value : string)
| clickCategory (i : nat)
| clickCustom
| typeCustomCategory (value : string)
| clickSubmit (now : Z).

Section Platform.

Variable parseFloat : string -> JS.number.

(** [handleSubmit]: what [onAdd] is called with, if it is, and the new
    state; [now] is the instant of the [new Date()] of the reset. *)
Definition handleSubmit (now : Z) (st : State) : option Submission * State :=
  if negb (truthy (amount st))
     || (negb (truthy (category st)) && negb (truthy (customCategory st)))
  then (None, st)
  else (Some {| sub_amount := parseFloat (amount st);
                sub_category := if truthy (customCategory st)
                                then customCategory st
                                else category st;
                sub_date := date st |},
        initial now).

(** The state after an event: the button of a category is one of the list,
    the input of the custom category is rendered when [showCustomInput],
    and the submit button is disabled by the test [handleSubmit] starts
    with. *)
Definition react (st : State) (ev : Event) : State :=
  match ev with
  | typeAmount value =>
      {| amount := value; category := category st;
         customCategory := customCategory st;
         showCustomInput := showCustomInput st; date := date st |}
  | typeDate value =>
      {| amount := amount st; category := category st;
         customCategory := customCategory st;
         showCustomInput := showCustomInput st; date := value |}
  | clickCategory i =>
      match nth_error categories i with
      | Some cat =>
          {| amount := amount st; category := name cat;
             customCategory := "";
             showCustomInput := false; date := date st |}
      | None => st
      end
  | clickCustom =>
      {| amount := amount st; category := "";
         customCategory := customCategory st;
         showCustomInput := true; date := date st |}
  | typeCustomCategory value =>
      if showCustomInput st
      then {| amount := amount st; category := category st;
              customCategory := value;
              showCustomInput := showCustomInput st; date := date st |}
      else st
  | clickSubmit now => snd (handleSubmit now st)
  end.

(** The state after the events of a session that starts at [now]. *)
Definition run (now : Z) (events : list Event) : State :=
  fold_left react events (initial now).

End Platform.

End AddExpenseModal.

(** ** AddGoalModal.tsx *)

Module AddGoalModal.

Record State : Type := {
  name : string;
  targetAmount : string;
  targetDate : string
}.

Definition initial : State :=
  {| name := ""; targetAmount := ""; targetDate := "" |}.

Definition truthy (s : string) : bool := negb (String.eqb s "").

Section Platform.

Variable parseFloat : string -> JS.number.

(** [handleSubmit]: what [onAdd] is called with, if it is, and the new
    state. *)
Definition handleSubmit (st : State) : option App.GoalFields * State :=
  if negb (truthy (name st)) || negb (truthy (targetAmount st))
     || negb (truthy (targetDate st))
  then (None, st)
  else (Some {| App.new_name := name st;
                App.new_targetAmount := parseFloat (targetAmount st);
                App.new_targetDate := targetDate st |},
        initial).

(** Submitting the form in the application: [onAdd] is [handleAddGoal] of
    App.tsx, called at the instant [now]. *)
Definition submit (now : Z) (savingGoals : list App.SavingGoal) (st : State)
  : list App.SavingGoal :=
  match fst (handleSubmit st) with
  | Some goal => App.handleAddGoal now savingGoals goal
  | None => savingGoals
  end.

End Platform.

End AddGoalModal.

(** ** Vocabulary of the calendar *)

Module Cal.

(** The first day of year [y] of a period of 400 years, counted from the
    first day of the period; the years start on March 1. *)
Definition yearStart (y : Z) : Z := 365 * y + y / 4 - y / 100.

(** The first day of month [mp] of such a year, counted from its first day;
    month 0 is March. *)
Definition monthStart (mp : Z) : Z := (153 * mp + 2) / 5.

(** Day [z] is day [dd] (from 0) of month [mp] of year [yoe] of period
    [era]. *)
Definition coords (z era yoe mp dd : Z) : Prop :=
  z + 719468 = 146097 * era + yearStart yoe + monthStart mp + dd
  /\ 0 <= yoe <= 399
  /\ 0 <= mp <= 11
  /\ 0 <= dd
  /\ monthStart mp + dd < monthStart (mp + 1)
  /\ (yearStart yoe + monthStart mp + dd < yearStart (yoe + 1)
      \/ (yoe = 399 /\ mp = 11 /\ dd = 28)).

(** The date of these coordinates. *)
Definition dateOf (era yoe mp dd : Z) : Z * Z * Z :=
  (yoe + era * 400 + (if mp <? 10 then 0 else 1),
   (if mp <? 10 then mp + 3 else mp - 9),
   dd + 1).

(** The number of the month of a year, counted from year 0. *)
Definition monthNumber (y m : Z) : Z := y * 12 + m.

(** The integers from [from] to [from + n - 1]. *)
Definition range (from : Z) (n : nat) : list Z :=
  map (fun i => from + Z.of_nat i) (seq 0 n).

End Cal.

(** ** Vocabulary of the further statements *)

Module More.

(** The sum of the counts a grouping holds. *)
Definition dictCount (d : Dict.t Backend.CategoryData) : nat :=
  list_sum (map (fun kv => Backend.count (snd kv)) d).

(** The amounts of a collection are not negative, as the schema asks. *)
Definition nonNegative (db : list Backend.Expense) : Prop :=
  Forall (fun e => (0 <= Backend.amount e)%Qc) db.

(** The amounts of the expenses of the client in a category. *)
Definition clientAmounts (c : string) (expenses : list Client.Expense)
  : list Qc :=
  map Client.amount
      (filter (fun e => String.eqb (Client.category e) c) expenses).

(** What holds of the state of the wizard at its step: the step is one of
    the five, there is a row of fixed expenses, no habit is listed twice and
    every habit and the country are of the lists of the component, and the
    answers of the steps gone through passed the checks of [canProceed]. *)
Definition answered (parseInt : string -> option Z)
  (parseFloat : string -> JS.number) (st : Onboarding.State) : Prop :=
  1 <= Onboarding.step st <= 5
  /\ Onboarding.fixedExpenses st <> []
  /\ NoDup (Onboarding.spendingHabits st)
  /\ (forall h, In h (Onboarding.spendingHabits st) ->
                In h (map Onboarding.label Onboarding.habits))
  /\ (forall c, Onboarding.selectedCountry st = Some c ->
                In c Onboarding.countries)
  /\ (2 <= Onboarding.step st ->
      Onboarding.age st <> ""%string
      /\ exists n, parseInt (Onboarding.age st) = Some n /\ 18 <= n <= 100)
  /\ (3 <= Onboarding.step st -> Onboarding.selectedCountry st <> None)
  /\ (4 <= Onboarding.step st ->
      Onboarding.income st <> ""%string
      /\ Onboarding.positive (parseFloat (Onboarding.income st)) = true).

(** The day of the cell of a day of the calendar. *)
Definition cellDay (c : Calendar.Cell) : list Z :=
  match c with
  | Calendar.emptyCell _ => []
  | Calendar.dayCell day _ _ _ _ _ => [day]
  end.

(** The expenses of a user. *)
Definition ofUser (user : N) (db : list Backend.Expense)
  : list Backend.Expense :=
  filter (fun e => (Backend.userId e =? user)%N) db.

(** The names every object inherits from [Object.prototype]: read on an
    empty object they give a function or an object, not [undefined]. *)
Definition inherited : list string :=
  [ "constructor"; "hasOwnProperty"; "isPrototypeOf"; "propertyIsEnumerable";
    "toLocaleString"; "toString"; "valueOf"; "__proto__";
    "__defineGetter__"; "__defineSetter__"; "__lookupGetter__";
    "__lookupSetter__" ]%string.

Definition startsWithDigit (k : string) : bool :=
  match k with
  | String c _ => ((48 <=? nat_of_ascii c) && (nat_of_ascii c <=? 57))%nat
  | EmptyString => false
  end.

(** A key that an object literal used as a map holds as the association
    list does: it is not an inherited name, and it is not the numeral of an
    array index, which the enumeration of the keys puts first. *)
Definition plainKey (k : string) : bool :=
  negb (existsb (String.eqb k) inherited) && negb (startsWithDigit k).

(** The expenses of the client have plain keys for categories. *)
Definition plainCategories (expenses : list Client.Expense) : Prop :=
  Forall (fun e => plainKey (Client.category e) = true) expenses.

End More.

(** ** Dates under the rules of a time zone

    The abstract operations of the ECMAScript specification of [Date], with
    the time zone of the platform as a parameter.  The range of the time
    values ([TimeClip]) is not modelled. *)

Module Zoned.

(** What the platform knows of its time zone, in milliseconds:
    [offsetAt t] is the offset of local time from UTC at the instant [t],
    and [offsetOfLocal t] is the offset the local time value [t] is read
    with, which is the offset before the change when [t] is skipped or
    repeated at a change of offset. *)
Record Zone : Type := {
  offsetAt : Z -> Z;
  offsetOfLocal : Z -> Z
}.

(** A zone whose offset never changes. *)
Definition fixed (tz : Z) : Zone :=
  {| offsetAt := fun _ => tz; offsetOfLocal := fun _ => tz |}.

Definition Day (t : Z) : Z := t / Date.msPerDay.

Definition TimeWithinDay (t : Z) : Z := t mod Date.msPerDay.

Definition YearFromTime (t : Z) : Z :=
  let '(y, _, _) := Date.civil_from_days (Day t) in y.

(** Months are counted from 0. *)
Definition MonthFromTime (t : Z) : Z :=
  let '(_, m, _) := Date.civil_from_days (Day t) in m - 1.

Definition DateFromTime (t : Z) : Z :=
  let '(_, _, d) := Date.civil_from_days (Day t) in d.

(** 0 is Sunday; 1970-01-01 was a Thursday. *)
Definition WeekDay (t : Z) : Z := (Day t + 4) mod 7.

(** The day number of a year, a month index and a day of the month; a month
    index outside 0..11 carries into the year and a day outside the month
    into the neighbouring months. *)
Definition MakeDay (year month date : Z) : Z :=
  Date.days_from_civil (year + month / 12) (month mod 12 + 1) 1 + date - 1.

Definition MakeDate (day time : Z) : Z := day * Date.msPerDay + time.

Section Rules.

Variable zone : Zone.

Definition LocalTime (t : Z) : Z := t + offsetAt zone t.

(** The instant of a local time value. *)
Definition UTC (t : Z) : Z := t - offsetOfLocal zone t.

Definition getFullYear (t : Z) : Z := YearFromTime (LocalTime t).

Definition getMonth (t : Z) : Z := MonthFromTime (LocalTime t).

Definition getDate (t : Z) : Z := DateFromTime (LocalTime t).

Definition getDay (t : Z) : Z := WeekDay (LocalTime t).

(** [t.setDate(date)]: the local year, month and time of day are kept. *)
Definition setDate (t date : Z) : Z :=
  let local := LocalTime t in
  UTC (MakeDate (MakeDay (YearFromTime local) (MonthFromTime local) date)
                (TimeWithinDay local)).

(** [t.setHours(0, 0, 0, 0)]. *)
Definition setHoursZero (t : Z) : Z :=
  let local := LocalTime t in
  UTC (MakeDate (Day local) 0).

(** [new Date(year, monthIndex, day)]: a year in 0..99 means
    1900 + year. *)
Definition makeDate (year monthIndex day : Z) : Z :=
  let year := if (0 <=? year) && (year <=? 99) then 1900 + year else year in
  UTC (MakeDate (MakeDay year monthIndex day) 0).

(** The platform shows the local time value [t] at the instant it reads it
    as: [t] is not skipped at a change of offset. *)
Definition shown (t : Z) : Prop := LocalTime (UTC t) = t.

(** The instant the platform reads the local time value [t] as is on the
    local day of [t]. *)
Definition sameDay (t : Z) : Prop := Day (LocalTime (UTC t)) = Day t.

End Rules.

End Zoned.

(** *** Sample zones *)

Module Zones.

Definition hour : Z := 3600000.

(** Asia/Kolkata: five and a half hours ahead of UTC. *)
Definition kolkata : Zoned.Zone := Zoned.fixed (11 * hour / 2).

(** The two changes of America/New_York in 2024: 2024-03-10 07:00 UTC and
    2024-11-03 06:00 UTC. *)
Definition spring : Z := 1710054000000.

Definition autumn : Z := 1730613600000.

(** America/New_York by its rules of 2024: five hours behind UTC, four
    between the two changes.  The local times from 02:00 to 03:00 of
    2024-03-10 are skipped and those from 01:00 to 02:00 of 2024-11-03 are
    repeated; both are read with the offset before the change. *)
Definition newYork : Zoned.Zone :=
  {| Zoned.offsetAt :=
       fun t => if t <? spring then -5 * hour
                else if t <? autumn then -4 * hour
                else -5 * hour;
     Zoned.offsetOfLocal :=
       fun t => if t <? spring - 4 * hour then -5 * hour
                else if t <? autumn - 4 * hour then -4 * hour
                else -5 * hour |}.

End Zones.

(** *** The trend report and the budget status under the rules of a zone *)

Module ZonedBackend.

Section Handler.

Variable zone : Zoned.Zone.

Definition startOfCurrentWeek (now : Z) : Z :=
  Zoned.setHoursZero zone
    (Zoned.setDate zone now (Zoned.getDate zone now - Zoned.getDay zone now)).

Definition startOfLastWeek (now : Z) : Z :=
  let s := startOfCurrentWeek now in
  Zoned.setDate zone s (Zoned.getDate zone s - 7).

Definition endOfLastWeek (now : Z) : Z := startOfCurrentWeek now.

Definition startOfCurrentMonth (now : Z) : Z :=
  Zoned.makeDate zone (Zoned.getFullYear zone now) (Zoned.getMonth zone now) 1.

Definition startOfLastMonth (now : Z) : Z :=
  Zoned.makeDate zone (Zoned.getFullYear zone now)
                 (Zoned.getMonth zone now - 1) 1.

Definition endOfLastMonth (now : Z) : Z :=
  Zoned.makeDate zone (Zoned.getFullYear zone now) (Zoned.getMonth zone now) 1.

Definition currentWeekExpenses (now : Z) (user : N)
  (db : list Backend.Expense) : list Backend.Expense :=
  Backend.find (fun e => (Backend.userId e =? user)%N
                         && (startOfCurrentWeek now <=? Backend.timestamp e))
               db.

Definition lastWeekExpenses (now : Z) (user : N)
  (db : list Backend.Expense) : list Backend.Expense :=
  Backend.find (fun e => (Backend.userId e =? user)%N
                         && ((startOfLastWeek now <=? Backend.timestamp e)
                             && (Backend.timestamp e <? endOfLastWeek now)))
               db.

Definition currentMonthExpenses (now : Z) (user : N)
  (db : list Backend.Expense) : list Backend.Expense :=
  Backend.find (fun e => (Backend.userId e =? user)%N
                         && (startOfCurrentMonth now <=? Backend.timestamp e))
               db.

Definition lastMonthExpenses (now : Z) (user : N)
  (db : list Backend.Expense) : list Backend.Expense :=
  Backend.find (fun e => (Backend.userId e =? user)%N
                         && ((startOfLastMonth now <=? Backend.timestamp e)
                             && (Backend.timestamp e <? endOfLastMonth now)))
               db.

Definition trends (now : Z) (user : N) (db : list Backend.Expense)
  : Backend.Trends :=
  let currentWeekTotal :=
    Backend.sumAmounts (currentWeekExpenses now user db) in
  let lastWeekTotal := Backend.sumAmounts (lastWeekExpenses now user db) in
  let currentMonthTotal :=
    Backend.sumAmounts (currentMonthExpenses now user db) in
  let lastMonthTotal := Backend.sumAmounts (lastMonthExpenses now user db) in
  let weekChange :=
    if JS.ltb 0%Qc lastWeekTotal
    then JS.mul (JS.div (JS.Fin (currentWeekTotal - lastWeekTotal)%Qc)
                        (JS.Fin lastWeekTotal))
                (JS.Fin (JS.ofZ 100))
    else JS.Fin 0%Qc in
  let monthChange :=
    if JS.ltb 0%Qc lastMonthTotal
    then JS.mul (JS.div (JS.Fin (currentMonthTotal - lastMonthTotal)%Qc)
                        (JS.Fin lastMonthTotal))
                (JS.Fin (JS.ofZ 100))
    else JS.Fin 0%Qc in
  {| Backend.week :=
       {| Backend.current := currentWeekTotal;
          Backend.last := lastWeekTotal;
          Backend.change := weekChange;
          Backend.difference := (currentWeekTotal - lastWeekTotal)%Qc |};
     Backend.month :=
       {| Backend.current := currentMonthTotal;
          Backend.last := lastMonthTotal;
          Backend.change := monthChange;
          Backend.difference := (currentMonthTotal - lastMonthTotal)%Qc |} |}.

(** *** The budget status under the rules of a zone *)

Definition startOfMonth (now : Z) : Z :=
  Zoned.makeDate zone (Zoned.getFullYear zone now) (Zoned.getMonth zone now) 1.

(** The start of the week of the budgets: there is no [setHours] here, so
    it keeps the time of day of [now]. *)
Definition startOfWeek (now : Z) : Z :=
  Zoned.setDate zone now (Zoned.getDate zone now - Zoned.getDay zone now).

Definition startDate (now : Z) (b : Backend.Budget) : Z :=
  match Backend.period b with
  | Backend.monthly => startOfMonth now
  | Backend.weekly => startOfWeek now
  end.

(** The expenses a budget counts: ["Total"] asks only that the category
    exists, which every expense satisfies. *)
Definition budgetExpenses (now : Z) (user : N) (b : Backend.Budget)
  (db : list Backend.Expense) : list Backend.Expense :=
  Backend.find
    (fun e => (Backend.userId e =? user)%N
              && (if String.eqb (Backend.b_category b) "Total" then true
                  else String.eqb (Backend.category e) (Backend.b_category b))
              && (startDate now b <=? Backend.timestamp e))
    db.

Definition statusOf (now : Z) (user : N) (db : list Backend.Expense)
  (b : Backend.Budget) : Backend.BudgetStatus :=
  let expenses := budgetExpenses now user b db in
  let spent := Backend.sumAmounts expenses in
  let remaining := (Backend.limit b - spent)%Qc in
  let percentage :=
    JS.mul (JS.div (JS.Fin spent) (JS.Fin (Backend.limit b)))
           (JS.Fin (JS.ofZ 100)) in
  {| Backend.budget := b;
     Backend.spent := spent;
     Backend.remaining := remaining;
     Backend.status_percentage := percentage;
     Backend.isOverBudget := JS.ltb (Backend.limit b) spent |}.

Definition budgetStatus (now : Z) (user : N) (budgets : list Backend.Budget)
  (db : list Backend.Expense) : list Backend.BudgetStatus :=
  map (statusOf now user db)
      (Backend.find (fun b => (Backend.b_userId b =? user)%N) budgets).

End Handler.

End ZonedBackend.

(** *** The daily series under the rules of a zone *)

Module ZonedClient.

Section Component.

Variable zone : Zoned.Zone.
Variable toLocaleDateString : Client.LabelFormat -> string -> string.

(** The keys of the last seven days; every [new Date()] of one rendering is
    the one instant [now]. *)
Definition last7Days (now : Z) : list string :=
  map (fun i =>
         let date := now in
         let date :=
           Zoned.setDate zone date (Zoned.getDate zone date - (6 - i)) in
         Date.toISODate date)
      (map Z.of_nat (seq 0 7)).

(** [dailySpending] of App.tsx. *)
Definition dailySpending (now : Z) (expenses : list Client.Expense)
  : list Client.Point :=
  map (fun key =>
         let dayExpenses :=
           filter (fun e => String.eqb (Client.date e) key) expenses in
         let total := Client.sumAmounts dayExpenses in
         {| Client.point_date := toLocaleDateString Client.weekdayShort key;
            Client.point_amount := total |})
      (last7Days now).

(** [dailyData] of SpendingTrendsModal.tsx, which computes the keys by the
    same code. *)
Definition dailyData (now : Z) (expenses : list Client.Expense)
  : list Client.Point :=
  map (fun key =>
         let dayExpenses :=
           filter (fun e => String.eqb (Client.date e) key) expenses in
         let total := Client.sumAmounts dayExpenses in
         {| Client.point_date :=
              toLocaleDateString Client.monthShortDayNumeric key;
            Client.point_amount := total |})
      (last7Days now).

End Component.

(** The calendar date of today in local time, as a key. *)
Definition today (zone : Zoned.Zone) (now : Z) : string :=
  Date.isoDateOfDay (Zoned.Day (Zoned.LocalTime zone now)).

End ZonedClient.

(** *** The summary of the month under the rules of a zone *)

Module ZonedApp.

Section MonthlySummary.

(** [parseDate] is the instant [new Date(s)] denotes, [None] for an invalid
    date, whose getters give [NaN], which equals nothing; [now] is the
    instant of every [new Date()] of the rendering. *)
Variable zone : Zoned.Zone.
Variable parseDate : string -> option Z.
Variable now : Z.
Variable expenses : list Client.Expense.

Definition currentMonth : Z := Zoned.getMonth zone now.

Definition currentYear : Z := Zoned.getFullYear zone now.

Definition monthlyExpenses : list Client.Expense :=
  filter (fun e =>
            match parseDate (Client.date e) with
            | Some expenseDate =>
                (Zoned.getMonth zone expenseDate =? currentMonth)
                && (Zoned.getFullYear zone expenseDate =? currentYear)
            | None => false
            end)
         expenses.

Definition totalMonthlyExpenses : Qc := Client.sumAmounts monthlyExpenses.

Definition daysInMonth : Z :=
  Zoned.getDate zone (Zoned.makeDate zone currentYear (currentMonth + 1) 0).

Definition currentDay : Z := Zoned.getDate zone now.

Definition avgDailySpending : JS.number :=
  if (0 <? List.length monthlyExpenses)%nat
  then JS.div (JS.Fin totalMonthlyExpenses) (JS.Fin (JS.ofZ currentDay))
  else JS.Fin 0%Qc.

Definition daysRemaining : Z := daysInMonth - currentDay.

Definition predictedSpending : JS.number :=
  JS.mul avgDailySpending (JS.Fin (JS.ofZ daysRemaining)).

End MonthlySummary.

End ZonedApp.

(** ** Binary64 numbers

    The numbers of JavaScript as they are: the floating-point numbers of
    IEEE 754 with 53 bits of precision, with the operations of the
    specification of floating-point arithmetic of the Standard Library,
    which round to the nearest number, to the even one of two nearest. *)

Module Binary64.

Definition number : Type := spec_float.

Definition prec : Z := 53.

Definition emax : Z := 1024.

(** The number of an integer. *)
Definition ofZ (z : Z) : number := binary_normalize prec emax z 0 false.

Definition add (x y : number) : number := SFadd prec emax x y.

Definition sub (x y : number) : number := SFsub prec emax x y.

Definition mul (x y : number) : number := SFmul prec emax x y.

Definition div (x y : number) : number := SFdiv prec emax x y.

(** [x < y], which is false when one of them is [NaN]. *)
Definition ltb (x y : number) : bool := SFltb x y.

(** The number a decimal literal [n / 10^k] denotes: the number nearest to
    it, for [n] and [10^k] below [2^53]. *)
Definition decimal (n : Z) (k : nat) : number :=
  div (ofZ n) (ofZ (10 ^ Z.of_nat k)).

Definition isFinite (x : number) : bool :=
  match x with
  | S754_zero _ | S754_finite _ _ _ => true
  | _ => false
  end.

(** The rational a finite number is. *)
Definition value (x : number) : Qc :=
  match x with
  | S754_finite s m e =>
      Q2Qc (inject_Z (if s then Z.neg m else Z.pos m) * Qpower 2 e)
  | _ => 0%Qc
  end.

(** [x] is the finite number whose value is [q]. *)
Definition exact (x : number) (q : Qc) : Prop :=
  isFinite x = true /\ value x = q.

(** The sign of [x], which is what a comparator of [sort] is read for; the
    sign of [NaN] is 0. *)
Definition sign (x : number) : Qc :=
  match x with
  | S754_finite s _ _ | S754_infinity s => if s then (- (1))%Qc else 1%Qc
  | _ => 0%Qc
  end.

(** [xs.reduce((sum, x) => sum + x, 0)]. *)
Definition sum (xs : list number) : number := fold_left add xs (ofZ 0).

End Binary64.

(** ** The category report in binary64

    The handler of [/api/analytics/categories] with the amounts as the
    binary64 numbers they are. *)

Module Backend64.

Record Expense : Type := {
  userId : N;
  amount : Binary64.number;
  category : string;
  description : string;
  date : string;
  timestamp : Z;
  source : Backend.Source
}.

(** [expenses.reduce((sum, e) => sum + e.amount, 0)]. *)
Definition sumAmounts (expenses : list Expense) : Binary64.number :=
  fold_left (fun sum e => Binary64.add sum (amount e)) expenses
            (Binary64.ofZ 0).

Record Transaction : Type := {
  tx_amount : Binary64.number;
  tx_description : string;
  tx_date : string
}.

Record CategoryData : Type := {
  total : Binary64.number;
  count : nat;
  transactions : list Transaction
}.

Definition groupExpense (acc : Dict.t CategoryData) (exp : Expense)
  : Dict.t CategoryData :=
  let data :=
    match Dict.get (category exp) acc with
    | Some data => data
    | None => {| total := Binary64.ofZ 0; count := 0%nat;
                 transactions := [] |}
    end in
  Dict.set (category exp)
    {| total := Binary64.add (total data) (amount exp);
       count := (count data + 1)%nat;
       transactions := transactions data
                       ++ [ {| tx_amount := amount exp;
                               tx_description := description exp;
                               tx_date := date exp |} ] |}
    acc.

Definition categoryData (expenses : list Expense) : Dict.t CategoryData :=
  fold_left groupExpense expenses [].

Record CategoryInsight : Type := {
  cat_category : string;
  cat_total : Binary64.number;
  cat_count : nat;
  percentage : Binary64.number;
  avgPerTransaction : Binary64.number;
  topExpenses : list Transaction
}.

Record CategoryReport : Type := {
  categories : list CategoryInsight;
  totalSpent : Binary64.number;
  totalTransactions : nat
}.

Definition insight (totalSpent : Binary64.number)
  (entry : string * CategoryData) : CategoryInsight :=
  let '(category, data) := entry in
  {| cat_category := category;
     cat_total := total data;
     cat_count := count data;
     percentage :=
       if Binary64.ltb (Binary64.ofZ 0) totalSpent
       then Binary64.mul (Binary64.div (total data) totalSpent)
                         (Binary64.ofZ 100)
       else Binary64.ofZ 0;
     avgPerTransaction :=
       if (0 <? count data)%nat
       then Binary64.div (total data)
                         (Binary64.ofZ (Z.of_nat (count data)))
       else Binary64.ofZ 0;
     topExpenses :=
       Array.slice0 5
         (Array.sort
            (fun a b => Binary64.sign
                          (Binary64.sub (tx_amount b) (tx_amount a)))
            (transactions data)) |}.

Definition categoryInsights (expenses : list Expense) : CategoryReport :=
  let totalSpent := sumAmounts expenses in
  let categories :=
    map (insight totalSpent) (Dict.entries (categoryData expenses)) in
  {| categories :=
       Array.sort
         (fun a b => Binary64.sign
                       (Binary64.sub (cat_total b) (cat_total a)))
         categories;
     totalSpent := totalSpent;
     totalTransactions := List.length expenses |}.

(** The amounts of the expenses of a category, in the order of the
    input. *)
Definition amountsOf (c : string) (expenses : list Expense)
  : list Binary64.number :=
  map amount (filter (fun e => String.eqb (category e) c) expenses).

End Backend64.

(** *** Sample cases *)

Module Cases.

Definition expense64 (a : Binary64.number) (c : string) : Backend64.Expense :=
  {| Backend64.userId := 1;
     Backend64.amount := a;
     Backend64.category := c;
     Backend64.description := "";
     Backend64.date := "2024-01-01";
     Backend64.timestamp := 1704103200000;
     Backend64.source := Backend.manual |}.

(** Amounts of 0.1, 0.2 and 0.3. *)
Definition cents : list Backend64.Expense :=
  [ expense64 (Binary64.decimal 1 1) "Food";
    expense64 (Binary64.decimal 2 1) "Transport";
    expense64 (Binary64.decimal 3 1) "Transport" ].

(** The amounts of the example of the specification. *)
Definition whole : list Backend64.Expense :=
  [ expense64 (Binary64.ofZ 50) "Food";
    expense64 (Binary64.ofZ 30) "Food";
    expense64 (Binary64.ofZ 20) "Transport" ].

(** The expenses of a week that starts on Sunday 2024-01-07: of user 1 on
    Sunday at 08:00 and at 09:00 UTC, on Monday at 10:00 and on Tuesday at
    10:00, and one of user 2. *)
Definition week : list Backend.Expense :=
  [ Examples.expense 1 3 "Food" "2024-01-07" 1704614400000;
    Examples.expense 1 5 "Transport" "2024-01-07" 1704618000000;
    Examples.expense 1 12 "Food" "2024-01-08" 1704708000000;
    Examples.expense 1 20 "Transport" "2024-01-09" 1704794400000;
    Examples.expense 2 100 "Food" "2024-01-08" 1704708000000 ].

Definition weeklyFood : Backend.Budget :=
  {| Backend.b_userId := 1;
     Backend.b_category := "Food";
     Backend.limit := JS.ofZ 14;
     Backend.period := Backend.weekly |}.

Definition weeklyTotal : Backend.Budget :=
  {| Backend.b_userId := 1;
     Backend.b_category := "Total";
     Backend.limit := JS.ofZ 35;
     Backend.period := Backend.weekly |}.

(** The number a string of decimal digits writes. *)
Fixpoint numeral (s : string) (acc : Z) : option Z :=
  match s with
  | EmptyString => Some acc
  | String c r =>
      let n := nat_of_ascii c in
      if ((48 <=? n) && (n <=? 57))%nat
      then numeral r (10 * acc + Z.of_nat (n - 48))
      else None
  end.

(** [new Date(s)] for a date string [YYYY-MM-DD] of a day of the calendar,
    as the client writes its dates: midnight UTC of that day.  Other
    strings have no instant here. *)
Definition parseDate (s : string) : option Z :=
  match numeral (substring 0 4 s) 0, numeral (substring 5 2 s) 0,
        numeral (substring 8 2 s) 0 with
  | Some y, Some m, Some d =>
      let day := Date.days_from_civil y m d in
      if String.eqb (Date.isoDateOfDay day) s
      then Some (day * Date.msPerDay)
      else None
  | _, _, _ => None
  end.

(** Expenses of the client dated around March 2024. *)
Definition march : list Client.Expense :=
  [ Examples.clientExpense "a" 40 "Bills" "2024-03-01";
    Examples.clientExpense "b" 26 "Food" "2024-03-02";
    Examples.clientExpense "c" 13 "Food" "2024-04-01" ].

End Cases.

(** * Properties *)

(** ** Numbers *)

Lemma ltb_lt (a b : Qc) : JS.ltb a b = true <-> (a < b)%Qc.
Proof.
  unfold JS.ltb. rewrite Qclt_alt.
  destruct (a ?= b)%Qc; split; intro H; congruence.
Qed.

Lemma eqb_eq (a b : Qc) : JS.eqb a b = true <-> a = b.
Proof.
  unfold JS.eqb. rewrite Qceq_alt.
  destruct (a ?= b)%Qc; split; intro H; congruence.
Qed.

Lemma sign_zero_iff (a : Qc) : JS.sign a = 0 <-> a = 0%Qc.
Proof.
  unfold JS.sign. rewrite Qceq_alt.
  destruct (a ?= 0)%Qc; split; intro H; try congruence; discriminate.
Qed.

Lemma fold_plus_acc (xs : list Qc) (a : Qc) :
  fold_left Qcplus xs a = (a + JS.sum xs)%Qc.
Proof.
  unfold JS.sum. revert a.
  induction xs as [|x xs IH]; intro a; simpl.
  - now rewrite Qcplus_0_r.
  - rewrite IH, (IH (0 + x)%Qc). ring.
Qed.

Lemma sum_nil : JS.sum [] = 0%Qc.
Proof. reflexivity. Qed.

Lemma sum_cons (x : Qc) (xs : list Qc) : JS.sum (x :: xs) = (x + JS.sum xs)%Qc.
Proof.
  unfold JS.sum at 1. simpl. rewrite fold_plus_acc. ring.
Qed.

Lemma sum_app (xs ys : list Qc) : JS.sum (xs ++ ys) = (JS.sum xs + JS.sum ys)%Qc.
Proof.
  induction xs as [|x xs IH]; simpl.
  - rewrite sum_nil. ring.
  - rewrite !sum_cons, IH. ring.
Qed.

Lemma div_fin_nonzero (a b : Qc) :
  b <> 0%Qc -> JS.div (JS.Fin a) (JS.Fin b) = JS.Fin (a / b)%Qc.
Proof.
  intro H. simpl.
  destruct (JS.sign b =? 0) eqn:E; [|reflexivity].
  apply Z.eqb_eq, sign_zero_iff in E. contradiction.
Qed.

Lemma div_fin_pos (a b : Qc) :
  (0 < b)%Qc -> JS.div (JS.Fin a) (JS.Fin b) = JS.Fin (a / b)%Qc.
Proof.
  intro H. apply div_fin_nonzero.
  intro E. subst b. exact (Qclt_not_eq _ _ H eq_refl).
Qed.

Lemma sum_scaled (c : Qc) (xs : list Qc) :
  JS.sum (map (fun x => x * c)%Qc xs) = (JS.sum xs * c)%Qc.
Proof.
  induction xs as [|x xs IH]; simpl.
  - rewrite sum_nil. ring.
  - rewrite !sum_cons, IH. ring.
Qed.

(** ** Dictionaries *)

Lemma get_set_same {V : Type} (k : string) (v : V) (d : Dict.t V) :
  Dict.get k (Dict.set k v d) = Some v.
Proof.
  induction d as [|[k' v'] r IH]; simpl.
  - now rewrite String.eqb_refl.
  - destruct (String.eqb k k') eqn:E; simpl; rewrite E; [reflexivity|exact IH].
Qed.

Lemma get_set_other {V : Type} (k k0 : string) (v : V) (d : Dict.t V) :
  k0 <> k -> Dict.get k0 (Dict.set k v d) = Dict.get k0 d.
Proof.
  intro N. induction d as [|[k' v'] r IH]; simpl.
  - apply String.eqb_neq in N. now rewrite N.
  - destruct (String.eqb k k') eqn:E; simpl.
    + apply String.eqb_eq in E. subst k'.
      apply String.eqb_neq in N. now rewrite N.
    + destruct (String.eqb k0 k'); [reflexivity|exact IH].
Qed.

Lemma get_none_not_in {V : Type} (k : string) (d : Dict.t V) :
  Dict.get k d = None -> ~ In k (map fst d).
Proof.
  induction d as [|[k' v'] r IH]; simpl; intro H.
  - tauto.
  - destruct (String.eqb k k') eqn:E; [discriminate|].
    apply String.eqb_neq in E. intros [F|F]; [congruence|now apply IH].
Qed.

Lemma keys_set {V : Type} (k : string) (v : V) (d : Dict.t V) :
  map fst (Dict.set k v d)
  = match Dict.get k d with
    | Some _ => map fst d
    | None => map fst d ++ [k]
    end.
Proof.
  induction d as [|[k' v'] r IH]; simpl.
  - reflexivity.
  - destruct (String.eqb k k') eqn:E; simpl.
    + reflexivity.
    + rewrite IH. now destruct (Dict.get k r).
Qed.

Lemma nodup_keys_set {V : Type} (k : string) (v : V) (d : Dict.t V) :
  NoDup (map fst d) -> NoDup (map fst (Dict.set k v d)).
Proof.
  intro H. rewrite keys_set.
  destruct (Dict.get k d) eqn:E; [exact H|].
  apply get_none_not_in in E.
  apply NoDup_rev in H.
  rewrite <- (rev_involutive (map fst d ++ [k])).
  apply NoDup_rev. rewrite rev_app_distr. simpl.
  constructor; [|exact H].
  now rewrite <- in_rev.
Qed.

Lemma in_nodup_get {V : Type} (k : string) (v : V) (d : Dict.t V) :
  NoDup (map fst d) -> In (k, v) d -> Dict.get k d = Some v.
Proof.
  induction d as [|[k' v'] r IH]; simpl; intros N H.
  - tauto.
  - inversion N as [|? ? Hn Hr]; subst.
    destruct H as [H|H].
    + inversion H; subst. now rewrite String.eqb_refl.
    + destruct (String.eqb k k') eqn:E.
      * apply String.eqb_eq in E. subst k'.
        exfalso. apply Hn. apply (in_map fst) in H. exact H.
      * now apply IH.
Qed.

(** ** Sorting *)

Section SortFacts.
Context {A : Type}.
Variable compareFn : A -> A -> Qc.

Lemma insert_perm (x : A) (l : list A) :
  Permutation (Array.insert compareFn x l) (x :: l).
Proof.
  induction l as [|y r IH]; simpl.
  - apply Permutation_refl.
  - destruct (JS.ltb 0%Qc (compareFn x y)).
    + apply perm_trans with (y :: x :: r).
      * now apply perm_skip.
      * apply perm_swap.
    + apply Permutation_refl.
Qed.

Lemma sort_perm (l : list A) : Permutation (Array.sort compareFn l) l.
Proof.
  induction l as [|x r IH]; simpl.
  - apply perm_nil.
  - apply perm_trans with (x :: Array.sort compareFn r).
    + apply insert_perm.
    + now apply perm_skip.
Qed.

Lemma sort_in (x : A) (l : list A) :
  In x (Array.sort compareFn l) <-> In x l.
Proof.
  split; apply Permutation_in;
    [apply sort_perm | apply Permutation_sym, sort_perm].
Qed.

(** Elements the inserted one is not selected with: the selection does not
    see the insertion. *)
Lemma filter_insert_out (p : A -> bool) (x : A) (l : list A) :
  p x = false ->
  filter p (Array.insert compareFn x l) = filter p l.
Proof.
  intro Hx. induction l as [|y r IH]; simpl.
  - now rewrite Hx.
  - destruct (JS.ltb 0%Qc (compareFn x y)); simpl.
    + now rewrite IH.
    + now rewrite Hx.
Qed.

(** When the elements the inserted one passes over are never selected, the
    inserted one is the first of the selection. *)
Lemma filter_insert_in (p : A -> bool) (x : A) (l : list A) :
  p x = true ->
  (forall y, p y = true -> JS.ltb 0%Qc (compareFn x y) = false) ->
  filter p (Array.insert compareFn x l) = x :: filter p l.
Proof.
  intros Hx Hp. induction l as [|y r IH]; simpl.
  - now rewrite Hx.
  - destruct (JS.ltb 0%Qc (compareFn x y)) eqn:E; simpl.
    + destruct (p y) eqn:Py.
      * rewrite (Hp y Py) in E. discriminate.
      * exact IH.
    + now rewrite Hx.
Qed.

End SortFacts.

Lemma filter_firstn_prefix {A : Type} (p : A -> bool) (n : nat) (l : list A) :
  exists rest, filter p l = filter p (firstn n l) ++ rest.
Proof.
  exists (filter p (skipn n l)).
  rewrite <- filter_app. now rewrite firstn_skipn.
Qed.

Section DescendingSort.
Context {A : Type}.
Variable key : A -> Qc.


Lemma after_iff (x y : A) :
  JS.ltb 0%Qc (key y - key x)%Qc = true <-> (key x < key y)%Qc.
Proof.
  rewrite ltb_lt. symmetry. apply Qclt_minus_iff.
Qed.

Lemma insert_descending (x : A) (l : list A) :
  StronglySorted (fun a b => (key b <= key a)%Qc) l ->
  StronglySorted (fun a b => (key b <= key a)%Qc)
                 (Array.insert (fun a b : A => (key b - key a)%Qc) x l).
Proof.
  induction 1 as [|y r Hr IH Hy]; simpl.
  - constructor; constructor.
  - destruct (JS.ltb 0%Qc (key y - key x)%Qc) eqn:E.
    + apply after_iff in E.
      constructor; [exact IH|].
      apply Forall_forall. intros z Hz.
      apply (Permutation_in _ (insert_perm (fun a b : A => (key b - key a)%Qc) x r)) in Hz.
      destruct Hz as [Hz|Hz].
      * subst z. now apply Qclt_le_weak.
      * rewrite Forall_forall in Hy. now apply Hy.
    + assert (L : (key y <= key x)%Qc).
      { apply Qcnot_lt_le. intro F. apply after_iff in F. congruence. }
      constructor; [now constructor|].
      constructor; [exact L|].
      apply Forall_forall. intros z Hz.
      rewrite Forall_forall in Hy.
      apply Qcle_trans with (key y); [now apply Hy|exact L].
Qed.

Lemma sort_descending (l : list A) :
  StronglySorted (fun a b => (key b <= key a)%Qc)
                 (Array.sort (fun a b : A => (key b - key a)%Qc) l).
Proof.
  induction l as [|x r IH]; simpl.
  - constructor.
  - now apply insert_descending.
Qed.

(** The sort is stable: the elements of one key keep their order. *)
Lemma sort_stable (v : Qc) (l : list A) :
  filter (fun a => JS.eqb (key a) v) (Array.sort (fun a b : A => (key b - key a)%Qc) l)
  = filter (fun a => JS.eqb (key a) v) l.
Proof.
  induction l as [|x r IH]; simpl.
  - reflexivity.
  - destruct (JS.eqb (key x) v) eqn:E.
    + rewrite filter_insert_in; [now rewrite IH|exact E|].
      intros y Hy. apply eqb_eq in E, Hy.
      destruct (JS.ltb 0%Qc (key y - key x)%Qc) eqn:F; [|reflexivity].
      apply after_iff in F. rewrite E, Hy in F.
      exfalso. exact (Qclt_not_eq _ _ F eq_refl).
    + rewrite filter_insert_out; [exact IH|exact E].
Qed.

End DescendingSort.

Lemma firstn_strongly_sorted {A : Type} (R : A -> A -> Prop) (n : nat)
  (l : list A) :
  StronglySorted R l -> StronglySorted R (firstn n l).
Proof.
  intro H. revert n. induction H as [|x r Hr IH Hx]; intro n.
  - rewrite firstn_nil. constructor.
  - destruct n as [|n]; simpl; constructor.
    + apply IH.
    + apply Forall_forall. intros y Hy.
      rewrite Forall_forall in Hx. apply Hx.
      rewrite <- (firstn_skipn n r). apply in_or_app. now left.
Qed.

(** ** The grouping of the category report *)

Lemma backend_sumAmounts_sum (expenses : list Backend.Expense) :
  Backend.sumAmounts expenses = JS.sum (map Backend.amount expenses).
Proof.
  unfold Backend.sumAmounts.
  assert (G : forall a, fold_left (fun sum e => (sum + Backend.amount e)%Qc)
                                  expenses a
                        = (a + JS.sum (map Backend.amount expenses))%Qc).
  { induction expenses as [|e r IH]; intro a; simpl.
    - rewrite sum_nil. ring.
    - rewrite IH, sum_cons. ring. }
  rewrite G. ring.
Qed.

Lemma categoryData_snoc (expenses : list Backend.Expense) (e : Backend.Expense) :
  Backend.categoryData (expenses ++ [e])
  = Backend.groupExpense (Backend.categoryData expenses) e.
Proof.
  unfold Backend.categoryData. now rewrite fold_left_app.
Qed.

Lemma existsb_false_filter {A : Type} (p : A -> bool) (l : list A) :
  existsb p l = false -> filter p l = [].
Proof.
  induction l as [|x r IH]; simpl; intro H.
  - reflexivity.
  - apply orb_false_iff in H. destruct H as [Hx Hr].
    rewrite Hx. now apply IH.
Qed.

(** What the grouping holds under each key. *)
Lemma categoryData_get (expenses : list Backend.Expense) (k : string) :
  Dict.get k (Backend.categoryData expenses)
  = if existsb (fun e => String.eqb (Backend.category e) k) expenses
    then Some (Spec.groupOf k expenses)
    else None.
Proof.
  induction expenses as [|e es IH] using rev_ind.
  - reflexivity.
  - rewrite categoryData_snoc. unfold Backend.groupExpense.
    rewrite existsb_app. simpl. rewrite orb_false_r.
    destruct (String.eqb (Backend.category e) k) eqn:E.
    + apply String.eqb_eq in E. subst k.
      rewrite get_set_same, orb_true_r. f_equal.
      unfold Spec.groupOf, Spec.transactionsOf, Spec.inCategory.
      rewrite filter_app. simpl. rewrite String.eqb_refl.
      rewrite IH.
      destruct (existsb _ es) eqn:X.
      * unfold Spec.groupOf, Spec.transactionsOf, Spec.inCategory. simpl.
        rewrite !map_app, sum_app, length_app. simpl.
        rewrite sum_cons, sum_nil. f_equal. ring.
      * rewrite (existsb_false_filter _ _ X). simpl.
        rewrite sum_cons, !sum_nil. f_equal. ring.
    + rewrite orb_false_r.
      rewrite get_set_other.
      * rewrite IH.
        destruct (existsb _ es); [|reflexivity].
        f_equal. unfold Spec.groupOf, Spec.transactionsOf, Spec.inCategory.
        rewrite filter_app. simpl. rewrite E. now rewrite app_nil_r.
      * apply String.eqb_neq in E. congruence.
Qed.

Lemma categoryData_nodup (expenses : list Backend.Expense) :
  NoDup (map fst (Backend.categoryData expenses)).
Proof.
  induction expenses as [|e es IH] using rev_ind.
  - constructor.
  - rewrite categoryData_snoc. unfold Backend.groupExpense.
    now apply nodup_keys_set.
Qed.

(** Every entry of the grouping is the group of its category. *)
Lemma categoryData_entry (expenses : list Backend.Expense) (k : string)
  (d : Backend.CategoryData) :
  In (k, d) (Backend.categoryData expenses) -> d = Spec.groupOf k expenses.
Proof.
  intro H.
  apply in_nodup_get in H; [|apply categoryData_nodup].
  rewrite categoryData_get in H.
  destruct (existsb _ expenses); congruence.
Qed.

(** Every entry of the report is the insight of an entry of the grouping. *)
Lemma report_entry (expenses : list Backend.Expense) (c : Backend.CategoryInsight) :
  In c (Backend.categories (Backend.categoryInsights expenses)) ->
  c = Backend.insight (Backend.sumAmounts expenses)
        (Backend.cat_category c,
         Spec.groupOf (Backend.cat_category c) expenses).
Proof.
  unfold Backend.categoryInsights. simpl. intro H.
  apply sort_in in H. apply in_map_iff in H.
  destruct H as [[k d] [Hc Hin]]. subst c.
  apply categoryData_entry in Hin. subst d. reflexivity.
Qed.

Lemma insight_total (T : Qc) (k : string) (d : Backend.CategoryData) :
  Backend.cat_total (Backend.insight T (k, d)) = Backend.total d.
Proof. reflexivity. Qed.

Lemma insight_percentage (T : Qc) (k : string) (d : Backend.CategoryData) :
  Backend.percentage (Backend.insight T (k, d))
  = if JS.ltb 0%Qc T
    then JS.Fin (Backend.total d / T * JS.ofZ 100)%Qc
    else JS.Fin 0%Qc.
Proof.
  unfold Backend.insight, Backend.percentage.
  destruct (JS.ltb 0%Qc T) eqn:E; [|reflexivity].
  apply ltb_lt in E. now rewrite div_fin_pos by exact E.
Qed.

(** ** The category report *)

(** The example of the specification: Food has total 80, count 2 and
    percentage 80, Transport has total 20, count 1 and percentage 20, and
    the total spent is 100. *)
Example category_report_example :
  map (fun c => (Backend.cat_category c, this (Backend.cat_total c),
                 Backend.cat_count c, Examples.value (Backend.percentage c)))
      (Backend.categories (Backend.categoryInsights Examples.expenses))
  = [ ("Food"%string, 80%Q, 2%nat, Some 80%Q);
      ("Transport"%string, 20%Q, 1%nat, Some 20%Q) ]
  /\ this (Backend.totalSpent (Backend.categoryInsights Examples.expenses))
     = 100%Q.
Proof. split; vm_compute; reflexivity. Qed.

(** C4. In the category report, the percentage of a category is its total
    (the sum of the amounts of its expenses) divided by the grand total,
    times 100, when the grand total is positive, and 0 when the grand total
    is 0. *)
Theorem category_percentage (expenses : list Backend.Expense)
  (c : Backend.CategoryInsight) :
  In c (Backend.categories (Backend.categoryInsights expenses)) ->
  let grandTotal := Backend.totalSpent (Backend.categoryInsights expenses) in
  Backend.cat_total c
  = JS.sum (map Backend.amount
                (Spec.inCategory (Backend.cat_category c) expenses))
  /\ grandTotal = JS.sum (map Backend.amount expenses)
  /\ ((0 < grandTotal)%Qc ->
      Backend.percentage c
      = JS.Fin (Backend.cat_total c / grandTotal * JS.ofZ 100)%Qc)
  /\ (grandTotal = 0%Qc -> Backend.percentage c = JS.Fin 0%Qc).
Proof.
  intros Hc grandTotal.
  assert (HT : grandTotal = Backend.sumAmounts expenses) by reflexivity.
  apply report_entry in Hc.
  repeat split.
  - now rewrite Hc.
  - rewrite HT. apply backend_sumAmounts_sum.
  - intro Hpos. rewrite HT in *. rewrite Hc.
    rewrite insight_percentage, insight_total.
    apply ltb_lt in Hpos. now rewrite Hpos.
  - intro Hz. rewrite HT in *. rewrite Hc.
    rewrite insight_percentage, Hz. reflexivity.
Qed.

Lemma category_percentage_witness :
  exists c,
    In c (Backend.categories (Backend.categoryInsights Examples.expenses))
    /\ Backend.percentage c
       = JS.Fin (Backend.cat_total c
                 / Backend.totalSpent (Backend.categoryInsights Examples.expenses)
                 * JS.ofZ 100)%Qc.
Proof.
  exists (Backend.insight (Backend.sumAmounts Examples.expenses)
            ("Food"%string, Spec.groupOf "Food" Examples.expenses)).
  assert (Hin : In (Backend.insight (Backend.sumAmounts Examples.expenses)
                      ("Food"%string, Spec.groupOf "Food" Examples.expenses))
                   (Backend.categories
                      (Backend.categoryInsights Examples.expenses))).
  { left. reflexivity. }
  split; [exact Hin|].
  apply (category_percentage Examples.expenses _ Hin).
  vm_compute. reflexivity.
Defined.

Lemma insight_topExpenses (T : Qc) (k : string) (d : Backend.CategoryData) :
  Backend.topExpenses (Backend.insight T (k, d))
  = firstn 5 (Array.sort
                (fun a b => (Backend.tx_amount b - Backend.tx_amount a)%Qc)
                (Backend.transactions d)).
Proof. reflexivity. Qed.

(** C3. In the category report, the top expenses of a category are at most
    five, sorted by amount descending, and they are the first five of the
    stable sort of the transactions of the category: a sorted rearrangement
    in which the transactions of one amount keep the order of the input. *)
Theorem top_expenses_sorted_stable (expenses : list Backend.Expense)
  (c : Backend.CategoryInsight) :
  In c (Backend.categories (Backend.categoryInsights expenses)) ->
  let input := Spec.transactionsOf (Backend.cat_category c) expenses in
  (List.length (Backend.topExpenses c) <= 5)%nat
  /\ StronglySorted Spec.descending (Backend.topExpenses c)
  /\ (forall v, exists rest,
        Spec.withAmount v input
        = Spec.withAmount v (Backend.topExpenses c) ++ rest)
  /\ exists sorted,
       Permutation sorted input
       /\ StronglySorted Spec.descending sorted
       /\ (forall v, Spec.withAmount v sorted = Spec.withAmount v input)
       /\ Backend.topExpenses c = firstn 5 sorted.
Proof.
  intros Hc input. apply report_entry in Hc.
  rewrite Hc, insight_topExpenses.
  change (Backend.transactions
            (Spec.groupOf (Backend.cat_category c) expenses)) with input.
  set (sorted := Array.sort
                   (fun a b => (Backend.tx_amount b - Backend.tx_amount a)%Qc)
                   input).
  assert (Hs : StronglySorted Spec.descending sorted)
    by apply (sort_descending Backend.tx_amount).
  assert (Hst : forall v, Spec.withAmount v sorted = Spec.withAmount v input)
    by (intro v; apply (sort_stable Backend.tx_amount)).
  repeat split.
  - apply firstn_le_length.
  - now apply firstn_strongly_sorted.
  - intro v. rewrite <- Hst. apply filter_firstn_prefix.
  - exists sorted. repeat split; try assumption. apply sort_perm.
Qed.

Lemma top_expenses_sorted_stable_witness :
  exists c,
    In c (Backend.categories (Backend.categoryInsights Examples.db))
    /\ map (fun t => (this (Backend.tx_amount t), Backend.tx_date t))
           (Backend.topExpenses c)
       = [ (100%Q, "2024-01-08"%string); (50%Q, "2024-01-01"%string);
           (50%Q, "2024-01-07"%string); (30%Q, "2024-01-02"%string) ]
    /\ StronglySorted Spec.descending (Backend.topExpenses c).
Proof.
  exists (Backend.insight (Backend.sumAmounts Examples.db)
            ("Food"%string, Spec.groupOf "Food" Examples.db)).
  assert (Hin : In (Backend.insight (Backend.sumAmounts Examples.db)
                      ("Food"%string, Spec.groupOf "Food" Examples.db))
                   (Backend.categories (Backend.categoryInsights Examples.db))).
  { left. reflexivity. }
  split; [exact Hin|]. split; [reflexivity|].
  exact (proj1 (proj2 (top_expenses_sorted_stable Examples.db _ Hin))).
Defined.

(** ** The trend report *)

Lemma setDate_back (tz t k : Z) :
  Date.setDate tz t (Date.getDate tz t - k) = t - k * Date.msPerDay.
Proof. unfold Date.setDate. ring. Qed.

Lemma change_percentage (cur prior : Qc) :
  (if JS.ltb 0%Qc prior
   then JS.mul (JS.div (JS.Fin (cur - prior)%Qc) (JS.Fin prior))
               (JS.Fin (JS.ofZ 100))
   else JS.Fin 0%Qc)
  = if JS.ltb 0%Qc prior
    then JS.Fin ((cur - prior) / prior * JS.ofZ 100)%Qc
    else JS.Fin 0%Qc.
Proof.
  destruct (JS.ltb 0%Qc prior) eqn:E; [|reflexivity].
  apply ltb_lt in E. now rewrite div_fin_pos by exact E.
Qed.

Lemma guarded_change (cur prior : Qc) (x : JS.number) :
  x = (if JS.ltb 0%Qc prior
       then JS.Fin ((cur - prior) / prior * JS.ofZ 100)%Qc
       else JS.Fin 0%Qc) ->
  ((0 < prior)%Qc -> x = JS.Fin ((cur - prior) / prior * JS.ofZ 100)%Qc)
  /\ (prior = 0%Qc -> x = JS.Fin 0%Qc)
  /\ JS.isFinite x = true.
Proof.
  intro H. subst x. repeat split.
  - intro P. apply ltb_lt in P. now rewrite P.
  - intro Z0. subst prior. reflexivity.
  - now destruct (JS.ltb 0%Qc prior).
Qed.

(** The example of the specification: a prior week of 0 and a current week
    of 100 give the change 0 and the difference 100. *)
Example trend_example :
  let w := Backend.week (Backend.trends 0 Examples.now 2 Examples.db) in
  this (Backend.last w) = 0%Q
  /\ this (Backend.current w) = 100%Q
  /\ Examples.value (Backend.change w) = Some 0%Q
  /\ this (Backend.difference w) = 100%Q.
Proof. repeat split; vm_compute; reflexivity. Qed.

(** On the sample collection, on Wednesday 2024-01-10: the week starts on
    Sunday 2024-01-07 at midnight; the expense entered at that instant
    counts for the current week and not for the prior one. *)
Example week_windows_example :
  Backend.startOfCurrentWeek 0 Examples.now = 1704585600000
  /\ Date.toISODate (Backend.startOfCurrentWeek 0 Examples.now)
     = "2024-01-07"%string
  /\ map Backend.timestamp
         (Backend.currentWeekExpenses 0 Examples.now 1 Examples.db)
     = [1704708000000; 1704585600000]
  /\ map Backend.timestamp
         (Backend.lastWeekExpenses 0 Examples.now 1 Examples.db)
     = [1704103200000; 1704189600000; 1704103200000]
  /\ this (Backend.current
             (Backend.week (Backend.trends 0 Examples.now 1 Examples.db)))
     = 200%Q
  /\ this (Backend.last
             (Backend.week (Backend.trends 0 Examples.now 1 Examples.db)))
     = 100%Q.
Proof. repeat split; vm_compute; reflexivity. Qed.

(** ** The budget status *)

Lemma statusOf_fields (tz now : Z) (user : N) (db : list Backend.Expense)
  (b : Backend.Budget) :
  let s := Backend.statusOf tz now user db b in
  Backend.budget s = b
  /\ Backend.spent s
     = Backend.sumAmounts (Backend.budgetExpenses tz now user b db)
  /\ Backend.remaining s = (Backend.limit b - Backend.spent s)%Qc
  /\ Backend.isOverBudget s = JS.ltb (Backend.limit b) (Backend.spent s)
  /\ Backend.status_percentage s
     = JS.mul (JS.div (JS.Fin (Backend.spent s)) (JS.Fin (Backend.limit b)))
              (JS.Fin (JS.ofZ 100)).
Proof. cbv zeta. repeat split. Qed.

(** The week of a budget starts on the day of index 0 at the time of day of
    [now], not at midnight: on Wednesday 2024-01-10 at 12:00 it starts on
    Sunday 2024-01-07 at 12:00, twelve hours after the week of the trend
    report. *)
Example budget_week_start :
  Backend.startOfWeek 0 Examples.now = 1704628800000
  /\ Backend.startOfWeek 0 Examples.now
     = Backend.startOfCurrentWeek 0 Examples.now + 43200000.
Proof. split; vm_compute; reflexivity. Qed.

(** The percentage of a budget is finite exactly when its limit is not 0. *)
Lemma budget_percentage_finite_iff (tz now : Z) (user : N)
  (db : list Backend.Expense) (b : Backend.Budget) :
  JS.isFinite (Backend.status_percentage (Backend.statusOf tz now user db b))
  = true
  <-> Backend.limit b <> 0%Qc.
Proof.
  destruct (statusOf_fields tz now user db b) as [_ [_ [_ [_ Hp]]]].
  rewrite Hp. split.
  - intros H E. rewrite E in H. simpl in H.
    destruct (JS.sign _ =? 0); simpl in H;
      try discriminate.
    unfold JS.signed_infinity in H.
    destruct (JS.sign _ <? 0); simpl in H; discriminate.
  - intro H. now rewrite div_fin_nonzero by exact H.
Qed.


(** ** The web client *)

Lemma client_sumAmounts_sum (expenses : list Client.Expense) :
  Client.sumAmounts expenses = JS.sum (map Client.amount expenses).
Proof.
  unfold Client.sumAmounts.
  assert (G : forall a, fold_left (fun sum e => (sum + Client.amount e)%Qc)
                                  expenses a
                        = (a + JS.sum (map Client.amount expenses))%Qc).
  { induction expenses as [|e r IH]; intro a; simpl.
    - rewrite sum_nil. ring.
    - rewrite IH, sum_cons. ring. }
  rewrite G. ring.
Qed.

(** On the sample expenses, on Wednesday 2024-01-10: the keys of the seven
    days and the totals of the days. *)
Example daily_series_example :
  Client.last7Days 0 Examples.now
  = [ "2024-01-04"; "2024-01-05"; "2024-01-06"; "2024-01-07"; "2024-01-08";
      "2024-01-09"; "2024-01-10" ]%string
  /\ map (fun p => this (Client.point_amount p))
         (Client.dailySpending 0 (fun _ s => s) Examples.now
                               Examples.clientExpenses)
     = [ 0; 0; 0; 0; 0; 50; 50 ]%Q.
Proof. split; vm_compute; reflexivity. Qed.

(** C10. [handleEditExpense] returns a list of the same length, in the same
    order: an expense whose id is the given one gets the amount, the
    category and the date of the update and keeps its id, and any other
    expense is unchanged. *)
Theorem handleEditExpense_frame (expenses : list Client.Expense)
  (id0 : string) (updatedExpense : Client.ExpenseFields) :
  List.length (Client.handleEditExpense expenses id0 updatedExpense)
  = List.length expenses
  /\ forall (i : nat) (exp : Client.Expense),
       nth_error expenses i = Some exp ->
       (Client.id exp = id0 ->
        nth_error (Client.handleEditExpense expenses id0 updatedExpense) i
        = Some {| Client.id := Client.id exp;
                  Client.amount := Client.new_amount updatedExpense;
                  Client.category := Client.new_category updatedExpense;
                  Client.date := Client.new_date updatedExpense |})
       /\ (Client.id exp <> id0 ->
           nth_error (Client.handleEditExpense expenses id0 updatedExpense) i
           = Some exp).
Proof.
  unfold Client.handleEditExpense. split.
  - apply length_map.
  - intros i exp H. rewrite nth_error_map, H. simpl. split; intro E.
    + rewrite E, String.eqb_refl. reflexivity.
    + apply String.eqb_neq in E. now rewrite E.
Qed.

Lemma handleEditExpense_frame_witness :
  nth_error Examples.clientExpenses 1
  = Some (Examples.clientExpense "2" 30 "Transport" "2024-01-10")
  /\ nth_error (Client.handleEditExpense Examples.clientExpenses "2"
                                         Examples.edited) 1
     = Some (Examples.clientExpense "2" 75 "Shopping" "2024-01-08")
  /\ nth_error (Client.handleEditExpense Examples.clientExpenses "2"
                                         Examples.edited) 0
     = Some (Examples.clientExpense "1" 50 "Eating Out" "2024-01-09").
Proof.
  split; [reflexivity|]. split.
  - apply (proj1 (proj2 (handleEditExpense_frame
                           Examples.clientExpenses "2" Examples.edited)
                        1%nat _ eq_refl)).
    reflexivity.
  - apply (proj2 (proj2 (handleEditExpense_frame
                           Examples.clientExpenses "2" Examples.edited)
                        0%nat _ eq_refl)).
    discriminate.
Defined.

(** The week-over-week change of the dashboard has the same guard as the
    trend report. *)
Lemma client_percentChange (tz : Z) (parseDate : string -> option Z)
  (toLocaleDateString : Client.LabelFormat -> string -> string)
  (now : Z) (expenses : list Client.Expense) :
  let this_week := Client.thisWeekTotal tz toLocaleDateString now expenses in
  let last_week := Client.lastWeekTotal tz parseDate now expenses in
  let x := Client.percentChange tz toLocaleDateString parseDate now expenses in
  ((0 < last_week)%Qc ->
   x = JS.Fin ((this_week - last_week) / last_week * JS.ofZ 100)%Qc)
  /\ (last_week = 0%Qc -> x = JS.Fin 0%Qc)
  /\ JS.isFinite x = true.
Proof.
  cbv zeta. apply guarded_change. unfold Client.percentChange.
  apply change_percentage.
Qed.

(** The average per day of the trends modal is always finite. *)
Lemma client_avgPerDay_finite (expenses : list Client.Expense) :
  JS.isFinite (Client.avgPerDay expenses) = true.
Proof.
  unfold Client.avgPerDay.
  destruct (0 <? List.length expenses)%nat; reflexivity.
Qed.

(** The percentages of the report of the backend are always finite. *)
Lemma category_percentage_finite (expenses : list Backend.Expense)
  (c : Backend.CategoryInsight) :
  In c (Backend.categories (Backend.categoryInsights expenses)) ->
  JS.isFinite (Backend.percentage c) = true.
Proof.
  intro H. apply report_entry in H. rewrite H, insight_percentage.
  now destruct (JS.ltb _ _).
Qed.

(** The pie chart of the client on the sample expenses. *)
Example client_pie_example (exponentString : Qc -> string) :
  map (fun p => (Client.pie_category p, Client.pie_percentage p))
      (Client.pieData exponentString Examples.clientExpenses)
  = [ ("Eating Out", "70.0"); ("Transport", "30.0") ]%string.
Proof. vm_compute. reflexivity. Qed.

(** C9, on the code: two divisions are not guarded.  In the budget status a
    budget whose limit is 0 has the percentage [Infinity] when something was
    spent and [NaN] when nothing was; in the pie chart of the client,
    expenses that add up to 0 have the percentage [NaN]. *)
Theorem division_by_zero_unguarded :
  map (fun s => (this (Backend.spent s), Backend.status_percentage s))
      (Backend.budgetStatus 0 Examples.now 1
         [Examples.zeroBudget; Examples.idleBudget] Examples.db)
  = [ (130%Q, JS.Infinity); (0%Q, JS.NaN) ]
  /\ forall exponentString : Qc -> string,
       map (fun p => (Client.pie_category p, Client.pie_percentage p))
           (Client.pieData exponentString Examples.freeExpenses)
       = [ ("Leisure", "NaN") ]%string.
Proof. split; [|intro]; vm_compute; reflexivity. Qed.

(** * Further properties *)

(** ** The layout of the category report *)

Lemma get_in_keys {V : Type} (k : string) (d : Dict.t V) :
  In k (map fst d) <-> Dict.get k d <> None.
Proof.
  induction d as [|[k' v'] r IH]; simpl.
  - split; [tauto|congruence].
  - destruct (String.eqb k k') eqn:E.
    + apply String.eqb_eq in E. subst k'. split; [discriminate|auto].
    + apply String.eqb_neq in E. rewrite <- IH. split.
      * intros [F|F]; [congruence|exact F].
      * auto.
Qed.

Lemma categoryData_keys (expenses : list Backend.Expense) (k : string) :
  In k (map fst (Backend.categoryData expenses))
  <-> In k (map Backend.category expenses).
Proof.
  rewrite get_in_keys, categoryData_get.
  destruct (existsb _ expenses) eqn:E.
  - apply existsb_exists in E. destruct E as [e [He Hk]].
    apply String.eqb_eq in Hk. subst k.
    split; [intros _; now apply in_map|discriminate].
  - split; [congruence|]. intro H. exfalso.
    apply in_map_iff in H. destruct H as [e [Hk He]].
    assert (X : existsb (fun e0 => String.eqb (Backend.category e0) k)
                        expenses = true).
    { apply existsb_exists. exists e. split; [exact He|].
      now apply String.eqb_eq. }
    congruence.
Qed.

Lemma report_categories_perm (expenses : list Backend.Expense) :
  Permutation
    (map Backend.cat_category
         (Backend.categories (Backend.categoryInsights expenses)))
    (map fst (Backend.categoryData expenses)).
Proof.
  unfold Backend.categoryInsights. simpl.
  eapply perm_trans; [apply Permutation_map, sort_perm|].
  rewrite map_map. unfold Dict.entries.
  erewrite map_ext; [apply Permutation_refl|]. now intros [k d].
Qed.

(** X1. The categories of the report are sorted by total, descending. *)
Theorem report_sorted_by_total (expenses : list Backend.Expense) :
  StronglySorted
    (fun a b => (Backend.cat_total b <= Backend.cat_total a)%Qc)
    (Backend.categories (Backend.categoryInsights expenses)).
Proof.
  unfold Backend.categoryInsights. simpl.
  apply (sort_descending Backend.cat_total).
Qed.

(** X2. The report has one entry for each category that occurs among the
    expenses, and no other: no category is listed twice, and the empty list
    gives the empty report. *)
Theorem report_categories_distinct (expenses : list Backend.Expense) :
  let names :=
    map Backend.cat_category
        (Backend.categories (Backend.categoryInsights expenses)) in
  NoDup names
  /\ (forall k, In k names <-> In k (map Backend.category expenses))
  /\ Backend.categories (Backend.categoryInsights []) = [].
Proof.
  intro names. split; [|split].
  - apply (Permutation_NoDup (Permutation_sym (report_categories_perm _))).
    apply categoryData_nodup.
  - intro k. rewrite <- categoryData_keys. split.
    + apply Permutation_in, report_categories_perm.
    + apply Permutation_in, Permutation_sym, report_categories_perm.
  - reflexivity.
Qed.

Lemma dictCount_set (k : string) (v : Backend.CategoryData)
  (d : Dict.t Backend.CategoryData) :
  (More.dictCount (Dict.set k v d)
   + match Dict.get k d with
     | Some old => Backend.count old
     | None => 0
     end
   = More.dictCount d + Backend.count v)%nat.
Proof.
  unfold More.dictCount.
  induction d as [|[k' v'] r IH]; simpl.
  - lia.
  - destruct (String.eqb k k') eqn:E; simpl; lia.
Qed.

Lemma dictCount_categoryData (expenses : list Backend.Expense) :
  More.dictCount (Backend.categoryData expenses) = List.length expenses.
Proof.
  induction expenses as [|e es IH] using rev_ind.
  - reflexivity.
  - rewrite categoryData_snoc. unfold Backend.groupExpense.
    rewrite length_app. simpl.
    match goal with
    | |- More.dictCount (Dict.set ?k ?v ?d) = _ =>
        pose proof (dictCount_set k v d) as H
    end.
    destruct (Dict.get (Backend.category e) (Backend.categoryData es));
      cbn [Backend.count Backend.total Backend.transactions] in *; lia.
Qed.

Lemma inCategory_nonempty (k : string) (expenses : list Backend.Expense) :
  In k (map Backend.category expenses) ->
  (1 <= List.length (Spec.inCategory k expenses))%nat.
Proof.
  intro H. apply in_map_iff in H. destruct H as [e [Hk He]].
  assert (Hin : In e (Spec.inCategory k expenses)).
  { apply filter_In. split; [exact He|]. now apply String.eqb_eq. }
  destruct (Spec.inCategory k expenses); [destruct Hin|simpl; lia].
Qed.

Lemma report_entry_category (expenses : list Backend.Expense)
  (c : Backend.CategoryInsight) :
  In c (Backend.categories (Backend.categoryInsights expenses)) ->
  In (Backend.cat_category c) (map Backend.category expenses).
Proof.
  intro H. apply categoryData_keys.
  apply (Permutation_in _ (report_categories_perm expenses)).
  now apply in_map.
Qed.

Lemma report_entry_count (expenses : list Backend.Expense)
  (c : Backend.CategoryInsight) :
  In c (Backend.categories (Backend.categoryInsights expenses)) ->
  Backend.cat_count c
  = List.length (Spec.inCategory (Backend.cat_category c) expenses)
  /\ (1 <= Backend.cat_count c)%nat.
Proof.
  intro Hc. pose proof (report_entry_category _ _ Hc) as Hk.
  apply report_entry in Hc.
  assert (E : Backend.cat_count c
              = List.length
                  (Spec.inCategory (Backend.cat_category c) expenses))
    by (rewrite Hc at 1; reflexivity).
  split; [exact E|]. rewrite E. now apply inCategory_nonempty.
Qed.

(** X3. The count of a category of the report is the number of its
    expenses, which is at least 1; the counts add up to
    [totalTransactions], the number of expenses. *)
Theorem report_counts (expenses : list Backend.Expense) :
  let report := Backend.categoryInsights expenses in
  (forall c, In c (Backend.categories report) ->
             Backend.cat_count c
             = List.length (Spec.inCategory (Backend.cat_category c) expenses)
             /\ (1 <= Backend.cat_count c)%nat)
  /\ list_sum (map Backend.cat_count (Backend.categories report))
     = Backend.totalTransactions report
  /\ Backend.totalTransactions report = List.length expenses.
Proof.
  intro report. split; [|split].
  - intros c Hc. now apply report_entry_count.
  - unfold report, Backend.categoryInsights. simpl.
    rewrite <- dictCount_categoryData. unfold More.dictCount.
    assert (P : Permutation
                  (map Backend.cat_count
                       (Array.sort
                          (fun a b =>
                             (Backend.cat_total b - Backend.cat_total a)%Qc)
                          (map (Backend.insight (Backend.sumAmounts expenses))
                               (Dict.entries
                                  (Backend.categoryData expenses)))))
                  (map (fun kv => Backend.count (snd kv))
                       (Backend.categoryData expenses))).
    { eapply perm_trans; [apply Permutation_map, sort_perm|].
      rewrite map_map. unfold Dict.entries.
      erewrite map_ext; [apply Permutation_refl|]. now intros [k d]. }
    clear - P. revert P.
    generalize (map (fun kv => Backend.count (snd kv))
                    (Backend.categoryData expenses)).
    intros l P. induction P; simpl; lia.
  - reflexivity.
Qed.

Lemma report_counts_witness :
  exists c,
    In c (Backend.categories (Backend.categoryInsights Examples.expenses))
    /\ Backend.cat_category c = "Food"%string
    /\ Backend.cat_count c = 2%nat.
Proof.
  exists (Backend.insight (Backend.sumAmounts Examples.expenses)
            ("Food"%string, Spec.groupOf "Food" Examples.expenses)).
  assert (Hin : In (Backend.insight (Backend.sumAmounts Examples.expenses)
                      ("Food"%string, Spec.groupOf "Food" Examples.expenses))
                   (Backend.categories
                      (Backend.categoryInsights Examples.expenses)))
    by (left; reflexivity).
  split; [exact Hin|]. split; [reflexivity|].
  rewrite (proj1 (proj1 (report_counts Examples.expenses) _ Hin)).
  reflexivity.
Defined.

Lemma ofZ_nat_nonzero (n : nat) : (1 <= n)%nat -> JS.ofZ (Z.of_nat n) <> 0%Qc.
Proof.
  intros H E. unfold JS.ofZ in E. apply Q2Qc_eq_iff in E.
  unfold Qeq, inject_Z in E. simpl in E. lia.
Qed.

(** X4. The count of a category of the report is at least 1, so the
    fallback 0 of the guard of the average is never taken: the average per
    transaction of a category is its total divided by its count. *)
Theorem report_average (expenses : list Backend.Expense)
  (c : Backend.CategoryInsight) :
  In c (Backend.categories (Backend.categoryInsights expenses)) ->
  let n := JS.ofZ (Z.of_nat (Backend.cat_count c)) in
  (1 <= Backend.cat_count c)%nat
  /\ Backend.avgPerTransaction c = JS.Fin (Backend.cat_total c / n)%Qc.
Proof.
  intros Hc n.
  destruct (report_entry_count expenses c Hc) as [_ Hpos].
  pose proof (ofZ_nat_nonzero _ Hpos) as Hn. fold n in Hn.
  split; [exact Hpos|].
  apply report_entry in Hc.
  assert (E : Backend.avgPerTransaction c
              = if (0 <? Backend.cat_count c)%nat
                then JS.div (JS.Fin (Backend.cat_total c)) (JS.Fin n)
                else JS.Fin 0%Qc)
    by (unfold n; rewrite Hc; reflexivity).
  rewrite E.
  assert (L : (0 <? Backend.cat_count c)%nat = true)
    by (apply Nat.ltb_lt; lia).
  rewrite L. now apply div_fin_nonzero.
Qed.

Lemma report_average_witness :
  exists c,
    In c (Backend.categories (Backend.categoryInsights Examples.expenses))
    /\ Examples.value (Backend.avgPerTransaction c) = Some 40%Q.
Proof.
  exists (Backend.insight (Backend.sumAmounts Examples.expenses)
            ("Food"%string, Spec.groupOf "Food" Examples.expenses)).
  assert (Hin : In (Backend.insight (Backend.sumAmounts Examples.expenses)
                      ("Food"%string, Spec.groupOf "Food" Examples.expenses))
                   (Backend.categories
                      (Backend.categoryInsights Examples.expenses)))
    by (left; reflexivity).
  split; [exact Hin|].
  rewrite (proj2 (report_average Examples.expenses _ Hin)).
  vm_compute. reflexivity.
Defined.

Lemma strongly_sorted_app {A : Type} (R : A -> A -> Prop) (l1 l2 : list A) :
  StronglySorted R (l1 ++ l2) ->
  forall u t, In u l1 -> In t l2 -> R u t.
Proof.
  induction l1 as [|x r IH]; simpl; intros H u t Hu Ht.
  - destruct Hu.
  - inversion H as [|? ? Hr Hx]; subst.
    destruct Hu as [Hu|Hu].
    + subst u. rewrite Forall_forall in Hx. apply Hx.
      apply in_or_app. now right.
    + now apply IH.
Qed.

(** X5. The top expenses of a category are its highest ones: they and the
    transactions left out make up the transactions of the category, no
    transaction left out has a higher amount than a top expense, and
    nothing is left out of a category of at most five transactions. *)
Theorem top_expenses_highest (expenses : list Backend.Expense)
  (c : Backend.CategoryInsight) :
  In c (Backend.categories (Backend.categoryInsights expenses)) ->
  let input := Spec.transactionsOf (Backend.cat_category c) expenses in
  exists rest,
    Permutation (Backend.topExpenses c ++ rest) input
    /\ (forall u t, In u (Backend.topExpenses c) -> In t rest ->
                    (Backend.tx_amount t <= Backend.tx_amount u)%Qc)
    /\ ((List.length input <= 5)%nat -> rest = [])
    /\ List.length (Backend.topExpenses c) = Nat.min 5 (List.length input).
Proof.
  intros Hc input. apply report_entry in Hc.
  rewrite Hc, insight_topExpenses.
  change (Backend.transactions
            (Spec.groupOf (Backend.cat_category c) expenses)) with input.
  set (sorted := Array.sort
                   (fun a b => (Backend.tx_amount b - Backend.tx_amount a)%Qc)
                   input).
  assert (P : Permutation sorted input) by apply sort_perm.
  exists (skipn 5 sorted). split; [|split; [|split]].
  - now rewrite firstn_skipn.
  - apply (strongly_sorted_app
             (fun a b => (Backend.tx_amount b <= Backend.tx_amount a)%Qc)).
    rewrite firstn_skipn. apply (sort_descending Backend.tx_amount).
  - intro L. apply skipn_all2.
    now rewrite (Permutation_length P).
  - rewrite length_firstn. now rewrite (Permutation_length P).
Qed.

Lemma top_expenses_highest_witness :
  exists c rest,
    In c (Backend.categories (Backend.categoryInsights Examples.db))
    /\ Permutation (Backend.topExpenses c ++ rest)
                   (Spec.transactionsOf (Backend.cat_category c) Examples.db)
    /\ List.length (Backend.topExpenses c) = 4%nat.
Proof.
  exists (Backend.insight (Backend.sumAmounts Examples.db)
            ("Food"%string, Spec.groupOf "Food" Examples.db)).
  assert (Hin : In (Backend.insight (Backend.sumAmounts Examples.db)
                      ("Food"%string, Spec.groupOf "Food" Examples.db))
                   (Backend.categories (Backend.categoryInsights Examples.db)))
    by (left; reflexivity).
  destruct (top_expenses_highest Examples.db _ Hin) as [rest [P [_ [_ L]]]].
  exists rest. split; [exact Hin|]. split; [exact P|exact L].
Defined.

(** ** The query of the category report *)

Lemma truthy_iff (param : option string) :
  Backend.truthy param = true
  <-> exists s, param = Some s /\ s <> ""%string.
Proof.
  destruct param as [s|]; simpl.
  - rewrite negb_true_iff, String.eqb_neq. split.
    + intro H. now exists s.
    + intros [s' [E H]]. now inversion E; subst.
  - split; [discriminate|]. intros [s [E _]]. discriminate.
Qed.

(** X6. The report of the handler is computed from the expenses of the user
    alone.  The range of dates filters only when both bounds are given and
    not empty, and then both bounds are included; one bound alone is
    ignored. *)
Theorem categories_handler_query (user : N) (startDate endDate : option string)
  (db : list Backend.Expense) :
  Backend.categories_handler user startDate endDate db
  = Backend.categoryInsights
      (filter (Backend.categoriesQuery user startDate endDate) db)
  /\ (forall e,
        Backend.categoriesQuery user startDate endDate e = true ->
        Backend.userId e = user)
  /\ (forall e s t,
        startDate = Some s -> endDate = Some t ->
        s <> ""%string -> t <> ""%string ->
        (Backend.categoriesQuery user startDate endDate e = true
         <-> Backend.userId e = user
             /\ String.leb s (Backend.date e) = true
             /\ String.leb (Backend.date e) t = true))
  /\ (Backend.truthy startDate = false \/ Backend.truthy endDate = false ->
      forall e, Backend.categoriesQuery user startDate endDate e
                = (Backend.userId e =? user)%N).
Proof.
  split; [reflexivity|]. unfold Backend.categoriesQuery.
  split; [|split].
  - intros e H. apply andb_true_iff in H. now apply N.eqb_eq.
  - intros e s t Hs Ht Ns Nt. subst startDate endDate. simpl.
    apply String.eqb_neq in Ns, Nt. rewrite Ns, Nt. simpl.
    rewrite !andb_true_iff, N.eqb_eq. tauto.
  - intros H e.
    destruct H as [H|H]; rewrite H; simpl;
      rewrite ?andb_false_r; simpl; now rewrite andb_true_r.
Qed.

Lemma categories_handler_query_witness :
  (map Backend.date
       (filter (Backend.categoriesQuery 1 (Some "2024-01-01"%string)
                                        (Some "2024-01-02"%string))
               Examples.db)
   = [ "2024-01-01"; "2024-01-02"; "2024-01-01" ]%string)
  /\ (Backend.categoriesQuery 1 (Some "2024-01-02"%string) None
                              (Examples.expense 1 50 "Food" "2024-01-01" 0)
      = true).
Proof.
  split.
  - reflexivity.
  - rewrite (proj2 (proj2 (proj2 (categories_handler_query
                                    1 (Some "2024-01-02"%string) None
                                    Examples.db)))
               (or_intror eq_refl)).
    reflexivity.
Defined.

(** ** The expenses of a user *)

Lemma filter_and {A : Type} (p q : A -> bool) (l : list A) :
  filter (fun x => p x && q x) l = filter q (filter p l).
Proof.
  induction l as [|x r IH]; simpl.
  - reflexivity.
  - destruct (p x); simpl; [|exact IH].
    destruct (q x); now rewrite IH.
Qed.

(** What a handler finds for a user in a window is found among the expenses
    of that user. *)
Lemma find_of_user (user : N) (q : Backend.Expense -> bool)
  (db : list Backend.Expense) :
  Backend.find (fun e => (Backend.userId e =? user)%N && q e) db
  = filter q (More.ofUser user db).
Proof. unfold Backend.find, More.ofUser. apply filter_and. Qed.

(** X8. The trend report of a user, under the rules of any time zone, is a
    function of the expenses of that user in the order of the collection:
    the expenses of other users do not change it. *)
Theorem trends_frame (zone : Zoned.Zone) (now : Z) (user : N)
  (db db' : list Backend.Expense) :
  More.ofUser user db = More.ofUser user db' ->
  ZonedBackend.trends zone now user db
  = ZonedBackend.trends zone now user db'.
Proof.
  intro P. unfold ZonedBackend.trends.
  unfold ZonedBackend.currentWeekExpenses, ZonedBackend.lastWeekExpenses,
    ZonedBackend.currentMonthExpenses, ZonedBackend.lastMonthExpenses.
  rewrite !find_of_user, P. reflexivity.
Qed.

Lemma trends_frame_witness :
  More.ofUser 1 Examples.db
  = More.ofUser 1
      (Examples.expense 2 7 "Food" "2024-01-09" 1704794400000 :: Examples.db)
  /\ ZonedBackend.trends Zones.newYork Examples.now 1 Examples.db
     = ZonedBackend.trends Zones.newYork Examples.now 1
         (Examples.expense 2 7 "Food" "2024-01-09" 1704794400000
          :: Examples.db).
Proof.
  assert (P : More.ofUser 1 Examples.db
              = More.ofUser 1
                  (Examples.expense 2 7 "Food" "2024-01-09" 1704794400000
                   :: Examples.db)) by reflexivity.
  split; [exact P|].
  exact (trends_frame Zones.newYork Examples.now 1 _ _ P).
Defined.

(** ** More on the budget status *)

Lemma sum_filter_mono (p q : Backend.Expense -> bool)
  (db : list Backend.Expense) :
  More.nonNegative db ->
  (forall e, p e = true -> q e = true) ->
  (JS.sum (map Backend.amount (filter p db))
   <= JS.sum (map Backend.amount (filter q db)))%Qc.
Proof.
  intros H I. induction H as [|e r He Hr IH]; simpl.
  - apply Qcle_refl.
  - destruct (p e) eqn:P.
    + rewrite (I e P). simpl. rewrite !sum_cons.
      apply Qcplus_le_compat; [apply Qcle_refl|exact IH].
    + destruct (q e); simpl; [|exact IH].
      rewrite sum_cons.
      replace (JS.sum (map Backend.amount (filter p r)))
        with (0 + JS.sum (map Backend.amount (filter p r)))%Qc by ring.
      now apply Qcplus_le_compat.
Qed.

(** X12. When no amount is negative, a budget of category ["Total"] has
    spent at least as much as any budget of the same period. *)
Theorem total_budget_dominates (tz now : Z) (user : N)
  (db : list Backend.Expense) (b total : Backend.Budget) :
  More.nonNegative db ->
  Backend.b_category total = "Total"%string ->
  Backend.period total = Backend.period b ->
  (Backend.spent (Backend.statusOf tz now user db b)
   <= Backend.spent (Backend.statusOf tz now user db total))%Qc.
Proof.
  intros H Ht Hp.
  destruct (statusOf_fields tz now user db b) as [_ [E1 _]].
  destruct (statusOf_fields tz now user db total) as [_ [E2 _]].
  rewrite E1, E2, !backend_sumAmounts_sum.
  unfold Backend.budgetExpenses, Backend.find.
  apply sum_filter_mono; [exact H|].
  intros e He. rewrite Ht. simpl.
  unfold Backend.startDate in *. rewrite Hp.
  apply andb_true_iff in He. destruct He as [He Hs].
  apply andb_true_iff in He. destruct He as [Hu _].
  now rewrite Hu, Hs.
Qed.

Lemma total_budget_dominates_witness :
  More.nonNegative Examples.db
  /\ (Backend.spent (Backend.statusOf 0 Examples.now 1 Examples.db
                                      Examples.foodBudget)
      <= Backend.spent
           (Backend.statusOf 0 Examples.now 1 Examples.db
              {| Backend.b_userId := 1;
                 Backend.b_category := "Total";
                 Backend.limit := JS.ofZ 500;
                 Backend.period := Backend.monthly |}))%Qc.
Proof.
  assert (H : More.nonNegative Examples.db).
  { unfold More.nonNegative. repeat constructor; discriminate. }
  split; [exact H|].
  apply (total_budget_dominates 0 Examples.now 1 Examples.db
           Examples.foodBudget _ H); reflexivity.
Defined.

(** X13. The budget status of a user, under the rules of any time zone, is a
    function of the budgets and of the expenses of that user in the order
    of the collection: the expenses of other users do not change it. *)
Theorem budget_status_frame (zone : Zoned.Zone) (now : Z) (user : N)
  (budgets : list Backend.Budget) (db db' : list Backend.Expense) :
  More.ofUser user db = More.ofUser user db' ->
  ZonedBackend.budgetStatus zone now user budgets db
  = ZonedBackend.budgetStatus zone now user budgets db'.
Proof.
  intro P. unfold ZonedBackend.budgetStatus. apply map_ext. intro b.
  assert (E : ZonedBackend.budgetExpenses zone now user b db
              = ZonedBackend.budgetExpenses zone now user b db').
  { unfold ZonedBackend.budgetExpenses.
    assert (F : forall l,
               Backend.find
                 (fun e => (Backend.userId e =? user)%N
                           && (if String.eqb (Backend.b_category b) "Total"
                               then true
                               else String.eqb (Backend.category e)
                                               (Backend.b_category b))
                           && (ZonedBackend.startDate zone now b
                               <=? Backend.timestamp e)) l
               = Backend.find
                   (fun e => (Backend.userId e =? user)%N
                             && ((if String.eqb (Backend.b_category b) "Total"
                                  then true
                                  else String.eqb (Backend.category e)
                                                  (Backend.b_category b))
                                 && (ZonedBackend.startDate zone now b
                                     <=? Backend.timestamp e))) l).
    { intro l. apply filter_ext. intro e. now rewrite andb_assoc. }
    rewrite !F, !find_of_user, P. reflexivity. }
  unfold ZonedBackend.statusOf. rewrite E. reflexivity.
Qed.

Lemma budget_status_frame_witness :
  More.ofUser 1 Examples.db
  = More.ofUser 1
      (Examples.expense 2 7 "Food" "2024-01-09" 1704794400000 :: Examples.db)
  /\ ZonedBackend.budgetStatus Zones.newYork Examples.now 1
       [Examples.foodBudget] Examples.db
     = ZonedBackend.budgetStatus Zones.newYork Examples.now 1
         [Examples.foodBudget]
         (Examples.expense 2 7 "Food" "2024-01-09" 1704794400000
          :: Examples.db).
Proof.
  assert (P : More.ofUser 1 Examples.db
              = More.ofUser 1
                  (Examples.expense 2 7 "Food" "2024-01-09" 1704794400000
                   :: Examples.db)) by reflexivity.
  split; [exact P|].
  exact (budget_status_frame Zones.newYork Examples.now 1 _ _ _ P).
Defined.

(** ** Editing the expenses of the client *)

Lemma delete_absent_id (expenses : list Client.Expense) (id0 : string) :
  ~ In id0 (map Client.id expenses) ->
  Client.handleDeleteExpense expenses id0 = expenses.
Proof.
  intro H. unfold Client.handleDeleteExpense.
  apply forallb_filter_id. apply forallb_forall.
  intros e He. apply negb_true_iff, String.eqb_neq.
  intro E. apply H. rewrite <- E. now apply in_map.
Qed.



(** X15. [handleEditExpense] changes no id, so it keeps the ids distinct
    when they are; with an id no expense has it returns the list as it is;
    of two edits of one id the second one wins; and deleting the id after
    the edit is deleting it without the edit. *)
Theorem handleEditExpense_ids (expenses : list Client.Expense)
  (id0 : string) (u u' : Client.ExpenseFields) :
  let edited := Client.handleEditExpense expenses id0 u in
  map Client.id edited = map Client.id expenses
  /\ (NoDup (map Client.id expenses) -> NoDup (map Client.id edited))
  /\ (~ In id0 (map Client.id expenses) -> edited = expenses)
  /\ Client.handleEditExpense edited id0 u'
     = Client.handleEditExpense expenses id0 u'
  /\ Client.handleDeleteExpense edited id0
     = Client.handleDeleteExpense expenses id0.
Proof.
  intro edited.
  assert (I : map Client.id edited = map Client.id expenses).
  { unfold edited, Client.handleEditExpense. rewrite map_map.
    apply map_ext. intro e.
    destruct (String.eqb (Client.id e) id0) eqn:E; [|reflexivity].
    apply String.eqb_eq in E. now rewrite E. }
  split; [exact I|]. split; [now rewrite I|].
  unfold edited, Client.handleEditExpense, Client.handleDeleteExpense.
  split; [|split].
  - intro H. rewrite <- (map_id expenses) at 2.
    apply map_ext_in. intros e He.
    destruct (String.eqb (Client.id e) id0) eqn:E; [|reflexivity].
    apply String.eqb_eq in E. exfalso. apply H. rewrite <- E.
    now apply in_map.
  - rewrite map_map. apply map_ext. intro e.
    destruct (String.eqb (Client.id e) id0) eqn:E; simpl.
    + now rewrite String.eqb_refl.
    + now rewrite E.
  - clear edited I. induction expenses as [|e r IH]; simpl.
    + reflexivity.
    + destruct (String.eqb (Client.id e) id0) eqn:E; simpl.
      * rewrite String.eqb_refl. simpl. exact IH.
      * rewrite E. simpl. now rewrite IH.
Qed.

Lemma handleEditExpense_ids_witness :
  NoDup (map Client.id Examples.clientExpenses)
  /\ NoDup (map Client.id
                (Client.handleEditExpense Examples.clientExpenses "2"
                                          Examples.edited))
  /\ Client.handleEditExpense Examples.clientExpenses "9" Examples.edited
     = Examples.clientExpenses.
Proof.
  assert (N : NoDup (map Client.id Examples.clientExpenses)).
  { simpl. repeat constructor; simpl; intuition discriminate. }
  assert (H : ~ In "9"%string (map Client.id Examples.clientExpenses)).
  { simpl. intros [H|[H|[H|H]]]; try discriminate. exact H. }
  split; [exact N|]. split.
  - exact (proj1 (proj2 (handleEditExpense_ids
                           Examples.clientExpenses "2"
                           Examples.edited Examples.edited)) N).
  - exact (proj1 (proj2 (proj2 (handleEditExpense_ids
                                  Examples.clientExpenses "9"
                                  Examples.edited Examples.edited))) H).
Defined.

Lemma integerToString_inj (a b : Z) :
  App.integerToString a = App.integerToString b -> a = b.
Proof.
  unfold App.integerToString. intro H.
  assert (N : forall z, Z.to_int z <> Decimal.Pos Decimal.Nil
                        /\ Z.to_int z <> Decimal.Neg Decimal.Nil).
  { intro z. destruct z as [|p|p]; simpl; split; try discriminate;
      intro E; inversion E as [E'];
      exact (DecimalPos.Unsigned.to_uint_nonnil p E'). }
  apply DecimalZ.to_int_inj.
  assert (S : Some (Z.to_int a) = Some (Z.to_int b)).
  { rewrite <- (NilZero.isi (Z.to_int a)), <- (NilZero.isi (Z.to_int b));
      try apply N.
    now rewrite H. }
  now inversion S.
Qed.



(** ** The categories of the trends modal *)

(** One step of the reduction, as one assignment. *)
Lemma addToCategory_set (acc : Dict.t Qc) (e : Client.Expense) :
  Client.addToCategory acc e
  = Dict.set (Client.category e)
      (match Dict.get (Client.category e) acc with
       | Some v => v
       | None => 0
       end + Client.amount e)%Qc
      (match Dict.get (Client.category e) acc with
       | Some v => if JS.eqb v 0%Qc
                   then Dict.set (Client.category e) 0%Qc acc else acc
       | None => Dict.set (Client.category e) 0%Qc acc
       end).
Proof.
  unfold Client.addToCategory.
  destruct (Dict.get (Client.category e) acc) as [v|] eqn:G.
  - destruct (JS.eqb v 0%Qc) eqn:Z0.
    + rewrite get_set_same. apply eqb_eq in Z0. now subst v.
    + now rewrite G.
  - now rewrite get_set_same.
Qed.

Lemma addToCategory_get (acc : Dict.t Qc) (e : Client.Expense) (k : string) :
  Dict.get k (Client.addToCategory acc e)
  = if String.eqb (Client.category e) k
    then Some (match Dict.get k acc with Some v => v | None => 0 end
               + Client.amount e)%Qc
    else Dict.get k acc.
Proof.
  rewrite addToCategory_set.
  destruct (String.eqb (Client.category e) k) eqn:E.
  - apply String.eqb_eq in E. subst k. now rewrite get_set_same.
  - apply String.eqb_neq in E.
    rewrite get_set_other by congruence.
    destruct (Dict.get (Client.category e) acc) as [v|];
      [destruct (JS.eqb v 0%Qc)|];
      try reflexivity; now rewrite get_set_other by congruence.
Qed.

Lemma addToCategory_nodup (acc : Dict.t Qc) (e : Client.Expense) :
  NoDup (map fst acc) -> NoDup (map fst (Client.addToCategory acc e)).
Proof.
  intro H. rewrite addToCategory_set. apply nodup_keys_set.
  destruct (Dict.get (Client.category e) acc) as [v|];
    [destruct (JS.eqb v 0%Qc)|]; try exact H; now apply nodup_keys_set.
Qed.

Lemma categorySpending_snoc (expenses : list Client.Expense)
  (e : Client.Expense) :
  Client.categorySpending (expenses ++ [e])
  = Client.addToCategory (Client.categorySpending expenses) e.
Proof. unfold Client.categorySpending. now rewrite fold_left_app. Qed.

Lemma categorySpending_get (expenses : list Client.Expense) (k : string) :
  Dict.get k (Client.categorySpending expenses)
  = if existsb (fun e => String.eqb (Client.category e) k) expenses
    then Some (JS.sum (More.clientAmounts k expenses))
    else None.
Proof.
  induction expenses as [|e es IH] using rev_ind.
  - reflexivity.
  - rewrite categorySpending_snoc, addToCategory_get, IH.
    rewrite existsb_app. simpl. rewrite orb_false_r.
    unfold More.clientAmounts. rewrite filter_app, map_app, sum_app. simpl.
    destruct (String.eqb (Client.category e) k) eqn:E.
    + rewrite orb_true_r. simpl. rewrite sum_cons, sum_nil. f_equal.
      destruct (existsb _ es) eqn:X.
      * ring.
      * rewrite (existsb_false_filter _ _ X). simpl. rewrite sum_nil. ring.
    + rewrite orb_false_r. simpl.
      destruct (existsb _ es); [|reflexivity].
      f_equal. rewrite sum_nil. ring.
Qed.

Lemma categorySpending_nodup (expenses : list Client.Expense) :
  NoDup (map fst (Client.categorySpending expenses)).
Proof.
  induction expenses as [|e es IH] using rev_ind.
  - constructor.
  - rewrite categorySpending_snoc. now apply addToCategory_nodup.
Qed.

Lemma client_categoryData_perm (expenses : list Client.Expense) :
  Permutation
    (map (fun c => (Client.ca_category c, Client.ca_amount c))
         (Client.categoryData expenses))
    (Client.categorySpending expenses).
Proof.
  unfold Client.categoryData.
  eapply perm_trans; [apply Permutation_map, sort_perm|].
  rewrite map_map. unfold Dict.entries.
  erewrite map_ext; [rewrite map_id; apply Permutation_refl|].
  now intros [k d].
Qed.

(** X17. The categories of the trends modal, when the categories of the
    expenses are plain keys (no name that an object inherits, no numeral of
    an array index): one entry for each category that occurs among the
    expenses and no other, sorted by amount descending; the amount of an
    entry is the sum, in the order of the input, of the amounts of the
    expenses of its category; and the pie chart lists the same categories
    and amounts in the same order. *)
Theorem client_category_data (exponentString : Qc -> string)
  (expenses : list Client.Expense) :
  More.plainCategories expenses ->
  let data := Client.categoryData expenses in
  StronglySorted (fun a b => (Client.ca_amount b <= Client.ca_amount a)%Qc)
                 data
  /\ NoDup (map Client.ca_category data)
  /\ (forall k, In k (map Client.ca_category data)
                <-> In k (map Client.category expenses))
  /\ (forall c, In c data ->
                Client.ca_amount c
                = JS.sum (More.clientAmounts (Client.ca_category c) expenses))
  /\ map (fun p => (Client.pie_category p, Client.pie_amount p))
         (Client.pieData exponentString expenses)
     = map (fun c => (Client.ca_category c, Client.ca_amount c)) data.
Proof.
  intros _ data.
  pose proof (client_categoryData_perm expenses) as P. fold data in P.
  assert (K : Permutation (map Client.ca_category data)
                          (map fst (Client.categorySpending expenses))).
  { replace (map Client.ca_category data)
      with (map fst (map (fun c => (Client.ca_category c, Client.ca_amount c))
                         data))
      by (now rewrite map_map).
    now apply Permutation_map. }
  split; [|split; [|split; [|split]]].
  - apply (sort_descending Client.ca_amount).
  - apply (Permutation_NoDup (Permutation_sym K)), categorySpending_nodup.
  - intro k. transitivity (In k (map fst (Client.categorySpending expenses))).
    + split; apply Permutation_in; [exact K|now apply Permutation_sym].
    + rewrite get_in_keys, categorySpending_get.
      destruct (existsb _ expenses) eqn:E.
      * apply existsb_exists in E. destruct E as [e [He Hk]].
        apply String.eqb_eq in Hk. subst k.
        split; [intros _; now apply in_map|discriminate].
      * split; [congruence|]. intro H. exfalso.
        apply in_map_iff in H. destruct H as [e [Hk He]].
        assert (X : existsb (fun e0 => String.eqb (Client.category e0) k)
                            expenses = true).
        { apply existsb_exists. exists e. split; [exact He|].
          now apply String.eqb_eq. }
        congruence.
  - intros c Hc.
    assert (I : In (Client.ca_category c, Client.ca_amount c)
                   (Client.categorySpending expenses)).
    { apply (Permutation_in _ P).
      apply (in_map (fun c => (Client.ca_category c, Client.ca_amount c))).
      exact Hc. }
    apply in_nodup_get in I; [|apply categorySpending_nodup].
    rewrite categorySpending_get in I.
    destruct (existsb _ expenses); congruence.
  - unfold Client.pieData. fold data. rewrite map_map. reflexivity.
Qed.

Lemma client_category_data_witness :
  More.plainCategories Examples.clientExpenses
  /\ exists c,
       In c (Client.categoryData Examples.clientExpenses)
       /\ Client.ca_category c = "Eating Out"%string
       /\ this (Client.ca_amount c) = 70%Q.
Proof.
  assert (K : More.plainCategories Examples.clientExpenses)
    by (unfold More.plainCategories; repeat constructor).
  split; [exact K|].
  exists {| Client.ca_category := "Eating Out";
            Client.ca_amount :=
              JS.sum (More.clientAmounts "Eating Out"
                                         Examples.clientExpenses) |}.
  assert (Hin : In {| Client.ca_category := "Eating Out";
                      Client.ca_amount :=
                        JS.sum (More.clientAmounts "Eating Out"
                                                   Examples.clientExpenses) |}
                   (Client.categoryData Examples.clientExpenses))
    by (left; reflexivity).
  split; [exact Hin|]. split; [reflexivity|].
  rewrite (proj1 (proj2 (proj2 (proj2 (client_category_data
                                         (fun _ => ""%string)
                                         Examples.clientExpenses K)))) _ Hin).
  reflexivity.
Defined.

(** ** Calendar arithmetic *)

Lemma coords_exist (z : Z) :
  exists era yoe mp dd,
    Cal.coords z era yoe mp dd
    /\ Date.civil_from_days z = Cal.dateOf era yoe mp dd.
Proof.
  unfold Date.civil_from_days. cbv zeta.
  set (z' := z + 719468).
  set (era := z' / 146097).
  set (doe := z' - era * 146097).
  set (yoe := (doe - doe / 1460 + doe / 36524 - doe / 146096) / 365).
  set (doy := doe - (365 * yoe + yoe / 4 - yoe / 100)).
  set (mp := (5 * doy + 2) / 153).
  exists era, yoe, mp, (doy - (153 * mp + 2) / 5).
  assert (Hdoe : 0 <= doe < 146097)
    by (unfold doe, era; Z.div_mod_to_equations; lia).
  assert (Hy : 0 <= yoe <= 399
               /\ Cal.yearStart yoe <= doe
               /\ (doe < Cal.yearStart (yoe + 1) \/ (yoe = 399 /\ doe = 146096))).
  { unfold yoe, Cal.yearStart. Z.div_mod_to_equations. lia. }
  assert (Hdoy : 0 <= doy <= 365).
  { unfold doy. unfold Cal.yearStart in Hy. Z.div_mod_to_equations. lia. }
  assert (Hm : 0 <= mp <= 11
               /\ Cal.monthStart mp <= doy < Cal.monthStart (mp + 1)).
  { unfold mp, Cal.monthStart. Z.div_mod_to_equations. lia. }
  split.
  - unfold Cal.coords. fold (Cal.monthStart mp).
    unfold doy in *. fold (Cal.yearStart yoe) in *.
    unfold doe in *. unfold Cal.monthStart, Cal.yearStart in *.
    Z.div_mod_to_equations. lia.
  - unfold Cal.dateOf. destruct (mp <? 10) eqn:E.
    + destruct (mp + 3 <=? 2) eqn:F; [apply Z.leb_le in F; lia|].
      f_equal; f_equal; ring.
    + apply Z.ltb_ge in E.
      destruct (mp - 9 <=? 2) eqn:F; [|apply Z.leb_gt in F; lia].
      f_equal; f_equal; ring.
Qed.


Lemma year_of_day (x y : Z) :
  0 <= y <= 399 -> Cal.yearStart y <= x ->
  (x < Cal.yearStart (y + 1) \/ (y = 399 /\ x = 146096)) ->
  (x - x / 1460 + x / 36524 - x / 146096) / 365 = y.
Proof.
  unfold Cal.yearStart. intros H1 H2 H3.
  Z.div_mod_to_equations. lia.
Qed.

Lemma month_of_day (doy mp : Z) :
  0 <= mp <= 11 ->
  Cal.monthStart mp <= doy < Cal.monthStart (mp + 1) ->
  (5 * doy + 2) / 153 = mp.
Proof.
  unfold Cal.monthStart. intros H1 H2. Z.div_mod_to_equations. lia.
Qed.

Lemma coords_bounds (z era yoe mp dd : Z) :
  Cal.coords z era yoe mp dd ->
  0 <= Cal.yearStart yoe + Cal.monthStart mp + dd < 146097
  /\ 0 <= Cal.monthStart mp /\ 0 <= dd <= 30.
Proof.
  unfold Cal.coords, Cal.yearStart, Cal.monthStart. intro C.
  Z.div_mod_to_equations. lia.
Qed.

Lemma coords_unique (z era yoe mp dd : Z) :
  Cal.coords z era yoe mp dd ->
  Date.civil_from_days z = Cal.dateOf era yoe mp dd.
Proof.
  intro C. pose proof (coords_bounds _ _ _ _ _ C) as B.
  destruct C as [C1 [C2 [C3 [C4 [C5 C6]]]]].
  unfold Date.civil_from_days. cbv zeta.
  set (doe := Cal.yearStart yoe + Cal.monthStart mp + dd) in *.
  assert (Era : (z + 719468) / 146097 = era).
  { rewrite C1. replace (146097 * era + Cal.yearStart yoe + Cal.monthStart mp + dd)
      with (doe + era * 146097) by (unfold doe; ring).
    rewrite Z.div_add by discriminate. rewrite Z.div_small by lia. ring. }
  rewrite Era.
  assert (Doe : z + 719468 - era * 146097 = doe) by (unfold doe; lia).
  rewrite Doe.
  assert (Y : (doe - doe / 1460 + doe / 36524 - doe / 146096) / 365 = yoe).
  { apply year_of_day; [lia|unfold doe; lia|].
    destruct C6 as [C6|[-> [-> ->]]]; [left; unfold doe; lia|right].
    split; [reflexivity|]. unfold doe. reflexivity. }
  rewrite Y. fold (Cal.yearStart yoe).
  assert (Doy : doe - Cal.yearStart yoe = Cal.monthStart mp + dd)
    by (unfold doe; ring).
  rewrite Doy.
  assert (M : (5 * (Cal.monthStart mp + dd) + 2) / 153 = mp)
    by (apply month_of_day; lia).
  rewrite M. fold (Cal.monthStart mp).
  unfold Cal.dateOf. destruct (mp <? 10) eqn:E.
  - apply Z.ltb_lt in E.
    destruct (mp + 3 <=? 2) eqn:F; [apply Z.leb_le in F; lia|].
    f_equal; f_equal; ring.
  - apply Z.ltb_ge in E.
    destruct (mp - 9 <=? 2) eqn:F; [|apply Z.leb_gt in F; lia].
    f_equal; f_equal; ring.
Qed.

Lemma days_of_coords (z era yoe mp dd : Z) :
  Cal.coords z era yoe mp dd ->
  let '(y, m, d) := Cal.dateOf era yoe mp dd in
  Date.days_from_civil y m d = z.
Proof.
  intro C. destruct C as [C1 [C2 [C3 _]]].
  unfold Cal.dateOf, Date.days_from_civil. cbv zeta.
  destruct (mp <? 10) eqn:E.
  - apply Z.ltb_lt in E.
    destruct (mp + 3 <=? 2) eqn:F; [apply Z.leb_le in F; lia|].
    destruct (2 <? mp + 3) eqn:G; [|apply Z.ltb_ge in G; lia].
    replace (yoe + era * 400 + 0) with (yoe + era * 400) by ring.
    assert (Q : (yoe + era * 400) / 400 = era)
      by (rewrite Z.div_add by discriminate; rewrite Z.div_small by lia; ring).
    rewrite Q.
    replace (mp + 3 - 3) with mp by ring.
    replace (yoe + era * 400 - era * 400) with yoe by ring.
    unfold Cal.yearStart, Cal.monthStart in C1. lia.
  - apply Z.ltb_ge in E.
    destruct (mp - 9 <=? 2) eqn:F; [|apply Z.leb_gt in F; lia].
    destruct (2 <? mp - 9) eqn:G; [apply Z.ltb_lt in G; lia|].
    replace (yoe + era * 400 + 1 - 1) with (yoe + era * 400) by ring.
    assert (Q : (yoe + era * 400) / 400 = era)
      by (rewrite Z.div_add by discriminate; rewrite Z.div_small by lia; ring).
    rewrite Q.
    replace (mp - 9 + 9) with mp by ring.
    replace (yoe + era * 400 - era * 400) with yoe by ring.
    unfold Cal.yearStart, Cal.monthStart in C1. lia.
Qed.

Lemma civil_range (z : Z) :
  let '(y, m, d) := Date.civil_from_days z in
  1 <= m <= 12 /\ 1 <= d <= 31 /\ Date.days_from_civil y m d = z.
Proof.
  destruct (coords_exist z) as [era [yoe [mp [dd [C E]]]]].
  rewrite E. pose proof (days_of_coords _ _ _ _ _ C) as D.
  pose proof (coords_bounds _ _ _ _ _ C) as B.
  destruct C as [_ [_ [C3 _]]].
  unfold Cal.dateOf in *.
  destruct (mp <? 10) eqn:F;
    [apply Z.ltb_lt in F|apply Z.ltb_ge in F]; repeat split; try lia; exact D.
Qed.

Lemma days_linear (y m d : Z) :
  Date.days_from_civil y m d = Date.days_from_civil y m 1 + (d - 1).
Proof. unfold Date.days_from_civil. cbv zeta. ring. Qed.

Lemma coords_first (z era yoe mp dd : Z) :
  Cal.coords z era yoe mp dd -> Cal.coords (z - dd) era yoe mp 0.
Proof.
  unfold Cal.coords, Cal.yearStart, Cal.monthStart. intro C.
  Z.div_mod_to_equations. lia.
Qed.

(** Day 1 of a month, from its year and month. *)
Lemma month_start_coords (y m : Z) :
  1 <= m <= 12 ->
  exists era yoe mp,
    Cal.coords (Date.days_from_civil y m 1) era yoe mp 0
    /\ Cal.dateOf era yoe mp 0 = (y, m, 1).
Proof.
  intro Hm.
  set (Y := if m <=? 2 then y - 1 else y).
  set (mp := if 2 <? m then m - 3 else m + 9).
  exists (Y / 400), (Y - Y / 400 * 400), mp.
  assert (Hmp : 0 <= mp <= 11).
  { unfold mp. destruct (2 <? m) eqn:E;
      [apply Z.ltb_lt in E|apply Z.ltb_ge in E]; lia. }
  assert (Hy : 0 <= Y - Y / 400 * 400 <= 399)
    by (Z.div_mod_to_equations; lia).
  split.
  - unfold Cal.coords. unfold Date.days_from_civil. cbv zeta.
    fold Y. fold mp.
    set (yoe := Y - Y / 400 * 400) in *.
    unfold Cal.yearStart, Cal.monthStart.
    clearbody yoe mp. Z.div_mod_to_equations. lia.
  - unfold Cal.dateOf, mp, Y.
    destruct (m <=? 2) eqn:E1; destruct (2 <? m) eqn:E2;
      rewrite ?Z.leb_le, ?Z.leb_gt, ?Z.ltb_lt, ?Z.ltb_ge in *; try lia.
    + destruct (m + 9 <? 10) eqn:E3;
        [apply Z.ltb_lt in E3; lia|].
      replace (y - 1 - (y - 1) / 400 * 400 + (y - 1) / 400 * 400 + 1)
        with y by lia.
      replace (m + 9 - 9) with m by lia. reflexivity.
    + destruct (m - 3 <? 10) eqn:E3;
        [|apply Z.ltb_ge in E3; lia].
      replace (y - y / 400 * 400 + y / 400 * 400 + 0) with y by lia.
      replace (m - 3 + 3) with m by lia. reflexivity.
Qed.

Lemma civil_of_month_start (y m : Z) :
  1 <= m <= 12 ->
  Date.civil_from_days (Date.days_from_civil y m 1) = (y, m, 1).
Proof.
  intro Hm. destruct (month_start_coords y m Hm) as [era [yoe [mp [C E]]]].
  rewrite <- E. now apply coords_unique.
Qed.

Lemma dateOf_month (era yoe mp dd : Z) :
  0 <= mp <= 11 ->
  let '(y, m, d) := Cal.dateOf era yoe mp dd in
  1 <= m <= 12 /\ d = dd + 1
  /\ Cal.monthNumber y m = (yoe + era * 400) * 12 + mp + 3.
Proof.
  intro H. unfold Cal.dateOf, Cal.monthNumber.
  destruct (mp <? 10) eqn:E;
    [apply Z.ltb_lt in E|apply Z.ltb_ge in E]; lia.
Qed.

(** The month after a month: its day 1 comes 28 to 31 days after the day 1
    of the month, and the days between are the days of the month. *)
Lemma coords_month_after (z era yoe mp : Z) :
  Cal.coords z era yoe mp 0 ->
  exists len era' yoe' mp',
    28 <= len <= 31
    /\ Cal.coords (z + len) era' yoe' mp' 0
    /\ (yoe' + era' * 400) * 12 + mp' = (yoe + era * 400) * 12 + mp + 1
    /\ forall k, 0 <= k < len -> Cal.coords (z + k) era yoe mp k.
Proof.
  intro C.
  assert (M : mp < 11 \/ mp = 11) by (destruct C as [_ [_ [C3 _]]]; lia).
  destruct M as [M|M].
  - exists (Cal.monthStart (mp + 1) - Cal.monthStart mp), era, yoe, (mp + 1).
    unfold Cal.coords, Cal.yearStart, Cal.monthStart in *.
    split; [Z.div_mod_to_equations; lia|].
    split; [Z.div_mod_to_equations; lia|].
    split; [lia|].
    intros k Hk. Z.div_mod_to_equations. lia.
  - subst mp.
    assert (Y : yoe < 399 \/ yoe = 399) by (destruct C as [_ [C2 _]]; lia).
    destruct Y as [Y|Y].
    + exists (Cal.yearStart (yoe + 1) - Cal.yearStart yoe - 337),
        era, (yoe + 1), 0.
      unfold Cal.coords, Cal.yearStart, Cal.monthStart in *.
      split; [Z.div_mod_to_equations; lia|].
      split; [Z.div_mod_to_equations; lia|].
      split; [lia|].
      intros k Hk. Z.div_mod_to_equations. lia.
    + subst yoe. exists 29, (era + 1), 0, 0.
      unfold Cal.coords, Cal.yearStart, Cal.monthStart in *.
      split; [lia|].
      split; [Z.div_mod_to_equations; lia|].
      split; [lia|].
      intros k Hk. Z.div_mod_to_equations. lia.
Qed.

(** The month before a month. *)
Lemma coords_month_before (z era yoe mp : Z) :
  Cal.coords z era yoe mp 0 ->
  exists z' era' yoe' mp',
    z - 31 <= z' <= z - 28
    /\ Cal.coords z' era' yoe' mp' 0
    /\ (yoe' + era' * 400) * 12 + mp' + 1 = (yoe + era * 400) * 12 + mp.
Proof.
  intro C.
  assert (M : 0 < mp \/ mp = 0) by (destruct C as [_ [_ [C3 _]]]; lia).
  destruct M as [M|M].
  - exists (z - (Cal.monthStart mp - Cal.monthStart (mp - 1))),
      era, yoe, (mp - 1).
    unfold Cal.coords, Cal.yearStart, Cal.monthStart in *.
    replace (mp - 1 + 1) with mp by ring.
    split; [Z.div_mod_to_equations; lia|].
    split; [Z.div_mod_to_equations; lia|lia].
  - subst mp.
    assert (Y : 0 < yoe \/ yoe = 0) by (destruct C as [_ [C2 _]]; lia).
    destruct Y as [Y|Y].
    + exists (z - (Cal.yearStart yoe - Cal.yearStart (yoe - 1) - 337)),
        era, (yoe - 1), 11.
      unfold Cal.coords, Cal.yearStart, Cal.monthStart in *.
      replace (yoe - 1 + 1) with yoe by ring.
      split; [Z.div_mod_to_equations; lia|].
      split; [Z.div_mod_to_equations; lia|lia].
    + subst yoe. exists (z - 29), (era - 1), 399, 11.
      unfold Cal.coords, Cal.yearStart, Cal.monthStart in *.
      split; [lia|].
      split; [Z.div_mod_to_equations; lia|lia].
Qed.

(** The coordinates of the local day of an instant, in terms of its
    getters. *)
Lemma instant_coords (tz t : Z) :
  exists era yoe mp dd,
    Cal.coords (Date.localDay tz t) era yoe mp dd
    /\ Date.getDate tz t = dd + 1
    /\ 0 <= Date.getMonth tz t <= 11
    /\ Date.getFullYear tz t * 12 + Date.getMonth tz t
       = (yoe + era * 400) * 12 + mp + 2.
Proof.
  destruct (coords_exist (Date.localDay tz t)) as [era [yoe [mp [dd [C E]]]]].
  exists era, yoe, mp, dd. split; [exact C|].
  unfold Date.getDate, Date.getMonth, Date.getFullYear. rewrite E.
  destruct C as [_ [_ [C3 _]]].
  pose proof (dateOf_month era yoe mp dd C3) as M.
  unfold Cal.monthNumber in M.
  destruct (Cal.dateOf era yoe mp dd) as [[y m] d]. lia.
Qed.

Lemma coords_of_month (z era yoe mp z' era' yoe' mp' : Z) :
  Cal.coords z era yoe mp 0 -> Cal.coords z' era' yoe' mp' 0 ->
  (yoe + era * 400) * 12 + mp = (yoe' + era' * 400) * 12 + mp' ->
  z = z'.
Proof.
  unfold Cal.coords. intros [C1 [C2 [C3 _]]] [D1 [D2 [D3 _]]] E.
  assert (mp = mp' /\ yoe = yoe' /\ era = era') by lia.
  destruct H as [-> [-> ->]]. lia.
Qed.

(** [new Date(year, monthIndex, 1)]: local midnight of day 1 of the month
    the index stands for. *)
Lemma makeDate_first (tz year mi : Z) :
  year < 0 \/ 99 < year ->
  exists z era yoe mp,
    Date.makeDate tz year mi 1 = z * Date.msPerDay - tz
    /\ Cal.coords z era yoe mp 0
    /\ (yoe + era * 400) * 12 + mp + 2 = year * 12 + mi.
Proof.
  intro Hy. unfold Date.makeDate.
  assert (R : (0 <=? year) && (year <=? 99) = false).
  { apply andb_false_iff. destruct Hy; [left; apply Z.leb_gt|right; apply Z.leb_gt]; lia. }
  rewrite R. cbv zeta.
  assert (Hm : 1 <= mi mod 12 + 1 <= 12) by (Z.div_mod_to_equations; lia).
  destruct (month_start_coords (year + mi / 12) (mi mod 12 + 1) Hm)
    as [era [yoe [mp [C E]]]].
  exists (Date.days_from_civil (year + mi / 12) (mi mod 12 + 1) 1), era, yoe, mp.
  split; [f_equal; f_equal; ring|]. split; [exact C|].
  destruct C as [_ [_ [C3 _]]].
  pose proof (dateOf_month era yoe mp 0 C3) as M. rewrite E in M.
  unfold Cal.monthNumber in M. Z.div_mod_to_equations. lia.
Qed.

Lemma localDay_of_midnight (tz z : Z) :
  Date.localDay tz (z * Date.msPerDay - tz) = z
  /\ (z * Date.msPerDay - tz + tz) mod Date.msPerDay = 0.
Proof.
  unfold Date.localDay.
  replace (z * Date.msPerDay - tz + tz) with (z * Date.msPerDay) by ring.
  split; [now apply Z.div_mul|now apply Z.mod_mul].
Qed.

Lemma getters_of_coords (tz t era yoe mp dd : Z) :
  Cal.coords (Date.localDay tz t) era yoe mp dd ->
  Date.getDate tz t = dd + 1
  /\ Date.getFullYear tz t * 12 + Date.getMonth tz t
     = (yoe + era * 400) * 12 + mp + 2
  /\ 0 <= Date.getMonth tz t <= 11.
Proof.
  intro C. unfold Date.getDate, Date.getMonth, Date.getFullYear.
  rewrite (coords_unique _ _ _ _ _ C).
  destruct C as [_ [_ [C3 _]]].
  pose proof (dateOf_month era yoe mp dd C3) as M.
  unfold Cal.monthNumber in M.
  destruct (Cal.dateOf era yoe mp dd) as [[y m] d]. lia.
Qed.

(** The start of the month of an instant and of the month before. *)
Lemma month_starts (tz now : Z) :
  Date.getFullYear tz now < 0 \/ 99 < Date.getFullYear tz now ->
  let s := Date.makeDate tz (Date.getFullYear tz now) (Date.getMonth tz now) 1 in
  let p := Date.makeDate tz (Date.getFullYear tz now)
                         (Date.getMonth tz now - 1) 1 in
  ((s + tz) mod Date.msPerDay = 0
   /\ Date.getDate tz s = 1
   /\ Date.getFullYear tz s * 12 + Date.getMonth tz s
      = Date.getFullYear tz now * 12 + Date.getMonth tz now
   /\ s = now - (Date.getDate tz now - 1) * Date.msPerDay
          - (now + tz) mod Date.msPerDay)
  /\ ((p + tz) mod Date.msPerDay = 0
      /\ Date.getDate tz p = 1
      /\ Date.getFullYear tz p * 12 + Date.getMonth tz p + 1
         = Date.getFullYear tz now * 12 + Date.getMonth tz now
      /\ s - 31 * Date.msPerDay <= p <= s - 28 * Date.msPerDay).
Proof.
  intros Hy s p.
  destruct (instant_coords tz now) as [era [yoe [mp [dd [C [Gd [Gm Gn]]]]]]].
  pose proof (coords_first _ _ _ _ _ C) as C0.
  destruct (makeDate_first tz _ (Date.getMonth tz now) Hy)
    as [zs [e1 [y1 [m1 [Es [Cs Ns]]]]]].
  fold s in Es.
  assert (Zs : Date.localDay tz now - dd = zs)
    by (apply (coords_of_month _ _ _ _ _ _ _ _ C0 Cs); lia).
  destruct (localDay_of_midnight tz zs) as [Ls Ms]. rewrite <- Es in Ls, Ms.
  rewrite <- Ls in Cs.
  destruct (getters_of_coords _ _ _ _ _ _ Cs) as [Ds [Ns' _]].
  destruct (coords_month_before _ _ _ _ C0) as [z' [e' [y' [m' [Bz [C' N']]]]]].
  destruct (makeDate_first tz _ (Date.getMonth tz now - 1) Hy)
    as [zp [e2 [y2 [m2 [Ep [Cp Np]]]]]].
  fold p in Ep.
  assert (Zp : z' = zp)
    by (apply (coords_of_month _ _ _ _ _ _ _ _ C' Cp); lia).
  destruct (localDay_of_midnight tz zp) as [Lp Mp]. rewrite <- Ep in Lp, Mp.
  rewrite <- Lp in Cp.
  destruct (getters_of_coords _ _ _ _ _ _ Cp) as [Dp [Np' _]].
  split; [split; [exact Ms|split; [lia|split; [lia|]]]
         |split; [exact Mp|split; [lia|split; [lia|]]]].
  - rewrite Es, <- Zs, Gd. unfold Date.localDay, Date.msPerDay.
    Z.div_mod_to_equations. lia.
  - rewrite Es, Ep. unfold Date.msPerDay. lia.
Qed.

(** ** The days of a month *)

(** The days of a month. *)
Lemma coords_month_length (z era yoe mp : Z) :
  Cal.coords z era yoe mp 0 ->
  exists len era' yoe' mp',
    28 <= len <= 31
    /\ Cal.coords (z + len) era' yoe' mp' 0
    /\ (yoe' + era' * 400) * 12 + mp' = (yoe + era * 400) * 12 + mp + 1
    /\ (forall k, 0 <= k < len -> Cal.coords (z + k) era yoe mp k)
    /\ (forall dd, Cal.coords (z + dd) era yoe mp dd -> dd < len).
Proof.
  intro C.
  assert (M : mp < 11 \/ mp = 11) by (destruct C as [_ [_ [C3 _]]]; lia).
  destruct M as [M|M].
  - exists (Cal.monthStart (mp + 1) - Cal.monthStart mp), era, yoe, (mp + 1).
    unfold Cal.coords, Cal.yearStart, Cal.monthStart in *.
    split; [Z.div_mod_to_equations; lia|].
    split; [Z.div_mod_to_equations; lia|].
    split; [lia|]. split.
    + intros k Hk. Z.div_mod_to_equations. lia.
    + intros dd Hd. Z.div_mod_to_equations. lia.
  - subst mp.
    assert (Y : yoe < 399 \/ yoe = 399) by (destruct C as [_ [C2 _]]; lia).
    destruct Y as [Y|Y].
    + exists (Cal.yearStart (yoe + 1) - Cal.yearStart yoe - 337),
        era, (yoe + 1), 0.
      unfold Cal.coords, Cal.yearStart, Cal.monthStart in *.
      split; [Z.div_mod_to_equations; lia|].
      split; [Z.div_mod_to_equations; lia|].
      split; [lia|]. split.
      * intros k Hk. Z.div_mod_to_equations. lia.
      * intros dd Hd. Z.div_mod_to_equations. lia.
    + subst yoe. exists 29, (era + 1), 0, 0.
      unfold Cal.coords, Cal.yearStart, Cal.monthStart in *.
      split; [lia|].
      split; [Z.div_mod_to_equations; lia|].
      split; [lia|]. split.
      * intros k Hk. Z.div_mod_to_equations. lia.
      * intros dd Hd. Z.div_mod_to_equations. lia.
Qed.

Lemma makeDate_day (tz year mi day : Z) :
  Date.makeDate tz year mi day
  = Date.makeDate tz year mi 1 + (day - 1) * Date.msPerDay.
Proof. unfold Date.makeDate. cbv zeta. ring. Qed.

(** [new Date(year, month + 1, 0).getDate()] for the year and the month of
    an instant: the number of days of its month. *)
Lemma days_in_month (tz t : Z) :
  Date.getFullYear tz t < 0 \/ 99 < Date.getFullYear tz t ->
  let first := Date.makeDate tz (Date.getFullYear tz t) (Date.getMonth tz t) 1 in
  let last := Date.makeDate tz (Date.getFullYear tz t)
                            (Date.getMonth tz t + 1) 0 in
  let len := Date.getDate tz last in
  28 <= len <= 31
  /\ 1 <= Date.getDate tz t <= len
  /\ last = first + (len - 1) * Date.msPerDay
  /\ (forall k, 0 <= k < len ->
        Date.getDate tz (first + k * Date.msPerDay) = k + 1
        /\ Date.getFullYear tz (first + k * Date.msPerDay) * 12
           + Date.getMonth tz (first + k * Date.msPerDay)
           = Date.getFullYear tz t * 12 + Date.getMonth tz t)
  /\ Date.getDate tz (first + len * Date.msPerDay) = 1
  /\ Date.getFullYear tz (first + len * Date.msPerDay) * 12
     + Date.getMonth tz (first + len * Date.msPerDay)
     = Date.getFullYear tz t * 12 + Date.getMonth tz t + 1.
Proof.
  intros Hy first last len.
  destruct (instant_coords tz t) as [era [yoe [mp [dd [C [Gd [Gm Gn]]]]]]].
  pose proof (coords_first _ _ _ _ _ C) as C0.
  pose proof (coords_bounds _ _ _ _ _ C) as B.
  destruct (makeDate_first tz _ (Date.getMonth tz t) Hy)
    as [zs [e1 [y1 [m1 [Es [Cs Ns]]]]]].
  fold first in Es.
  assert (Zs : Date.localDay tz t - dd = zs)
    by (apply (coords_of_month _ _ _ _ _ _ _ _ C0 Cs); lia).
  assert (Same : e1 = era /\ y1 = yoe /\ m1 = mp).
  { destruct Cs as [_ [Cs2 [Cs3 _]]]. destruct C as [_ [C2 [C3 _]]]. lia. }
  destruct Same as [-> [-> ->]].
  destruct (coords_month_length _ _ _ _ Cs)
    as [n [e' [y' [m' [Hn [Cn [Nn [In Lt]]]]]]]].
  destruct (makeDate_first tz _ (Date.getMonth tz t + 1) Hy)
    as [zn [e2 [y2 [m2 [En [Cn' Nn']]]]]].
  assert (Zn : zs + n = zn)
    by (apply (coords_of_month _ _ _ _ _ _ _ _ Cn Cn'); lia).
  assert (Elast : last = (zs + (n - 1)) * Date.msPerDay - tz).
  { unfold last. rewrite makeDate_day, En, <- Zn. ring. }
  assert (Point : forall k, first + k * Date.msPerDay
                            = (zs + k) * Date.msPerDay - tz)
    by (intro k; rewrite Es; ring).
  assert (Len : len = n).
  { unfold len. rewrite Elast.
    destruct (localDay_of_midnight tz (zs + (n - 1))) as [L _].
    assert (Ck : Cal.coords (zs + (n - 1)) era yoe mp (n - 1))
      by (apply In; lia).
    rewrite <- L in Ck.
    destruct (getters_of_coords _ _ _ _ _ _ Ck) as [G _]. lia. }
  rewrite Len.
  split; [exact Hn|]. split.
  - rewrite Gd. split; [lia|].
    assert (dd < n); [|lia]. apply Lt. rewrite <- Zs.
    replace (Date.localDay tz t - dd + dd) with (Date.localDay tz t) by ring.
    exact C.
  - split; [rewrite Elast, Es; ring|]. split; [|split].
    + intros k Hk. rewrite Point.
      destruct (localDay_of_midnight tz (zs + k)) as [L _].
      pose proof (In k Hk) as Ck. rewrite <- L in Ck.
      destruct (getters_of_coords _ _ _ _ _ _ Ck) as [G1 [G2 _]]. lia.
    + rewrite Point.
      destruct (localDay_of_midnight tz (zs + n)) as [L _].
      rewrite <- L in Cn.
      destruct (getters_of_coords _ _ _ _ _ _ Cn) as [G1 _]. lia.
    + rewrite Point.
      destruct (localDay_of_midnight tz (zs + n)) as [L _].
      rewrite <- L in Cn.
      destruct (getters_of_coords _ _ _ _ _ _ Cn) as [_ [G2 _]]. lia.
Qed.

(** ** The summary of the month of the dashboard *)

Lemma ofZ_nonzero (z : Z) : z <> 0 -> JS.ofZ z <> 0%Qc.
Proof.
  intros H E. unfold JS.ofZ in E. apply Q2Qc_eq_iff in E.
  unfold Qeq, inject_Z in E. simpl in E. lia.
Qed.



(** ** The calendar component *)

Lemma range_in (from : Z) (n : nat) (z : Z) :
  In z (Cal.range from n) <-> from <= z < from + Z.of_nat n.
Proof.
  unfold Cal.range. rewrite in_map_iff. split.
  - intros [i [E H]]. apply in_seq in H. lia.
  - intro H. exists (Z.to_nat (z - from)). split; [lia|].
    apply in_seq. lia.
Qed.

Lemma range_of_seq (from : nat) (n : nat) :
  map Z.of_nat (seq from n) = Cal.range (Z.of_nat from) n.
Proof.
  unfold Cal.range. revert from. induction n as [|n IH]; intro from; simpl.
  - reflexivity.
  - f_equal; [lia|]. rewrite IH. rewrite <- !seq_shift, !map_map.
    apply map_ext. intro i. lia.
Qed.

(** The decimal digits of the years 1000 to 9999 are four digits, and
    padding the numbers 0 to 99 gives two digits. *)
Lemma fourDigits_checked :
  forallb (fun y => String.eqb (App.integerToString y) (Date.digits 4 y))
          (Cal.range 1000 (Z.to_nat 9000))
  = true.
Proof. vm_compute. reflexivity. Qed.

Lemma twoDigits_checked :
  forallb (fun n => String.eqb (Calendar.pad2 n) (Date.digits 2 n))
          (Cal.range 0 (Z.to_nat 100))
  = true.
Proof. vm_compute. reflexivity. Qed.

Lemma four_digits (y : Z) :
  1000 <= y <= 9999 -> App.integerToString y = Date.digits 4 y.
Proof.
  intro H. pose proof fourDigits_checked as C.
  rewrite forallb_forall in C.
  apply String.eqb_eq. apply C. apply range_in. lia.
Qed.

Lemma two_digits (n : Z) :
  0 <= n <= 99 -> Calendar.pad2 n = Date.digits 2 n.
Proof.
  intro H. pose proof twoDigits_checked as C.
  rewrite forallb_forall in C.
  apply String.eqb_eq. apply C. apply range_in. lia.
Qed.

Lemma civil_getters (tz t : Z) :
  Date.civil_from_days (Date.localDay tz t)
  = (Date.getFullYear tz t, Date.getMonth tz t + 1, Date.getDate tz t).
Proof.
  unfold Date.getFullYear, Date.getMonth, Date.getDate.
  destruct (Date.civil_from_days (Date.localDay tz t)) as [[y m] d].
  f_equal. f_equal. ring.
Qed.

Lemma month_range (tz t : Z) : 0 <= Date.getMonth tz t <= 11.
Proof.
  destruct (instant_coords tz t) as [era [yoe [mp [dd [_ [_ [G _]]]]]]].
  exact G.
Qed.

Lemma getDay_range (tz t : Z) : 0 <= Date.getDay tz t <= 6.
Proof. unfold Date.getDay. Z.div_mod_to_equations. lia. Qed.

Lemma localDay_add (tz t k : Z) :
  Date.localDay tz (t + k * Date.msPerDay) = Date.localDay tz t + k.
Proof.
  unfold Date.localDay.
  replace (t + k * Date.msPerDay + tz) with (t + tz + k * Date.msPerDay) by ring.
  now rewrite Z.div_add.
Qed.

Lemma calendar_sum (l : list Client.Expense) :
  fold_left (fun sum expense => (sum + Client.amount expense)%Qc) l 0%Qc
  = JS.sum (map Client.amount l).
Proof. exact (client_sumAmounts_sum l). Qed.



Lemma makeDate_month (tz year mi : Z) :
  year < 0 \/ 99 < year ->
  (Date.makeDate tz year mi 1 + tz) mod Date.msPerDay = 0
  /\ Date.getDate tz (Date.makeDate tz year mi 1) = 1
  /\ Date.getFullYear tz (Date.makeDate tz year mi 1) * 12
     + Date.getMonth tz (Date.makeDate tz year mi 1) = year * 12 + mi
  /\ 0 <= Date.getMonth tz (Date.makeDate tz year mi 1) <= 11.
Proof.
  intro Hy.
  destruct (makeDate_first tz year mi Hy) as [z [era [yoe [mp [E [C M]]]]]].
  rewrite E. destruct (localDay_of_midnight tz z) as [D R].
  split; [exact R|].
  rewrite <- D in C.
  destruct (getters_of_coords _ _ _ _ _ _ C) as [G1 [G2 G3]].
  split; [rewrite G1; reflexivity|]. split; [rewrite G2; lia|exact G3].
Qed.

Lemma makeDate_same_month (tz year mi year' mi' : Z) :
  year < 0 \/ 99 < year -> year' < 0 \/ 99 < year' ->
  year * 12 + mi = year' * 12 + mi' ->
  Date.makeDate tz year mi 1 = Date.makeDate tz year' mi' 1.
Proof.
  intros Hy Hy' E.
  destruct (makeDate_first tz year mi Hy) as [z [era [yoe [mp [E1 [C1 M1]]]]]].
  destruct (makeDate_first tz year' mi' Hy') as [z' [era' [yoe' [mp' [E2 [C2 M2]]]]]].
  rewrite E1, E2.
  rewrite (coords_of_month _ _ _ _ _ _ _ _ C1 C2) by lia. reflexivity.
Qed.

Lemma calendar_year (tz : Z) (st : Calendar.State) :
  Date.getFullYear tz (Calendar.currentDate st) = Calendar.year tz st.
Proof. unfold Calendar.year. reflexivity. Qed.

Lemma calendar_month (tz : Z) (st : Calendar.State) :
  Date.getMonth tz (Calendar.currentDate st) = Calendar.month tz st.
Proof. unfold Calendar.month. reflexivity. Qed.

Lemma previousMonth_date (tz : Z) (st : Calendar.State) :
  Calendar.currentDate (Calendar.previousMonth tz st)
  = Date.makeDate tz (Calendar.year tz st) (Calendar.month tz st - 1) 1.
Proof. unfold Calendar.previousMonth. reflexivity. Qed.

Lemma nextMonth_date (tz : Z) (st : Calendar.State) :
  Calendar.currentDate (Calendar.nextMonth tz st)
  = Date.makeDate tz (Calendar.year tz st) (Calendar.month tz st + 1) 1.
Proof. unfold Calendar.nextMonth. reflexivity. Qed.

(** X21. The two arrows of the calendar, when the year shown is not one of
    the years 0 to 99: the month before and the month after are shown, with
    the year carried in January and in December; the new current date is
    local midnight of the first day of that month; the selection is
    cleared; and going back and forth again shows the first day of the
    month one started from. *)
Theorem calendar_navigation (tz : Z) (st : Calendar.State) :
  Calendar.year tz st < 0 \/ 99 < Calendar.year tz st ->
  let p := Calendar.previousMonth tz st in
  let n := Calendar.nextMonth tz st in
  ((Calendar.year tz p, Calendar.month tz p)
   = (if Calendar.month tz st =? 0
      then (Calendar.year tz st - 1, 11)
      else (Calendar.year tz st, Calendar.month tz st - 1))
   /\ Date.getDate tz (Calendar.currentDate p) = 1
   /\ (Calendar.currentDate p + tz) mod Date.msPerDay = 0
   /\ Calendar.selectedDate p = None)
  /\ ((Calendar.year tz n, Calendar.month tz n)
      = (if Calendar.month tz st =? 11
         then (Calendar.year tz st + 1, 0)
         else (Calendar.year tz st, Calendar.month tz st + 1))
      /\ Date.getDate tz (Calendar.currentDate n) = 1
      /\ (Calendar.currentDate n + tz) mod Date.msPerDay = 0
      /\ Calendar.selectedDate n = None)
  /\ (Calendar.year tz p < 0 \/ 99 < Calendar.year tz p ->
      Calendar.currentDate (Calendar.nextMonth tz p)
      = Calendar.firstDayOfMonth tz st)
  /\ (Calendar.year tz n < 0 \/ 99 < Calendar.year tz n ->
      Calendar.currentDate (Calendar.previousMonth tz n)
      = Calendar.firstDayOfMonth tz st).
Proof.
  intros Hy. cbv zeta.
  pose proof (month_range tz (Calendar.currentDate st)) as M0.
  rewrite calendar_month in M0.
  destruct (makeDate_month tz _ (Calendar.month tz st - 1) Hy)
    as [P1 [P2 [P3 P4]]].
  destruct (makeDate_month tz _ (Calendar.month tz st + 1) Hy)
    as [N1 [N2 [N3 N4]]].
  rewrite <- previousMonth_date in P1, P2, P3, P4.
  rewrite <- nextMonth_date in N1, N2, N3, N4.
  rewrite calendar_year, calendar_month in P3. rewrite calendar_month in P4.
  rewrite calendar_year, calendar_month in N3. rewrite calendar_month in N4.
  split; [|split; [|split]].
  - split; [|split; [exact P2|split; [exact P1|reflexivity]]].
    destruct (Z.eqb_spec (Calendar.month tz st) 0); f_equal; lia.
  - split; [|split; [exact N2|split; [exact N1|reflexivity]]].
    destruct (Z.eqb_spec (Calendar.month tz st) 11); f_equal; lia.
  - intro H. rewrite nextMonth_date. unfold Calendar.firstDayOfMonth.
    apply makeDate_same_month; [exact H|exact Hy|lia].
  - intro H. rewrite previousMonth_date. unfold Calendar.firstDayOfMonth.
    apply makeDate_same_month; [exact H|exact Hy|lia].
Qed.

Lemma calendar_navigation_witness :
  (Calendar.year 0 
       {| Calendar.currentDate := Examples.now;
          Calendar.selectedDate := None;
          Calendar.editingExpense := None |} < 0 \/ 99 < Calendar.year 0 
       {| Calendar.currentDate := Examples.now;
          Calendar.selectedDate := None;
          Calendar.editingExpense := None |})
  /\ (Calendar.year 0 (Calendar.previousMonth 0 
       {| Calendar.currentDate := Examples.now;
          Calendar.selectedDate := None;
          Calendar.editingExpense := None |}),
      Calendar.month 0 (Calendar.previousMonth 0 
       {| Calendar.currentDate := Examples.now;
          Calendar.selectedDate := None;
          Calendar.editingExpense := None |})) = (2023, 11)
  /\ (Calendar.year 0 (Calendar.nextMonth 0 
       {| Calendar.currentDate := Examples.now;
          Calendar.selectedDate := None;
          Calendar.editingExpense := None |}),
      Calendar.month 0 (Calendar.nextMonth 0 
       {| Calendar.currentDate := Examples.now;
          Calendar.selectedDate := None;
          Calendar.editingExpense := None |})) = (2024, 1).
Proof.
  assert (H : Calendar.year 0 
       {| Calendar.currentDate := Examples.now;
          Calendar.selectedDate := None;
          Calendar.editingExpense := None |} < 0 \/ 99 < Calendar.year 0 
       {| Calendar.currentDate := Examples.now;
          Calendar.selectedDate := None;
          Calendar.editingExpense := None |})
    by (right; reflexivity).
  split; [exact H|]. split.
  - rewrite (proj1 (proj1 (calendar_navigation 0 _ H))). reflexivity.
  - rewrite (proj1 (proj1 (proj2 (calendar_navigation 0 _ H)))). reflexivity.
Defined.

(** ** The wizard *)

Lemma onboarding_truthy (s : string) :
  Onboarding.truthy s = true <-> s <> ""%string.
Proof.
  unfold Onboarding.truthy. rewrite negb_true_iff.
  destruct (String.eqb_spec s ""); split; congruence.
Qed.

(** Rows whose indices are all above [index] are all kept. *)
Lemma withoutIndex_above (index s : nat) (rows : list Onboarding.Row) :
  (index < s)%nat ->
  map snd (filter (fun ir => negb (Nat.eqb (fst ir) index))
                  (combine (seq s (List.length rows)) rows))
  = rows.
Proof.
  revert s. induction rows as [|r rows IH]; intros s H; [reflexivity|].
  cbn [List.length seq combine filter fst].
  destruct (Nat.eqb_spec s index) as [E|E]; [lia|].
  cbn [negb map snd]. f_equal. apply IH. lia.
Qed.

Lemma withoutIndex_from (index s : nat) (rows : list Onboarding.Row) :
  map snd (filter (fun ir => negb (Nat.eqb (fst ir) (s + index)))
                  (combine (seq s (List.length rows)) rows))
  = firstn index rows ++ skipn (S index) rows.
Proof.
  revert index s. induction rows as [|r rows IH]; intros index s.
  - destruct index; reflexivity.
  - cbn [List.length seq combine filter fst].
    destruct index as [|index].
    + replace (s + 0)%nat with s by lia. rewrite Nat.eqb_refl.
      cbn [negb firstn skipn app]. apply withoutIndex_above. lia.
    + destruct (Nat.eqb_spec s (s + S index)) as [E|E]; [lia|].
      cbn [negb map snd firstn app].
      replace (s + S index)%nat with (S s + index)%nat by lia.
      rewrite IH. reflexivity.
Qed.

Lemma withoutIndex_spec (index : nat) (rows : list Onboarding.Row) :
  Onboarding.withoutIndex index rows
  = firstn index rows ++ skipn (S index) rows.
Proof. exact (withoutIndex_from index 0 rows). Qed.

Lemma withoutIndex_nonempty (index : nat) (rows : list Onboarding.Row) :
  (1 < List.length rows)%nat -> Onboarding.withoutIndex index rows <> [].
Proof.
  intros H E. apply (f_equal (@List.length _)) in E.
  rewrite withoutIndex_spec, length_app, length_firstn, length_skipn in E.
  simpl in E. lia.
Qed.

Lemma assignAt_length (index : nat) (field : Onboarding.Field)
  (value : string) (rows : list Onboarding.Row) :
  List.length (Onboarding.assignAt index field value rows) = List.length rows.
Proof.
  revert index. induction rows as [|r rows IH]; intros [|index]; simpl;
    try reflexivity.
  now rewrite IH.
Qed.

Lemma assignAt_nth (index : nat) (field : Onboarding.Field)
  (value : string) (rows : list Onboarding.Row) (i : nat) :
  nth_error (Onboarding.assignAt index field value rows) i
  = if Nat.eqb i index
    then option_map (Onboarding.assign field value) (nth_error rows i)
    else nth_error rows i.
Proof.
  revert index i. induction rows as [|r rows IH]; intros [|index] [|i];
    simpl; try reflexivity.
  - destruct (Nat.eqb i index); reflexivity.
  - apply IH.
Qed.

Lemma habits_toggle_nodup (habit : string) (hs : list string) :
  NoDup hs ->
  NoDup (if existsb (String.eqb habit) hs
         then filter (fun h => negb (String.eqb h habit)) hs
         else hs ++ [habit]).
Proof.
  intro N. destruct (existsb (String.eqb habit) hs) eqn:X.
  - apply NoDup_filter. exact N.
  - apply (Permutation_NoDup (l := habit :: hs)).
    + apply Permutation_cons_append.
    + constructor; [|exact N]. intro I.
      assert (Y : existsb (String.eqb habit) hs = true).
      { apply existsb_exists. exists habit. split; [exact I|].
        apply String.eqb_refl. }
      congruence.
Qed.

Lemma habits_toggle_in (habit : string) (hs : list string) (h : string) :
  In h (if existsb (String.eqb habit) hs
        then filter (fun h => negb (String.eqb h habit)) hs
        else hs ++ [habit])
  <-> (if String.eqb h habit then ~ In habit hs else In h hs).
Proof.
  destruct (existsb (String.eqb habit) hs) eqn:X.
  - apply existsb_exists in X. destruct X as [k [I K]].
    apply String.eqb_eq in K. subst k.
    rewrite filter_In, negb_true_iff.
    destruct (String.eqb_spec h habit) as [E|E].
    + split; [intros [_ F]; discriminate|intro F; contradiction].
    + split; [intros [G _]; exact G|intro G; split; [exact G|reflexivity]].
  - assert (N : ~ In habit hs).
    { intro I. assert (Y : existsb (String.eqb habit) hs = true).
      { apply existsb_exists. exists habit. split; [exact I|].
        apply String.eqb_refl. }
      congruence. }
    rewrite in_app_iff. simpl.
    destruct (String.eqb_spec h habit) as [E|E].
    + split; [intros _; exact N|intros _; right; left; congruence].
    + split; [intros [G|[G|[]]]; [exact G|congruence]|intro G; left; exact G].
Qed.

Section OnboardingProperties.

Variable parseInt : string -> option Z.
Variable parseFloat : string -> JS.number.

Lemma answered_initial : More.answered parseInt parseFloat Onboarding.initial.
Proof.
  unfold More.answered, Onboarding.initial. cbn.
  split; [lia|]. split; [discriminate|]. split; [constructor|].
  split; [intros h []|]. split; [intros c E; discriminate|].
  split; [lia|]. split; lia.
Qed.

Lemma answered_react (st : Onboarding.State) (ev : Onboarding.Event) :
  More.answered parseInt parseFloat st ->
  More.answered parseInt parseFloat (Onboarding.react parseInt parseFloat st ev).
Proof.
  intros [S [R [N [H [C [A [K I]]]]]]].
  destruct ev as [value|i|value|index field value|index| |i| | |];
    cbn [Onboarding.react].
  - (* typeAge *)
    destruct (Z.eqb_spec (Onboarding.step st) 1) as [E|E];
      [|exact (conj S (conj R (conj N (conj H (conj C (conj A (conj K I)))))))].
    unfold More.answered. cbn.
    split; [exact S|]. split; [exact R|]. split; [exact N|].
    split; [exact H|]. split; [exact C|].
    split; [lia|]. split; [exact K|exact I].
  - (* clickCountry *)
    destruct (Z.eqb_spec (Onboarding.step st) 2) as [E|E];
      [|exact (conj S (conj R (conj N (conj H (conj C (conj A (conj K I)))))))].
    destruct (nth_error Onboarding.countries i) as [c|] eqn:Ei;
      [|exact (conj S (conj R (conj N (conj H (conj C (conj A (conj K I)))))))].
    unfold More.answered. cbn.
    split; [exact S|]. split; [exact R|]. split; [exact N|].
    split; [exact H|].
    split; [intros c' Ec; injection Ec as <-; exact (nth_error_In _ _ Ei)|].
    split; [exact A|]. split; [intros _; discriminate|exact I].
  - (* typeIncome *)
    destruct (Z.eqb_spec (Onboarding.step st) 3) as [E|E];
      [|exact (conj S (conj R (conj N (conj H (conj C (conj A (conj K I)))))))].
    unfold More.answered. cbn.
    split; [exact S|]. split; [exact R|]. split; [exact N|].
    split; [exact H|]. split; [exact C|].
    split; [exact A|]. split; [exact K|lia].
  - (* typeExpense *)
    destruct (Z.eqb_spec (Onboarding.step st) 4) as [E|E];
      [|exact (conj S (conj R (conj N (conj H (conj C (conj A (conj K I)))))))].
    unfold Onboarding.updateExpense.
    destruct (Nat.ltb_spec index (List.length (Onboarding.fixedExpenses st)))
      as [L|L]; [|exact (conj S (conj R (conj N (conj H (conj C (conj A (conj K I)))))))].
    unfold More.answered. cbn.
    split; [exact S|]. split.
    { intro F. apply (f_equal (@List.length _)) in F.
      rewrite assignAt_length in F. simpl in F. lia. }
    split; [exact N|]. split; [exact H|]. split; [exact C|].
    split; [exact A|]. split; [exact K|exact I].
  - (* clickRemove *)
    destruct (Z.eqb_spec (Onboarding.step st) 4) as [E|E];
      [|exact (conj S (conj R (conj N (conj H (conj C (conj A (conj K I)))))))].
    unfold Onboarding.removeExpenseRow.
    destruct (Nat.ltb_spec 1 (List.length (Onboarding.fixedExpenses st)))
      as [L|L]; [|exact (conj S (conj R (conj N (conj H (conj C (conj A (conj K I)))))))].
    cbn [andb]. unfold More.answered. cbn.
    split; [exact S|]. split; [apply withoutIndex_nonempty; exact L|].
    split; [exact N|]. split; [exact H|]. split; [exact C|].
    split; [exact A|]. split; [exact K|exact I].
  - (* clickAdd *)
    destruct (Z.eqb_spec (Onboarding.step st) 4) as [E|E];
      [|exact (conj S (conj R (conj N (conj H (conj C (conj A (conj K I)))))))].
    unfold More.answered. cbn.
    split; [exact S|].
    split; [intro F; apply app_eq_nil in F; destruct F; discriminate|].
    split; [exact N|]. split; [exact H|]. split; [exact C|].
    split; [exact A|]. split; [exact K|exact I].
  - (* clickHabit *)
    destruct (Z.eqb_spec (Onboarding.step st) 5) as [E|E];
      [|exact (conj S (conj R (conj N (conj H (conj C (conj A (conj K I)))))))].
    destruct (nth_error Onboarding.habits i) as [habit|] eqn:Ei;
      [|exact (conj S (conj R (conj N (conj H (conj C (conj A (conj K I)))))))].
    assert (Hl : In (Onboarding.label habit)
                    (map Onboarding.label Onboarding.habits))
      by (apply in_map; exact (nth_error_In _ _ Ei)).
    pose proof (habits_toggle_nodup (Onboarding.label habit) _ N) as N'.
    pose proof (habits_toggle_in (Onboarding.label habit)
                                 (Onboarding.spendingHabits st)) as I'.
    unfold Onboarding.toggleHabit.
    destruct (existsb (String.eqb (Onboarding.label habit))
                      (Onboarding.spendingHabits st));
      unfold More.answered; cbn;
      (split; [exact S|]; split; [exact R|]; split; [exact N'|];
       split; [|split; [exact C|split; [exact A|split; [exact K|exact I]]]]);
      intros h Ih; apply I' in Ih;
      destruct (String.eqb_spec h (Onboarding.label habit)) as [Eh|Eh];
      [rewrite Eh; exact Hl|exact (H h Ih)
      |rewrite Eh; exact Hl|exact (H h Ih)].
  - (* clickBack *)
    destruct (Z.ltb_spec 1 (Onboarding.step st)) as [L|L];
      [|exact (conj S (conj R (conj N (conj H (conj C (conj A (conj K I)))))))].
    unfold More.answered. cbn.
    split; [lia|]. split; [exact R|]. split; [exact N|].
    split; [exact H|]. split; [exact C|].
    split; [intro G; apply A; lia|].
    split; [intro G; apply K; lia|intro G; apply I; lia].
  - (* clickNext *)
    destruct ((Onboarding.step st <? 5)
              && Onboarding.canProceed parseInt parseFloat st) eqn:G;
      [|exact (conj S (conj R (conj N (conj H (conj C (conj A (conj K I)))))))].
    apply andb_true_iff in G. destruct G as [G1 G2].
    apply Z.ltb_lt in G1.
    unfold Onboarding.canProceed in G2. unfold Onboarding.handleNext.
    destruct (Z.eqb_spec (Onboarding.step st) 1) as [E1|E1].
    + apply andb_true_iff in G2. destruct G2 as [T Ag].
      rewrite T. cbn [andb].
      unfold Onboarding.ageInRange in Ag.
      destruct (parseInt (Onboarding.age st)) as [n|] eqn:P; [|discriminate].
      apply andb_true_iff in Ag. destruct Ag as [A1 A2].
      apply Z.leb_le in A1. apply Z.leb_le in A2.
      apply onboarding_truthy in T.
      unfold More.answered. cbn.
      split; [lia|]. split; [exact R|]. split; [exact N|].
      split; [exact H|]. split; [exact C|].
      split; [intros _; split; [exact T|exists n; split; [exact P|lia]]|].
      split; lia.
    + cbn [andb].
      destruct (Z.eqb_spec (Onboarding.step st) 2) as [E2|E2].
      * destruct (Onboarding.selectedCountry st) as [c|] eqn:Ec;
          [|discriminate].
        cbn [andb]. unfold More.answered. cbn. rewrite Ec.
        split; [lia|]. split; [exact R|]. split; [exact N|].
        split; [exact H|]. split; [exact C|].
        split; [intros _; apply A; lia|].
        split; [intros _; discriminate|lia].
      * cbn [andb].
        destruct (Z.eqb_spec (Onboarding.step st) 3) as [E3|E3].
        -- apply andb_true_iff in G2. destruct G2 as [T Po].
           rewrite T. cbn [andb]. apply onboarding_truthy in T.
           unfold More.answered. cbn.
           split; [lia|]. split; [exact R|]. split; [exact N|].
           split; [exact H|]. split; [exact C|].
           split; [intros _; apply A; lia|].
           split; [intros _; apply K; lia|intros _; split; assumption].
        -- cbn [andb].
           destruct (Z.eqb_spec (Onboarding.step st) 4) as [E4|E4]; [|lia].
           unfold More.answered. cbn.
           split; [lia|]. split; [exact R|]. split; [exact N|].
           split; [exact H|]. split; [exact C|].
           split; [intros _; apply A; lia|].
           split; [intros _; apply K; lia|intros _; apply I; lia].
  - (* clickFinish *)
    exact (conj S (conj R (conj N (conj H (conj C (conj A (conj K I))))))).
Qed.

Lemma answered_run (events : list Onboarding.Event) :
  More.answered parseInt parseFloat (Onboarding.run parseInt parseFloat events).
Proof.
  unfold Onboarding.run.
  assert (G : forall st, More.answered parseInt parseFloat st ->
                         More.answered parseInt parseFloat
                           (fold_left (Onboarding.react parseInt parseFloat)
                                      events st)).
  { induction events as [|ev r IH]; intros st A; [exact A|].
    simpl. apply IH. apply answered_react. exact A. }
  apply G. apply answered_initial.
Qed.

End OnboardingProperties.

(** X23. Whatever the user does in the wizard, and whatever [parseInt] and
    [parseFloat] give: the step stays one of 1 to 5; there is always a row
    of fixed expenses; no habit is selected twice and every selected habit
    is one of the component's; a selected country is one of the
    component's; and a step is only reached with the answers of the steps
    before it checked: after step 1 the age is not empty and parses to an
    integer from 18 to 100, after step 2 a country is selected, after
    step 3 the income is not empty and parses to a number above 0. *)
Theorem onboarding_answers (parseInt : string -> option Z)
  (parseFloat : string -> JS.number) (events : list Onboarding.Event) :
  let st := Onboarding.run parseInt parseFloat events in
  1 <= Onboarding.step st <= 5
  /\ Onboarding.fixedExpenses st <> []
  /\ NoDup (Onboarding.spendingHabits st)
  /\ (forall h, In h (Onboarding.spendingHabits st) ->
                In h (map Onboarding.label Onboarding.habits))
  /\ (forall c, Onboarding.selectedCountry st = Some c ->
                In c Onboarding.countries)
  /\ (2 <= Onboarding.step st ->
      Onboarding.age st <> ""%string
      /\ exists n, parseInt (Onboarding.age st) = Some n /\ 18 <= n <= 100)
  /\ (3 <= Onboarding.step st -> Onboarding.selectedCountry st <> None)
  /\ (4 <= Onboarding.step st ->
      Onboarding.income st <> ""%string
      /\ Onboarding.positive (parseFloat (Onboarding.income st)) = true).
Proof. exact (answered_run parseInt parseFloat events). Qed.

(** X24. At step 5, however it was reached, [handleFinish] does not return
    early: it calls [onComplete], with an age from 18 to 100, the name, the
    currency and the symbol of one of the countries of the component, an
    income above 0, the rows of fixed expenses that have both a name and an
    amount, in their order, and the habits selected. *)
Theorem onboarding_finish (parseInt : string -> option Z)
  (parseFloat : string -> JS.number) (events : list Onboarding.Event) :
  let st := Onboarding.run parseInt parseFloat events in
  Onboarding.step st = 5 ->
  exists country n,
    In country Onboarding.countries
    /\ 18 <= n <= 100
    /\ Onboarding.positive (parseFloat (Onboarding.income st)) = true
    /\ Onboarding.handleFinish parseInt parseFloat st
       = Some {| Onboarding.data_age := Some n;
                 Onboarding.data_country := Onboarding.name country;
                 Onboarding.data_currency := Onboarding.currency country;
                 Onboarding.data_currencySymbol := Onboarding.symbol country;
                 Onboarding.data_income :=
                   parseFloat (Onboarding.income st);
                 Onboarding.data_fixedExpenses :=
                   map (fun row =>
                          {| Onboarding.fe_name := Onboarding.row_name row;
                             Onboarding.fe_amount :=
                               parseFloat (Onboarding.row_amount row) |})
                       (filter (fun row =>
                                  negb (String.eqb (Onboarding.row_name row) "")
                                  && negb (String.eqb (Onboarding.row_amount row) ""))
                               (Onboarding.fixedExpenses st));
                 Onboarding.data_spendingHabits :=
                   Onboarding.spendingHabits st |}.
Proof.
  intros st E.
  destruct (answered_run parseInt parseFloat events)
    as [_ [_ [_ [_ [C [A [K I]]]]]]].
  fold st in C, A, K, I.
  destruct (A ltac:(lia)) as [_ [n [P Hn]]].
  destruct (I ltac:(lia)) as [_ Po].
  pose proof (K ltac:(lia)) as Kc.
  destruct (Onboarding.selectedCountry st) as [c|] eqn:Ec; [|congruence].
  exists c, n.
  split; [apply C; reflexivity|]. split; [exact Hn|]. split; [exact Po|].
  unfold Onboarding.handleFinish. rewrite Ec, P. reflexivity.
Qed.

Lemma onboarding_finish_witness :
  Onboarding.step
    (Onboarding.run
       (fun s => if String.eqb s "30" then Some 30 else None)
       (fun s => if String.eqb s "1000" then JS.Fin (JS.ofZ 1000) else JS.NaN)
       [Onboarding.typeAge "30"; Onboarding.clickNext;
        Onboarding.clickCountry 1; Onboarding.clickNext;
        Onboarding.typeIncome "1000"; Onboarding.clickNext;
        Onboarding.clickNext]) = 5
  /\ exists data,
       Onboarding.handleFinish
         (fun s => if String.eqb s "30" then Some 30 else None)
         (fun s => if String.eqb s "1000" then JS.Fin (JS.ofZ 1000) else JS.NaN)
         (Onboarding.run
            (fun s => if String.eqb s "30" then Some 30 else None)
            (fun s => if String.eqb s "1000" then JS.Fin (JS.ofZ 1000) else JS.NaN)
            [Onboarding.typeAge "30"; Onboarding.clickNext;
             Onboarding.clickCountry 1; Onboarding.clickNext;
             Onboarding.typeIncome "1000"; Onboarding.clickNext;
             Onboarding.clickNext])
       = Some data.
Proof.
  assert (E : Onboarding.step
    (Onboarding.run
       (fun s => if String.eqb s "30" then Some 30 else None)
       (fun s => if String.eqb s "1000" then JS.Fin (JS.ofZ 1000) else JS.NaN)
       [Onboarding.typeAge "30"; Onboarding.clickNext;
        Onboarding.clickCountry 1; Onboarding.clickNext;
        Onboarding.typeIncome "1000"; Onboarding.clickNext;
        Onboarding.clickNext]) = 5) by (vm_compute; reflexivity).
  split; [exact E|].
  destruct (onboarding_finish _ _ _ E) as [c [n [_ [_ [_ F]]]]].
  eexists. exact F.
Defined.

(** X25. [toggleHabit] changes whether the habit is selected and nothing
    else: afterwards the habit is selected exactly when it was not, every
    other habit is selected exactly when it was, a list that names no habit
    twice stays so, and the other answers and the step are as before. So
    toggling twice selects the same habits as before. *)
Theorem toggleHabit_spec (st : Onboarding.State) (habit : string) :
  let st' := Onboarding.toggleHabit st habit in
  (In habit (Onboarding.spendingHabits st')
   <-> ~ In habit (Onboarding.spendingHabits st))
  /\ (forall h, h <> habit ->
        (In h (Onboarding.spendingHabits st')
         <-> In h (Onboarding.spendingHabits st)))
  /\ (NoDup (Onboarding.spendingHabits st) ->
      NoDup (Onboarding.spendingHabits st'))
  /\ (forall h,
        In h (Onboarding.spendingHabits (Onboarding.toggleHabit st' habit))
        <-> In h (Onboarding.spendingHabits st))
  /\ Onboarding.setSpendingHabits st' (Onboarding.spendingHabits st) = st.
Proof.
  intro st'.
  assert (T : forall s, Onboarding.spendingHabits (Onboarding.toggleHabit s habit)
              = if existsb (String.eqb habit) (Onboarding.spendingHabits s)
                then filter (fun h => negb (String.eqb h habit))
                            (Onboarding.spendingHabits s)
                else Onboarding.spendingHabits s ++ [habit]).
  { intro s. unfold Onboarding.toggleHabit.
    destruct (existsb (String.eqb habit) (Onboarding.spendingHabits s));
      reflexivity. }
  assert (M : forall s h,
             In h (Onboarding.spendingHabits (Onboarding.toggleHabit s habit))
             <-> (if String.eqb h habit
                  then ~ In habit (Onboarding.spendingHabits s)
                  else In h (Onboarding.spendingHabits s))).
  { intros s h. rewrite T. apply habits_toggle_in. }
  split; [|split; [|split; [|split]]].
  - unfold st'. rewrite M, String.eqb_refl. tauto.
  - intros h D. unfold st'. rewrite M.
    destruct (String.eqb_spec h habit); [contradiction|tauto].
  - intro N. unfold st'. rewrite T. apply habits_toggle_nodup. exact N.
  - intro h. rewrite M. unfold st'.
    destruct (String.eqb_spec h habit) as [E|E].
    + rewrite M, String.eqb_refl, E.
      destruct (in_dec string_dec habit (Onboarding.spendingHabits st));
        tauto.
    + rewrite M. destruct (String.eqb_spec h habit); [contradiction|tauto].
  - unfold st', Onboarding.toggleHabit.
    destruct (existsb (String.eqb habit) (Onboarding.spendingHabits st));
      destruct st; reflexivity.
Qed.

(** X26. The rows of fixed expenses. Removing the row at an index of a list
    of more than one row gives the rows before it followed by the rows after
    it, one row less, and a single row is never removed. Updating a field of
    the row at an index keeps the number of rows, sets that field of that
    row and leaves the other field and the other rows as they are. *)
Theorem fixed_expense_rows (st : Onboarding.State) (index : nat)
  (field : Onboarding.Field) (value : string) :
  (index < List.length (Onboarding.fixedExpenses st))%nat ->
  let rows := Onboarding.fixedExpenses st in
  let removed := Onboarding.fixedExpenses (Onboarding.removeExpenseRow st index) in
  let updated :=
    Onboarding.fixedExpenses (Onboarding.updateExpense st index field value) in
  ((1 < List.length rows)%nat ->
   removed = firstn index rows ++ skipn (S index) rows
   /\ S (List.length removed) = List.length rows)
  /\ (List.length rows = 1%nat -> Onboarding.removeExpenseRow st index = st)
  /\ List.length updated = List.length rows
  /\ (forall i, i <> index -> nth_error updated i = nth_error rows i)
  /\ exists row,
       nth_error rows index = Some row
       /\ nth_error updated index
          = Some (match field with
                  | Onboarding.fieldName =>
                      {| Onboarding.row_name := value;
                         Onboarding.row_amount := Onboarding.row_amount row |}
                  | Onboarding.fieldAmount =>
                      {| Onboarding.row_name := Onboarding.row_name row;
                         Onboarding.row_amount := value |}
                  end).
Proof.
  intros L rows removed updated.
  assert (U : updated = Onboarding.assignAt index field value rows).
  { unfold updated, Onboarding.updateExpense.
    destruct (Nat.ltb_spec index (List.length (Onboarding.fixedExpenses st)));
      [reflexivity|lia]. }
  split; [|split; [|split; [|split]]].
  - intro G.
    assert (R : removed = Onboarding.withoutIndex index rows).
    { unfold removed, Onboarding.removeExpenseRow.
      destruct (Nat.ltb_spec 1 (List.length (Onboarding.fixedExpenses st)));
        [reflexivity|unfold rows in G; lia]. }
    rewrite R, withoutIndex_spec. split; [reflexivity|].
    rewrite length_app, length_firstn, length_skipn. unfold rows in *. lia.
  - intro G. unfold Onboarding.removeExpenseRow.
    destruct (Nat.ltb_spec 1 (List.length (Onboarding.fixedExpenses st)));
      [unfold rows in G; lia|reflexivity].
  - rewrite U. apply assignAt_length.
  - intros i D. rewrite U, assignAt_nth.
    destruct (Nat.eqb_spec i index); [contradiction|reflexivity].
  - destruct (nth_error rows index) as [row|] eqn:E.
    + exists row. split; [reflexivity|].
      rewrite U, assignAt_nth, Nat.eqb_refl, E. destruct field; reflexivity.
    + apply nth_error_None in E. unfold rows in E. lia.
Qed.

Lemma fixed_expense_rows_witness :
  (0 < List.length (Onboarding.fixedExpenses Onboarding.initial))%nat
  /\ List.length
       (Onboarding.fixedExpenses
          (Onboarding.updateExpense Onboarding.initial 0
                                    Onboarding.fieldName "Rent"))
     = 1%nat.
Proof.
  assert (H : (0 < List.length (Onboarding.fixedExpenses Onboarding.initial))%nat)
    by (simpl; lia).
  split; [exact H|].
  exact (proj1 (proj2 (proj2
           (fixed_expense_rows Onboarding.initial 0 Onboarding.fieldName
                               "Rent" H)))).
Defined.

(** ** The forms and the editor of the calendar *)

Lemma form_truthy (s : string) :
  AddExpenseModal.truthy s = true <-> s <> ""%string.
Proof.
  unfold AddExpenseModal.truthy. rewrite negb_true_iff.
  destruct (String.eqb_spec s ""); split; congruence.
Qed.

Lemma form_state (parseFloat : string -> JS.number) (now : Z)
  (events : list AddExpenseModal.Event) :
  let st := AddExpenseModal.run parseFloat now events in
  (AddExpenseModal.category st = ""%string
   \/ (AddExpenseModal.customCategory st = ""%string
       /\ AddExpenseModal.showCustomInput st = false))
  /\ (AddExpenseModal.category st <> ""%string ->
      In (AddExpenseModal.category st)
         (map AddExpenseModal.name AddExpenseModal.categories))
  /\ (AddExpenseModal.customCategory st <> ""%string ->
      AddExpenseModal.showCustomInput st = true).
Proof.
  unfold AddExpenseModal.run.
  assert (G : forall st,
    ((AddExpenseModal.category st = ""%string
      \/ (AddExpenseModal.customCategory st = ""%string
          /\ AddExpenseModal.showCustomInput st = false))
     /\ (AddExpenseModal.category st <> ""%string ->
         In (AddExpenseModal.category st)
            (map AddExpenseModal.name AddExpenseModal.categories))
     /\ (AddExpenseModal.customCategory st <> ""%string ->
         AddExpenseModal.showCustomInput st = true)) ->
    let st' := fold_left (AddExpenseModal.react parseFloat) events st in
    (AddExpenseModal.category st' = ""%string
      \/ (AddExpenseModal.customCategory st' = ""%string
          /\ AddExpenseModal.showCustomInput st' = false))
     /\ (AddExpenseModal.category st' <> ""%string ->
         In (AddExpenseModal.category st')
            (map AddExpenseModal.name AddExpenseModal.categories))
     /\ (AddExpenseModal.customCategory st' <> ""%string ->
         AddExpenseModal.showCustomInput st' = true)).
  { induction events as [|ev r IH]; intros st I; [exact I|].
    cbn [fold_left]. apply IH. clear IH.
    destruct I as [I1 [I2 I3]].
    destruct ev as [value|value|i| |value|now']; cbn [AddExpenseModal.react].
    - cbn. split; [exact I1|]. split; [exact I2|exact I3].
    - cbn. split; [exact I1|]. split; [exact I2|exact I3].
    - destruct (nth_error AddExpenseModal.categories i) as [cat|] eqn:E.
      + cbn [AddExpenseModal.category AddExpenseModal.customCategory
               AddExpenseModal.showCustomInput].
        split; [right; split; reflexivity|].
        split; [intros _; apply in_map; exact (nth_error_In _ _ E)|].
        intro F. congruence.
      + split; [exact I1|]. split; [exact I2|exact I3].
    - cbn [AddExpenseModal.category AddExpenseModal.customCategory
             AddExpenseModal.showCustomInput].
      split; [left; reflexivity|]. split; [congruence|reflexivity].
    - destruct (AddExpenseModal.showCustomInput st) eqn:Sh.
      + cbn [AddExpenseModal.category AddExpenseModal.customCategory
               AddExpenseModal.showCustomInput].
        split; [destruct I1 as [I1|[_ I1]]; [left; exact I1|discriminate]|].
        split; [exact I2|intros _; reflexivity].
      + rewrite Sh. split; [exact I1|]. split; [exact I2|exact I3].
    - unfold AddExpenseModal.handleSubmit.
      destruct (negb (AddExpenseModal.truthy (AddExpenseModal.amount st))
                || negb (AddExpenseModal.truthy (AddExpenseModal.category st))
                   && negb (AddExpenseModal.truthy
                              (AddExpenseModal.customCategory st))).
      + cbn [snd]. split; [exact I1|]. split; [exact I2|exact I3].
      + cbn. split; [left; reflexivity|]. split; congruence. }
  apply G. cbn. split; [left; reflexivity|]. split; congruence.
Qed.

(** X27. The form of a new expense, whatever the user does and whatever
    [parseFloat] gives: the chosen category and the custom category are
    never both set, a chosen category is one of the five of the component,
    and a custom category is only set while its input is shown. So a
    submission has the amount typed, which is not empty, the date of the
    form and a category that is not empty: the custom one when its input is
    shown and one of the five otherwise; the form is reset after it. When
    the amount or both categories are empty nothing is submitted and the
    form is left as it is. *)
Theorem expense_form_submission (parseFloat : string -> JS.number) (now : Z)
  (events : list AddExpenseModal.Event) (now' : Z) :
  let st := AddExpenseModal.run parseFloat now events in
  (AddExpenseModal.category st = ""%string
   \/ (AddExpenseModal.customCategory st = ""%string
       /\ AddExpenseModal.showCustomInput st = false))
  /\ (AddExpenseModal.category st <> ""%string ->
      In (AddExpenseModal.category st)
         (map AddExpenseModal.name AddExpenseModal.categories))
  /\ (AddExpenseModal.customCategory st <> ""%string ->
      AddExpenseModal.showCustomInput st = true)
  /\ match AddExpenseModal.handleSubmit parseFloat now' st with
     | (Some sub, st') =>
         AddExpenseModal.amount st <> ""%string
         /\ AddExpenseModal.sub_amount sub
            = parseFloat (AddExpenseModal.amount st)
         /\ AddExpenseModal.sub_date sub = AddExpenseModal.date st
         /\ AddExpenseModal.sub_category sub <> ""%string
         /\ (if AddExpenseModal.showCustomInput st
             then AddExpenseModal.sub_category sub
                  = AddExpenseModal.customCategory st
             else In (AddExpenseModal.sub_category sub)
                     (map AddExpenseModal.name AddExpenseModal.categories))
         /\ st' = AddExpenseModal.initial now'
     | (None, st') =>
         st' = st
         /\ (AddExpenseModal.amount st = ""%string
             \/ (AddExpenseModal.category st = ""%string
                 /\ AddExpenseModal.customCategory st = ""%string))
     end.
Proof.
  intro st.
  destruct (form_state parseFloat now events) as [I1 [I2 I3]].
  fold st in I1, I2, I3.
  split; [exact I1|]. split; [exact I2|]. split; [exact I3|].
  unfold AddExpenseModal.handleSubmit.
  destruct (AddExpenseModal.truthy (AddExpenseModal.amount st)) eqn:Ta;
    cbn [negb orb].
  - apply form_truthy in Ta.
    destruct (AddExpenseModal.truthy (AddExpenseModal.category st)) eqn:Tc;
      cbn [negb andb].
    + apply form_truthy in Tc.
      destruct I1 as [I1|[I1 Sh]]; [contradiction|].
      rewrite I1, Sh. cbn.
      split; [exact Ta|]. split; [reflexivity|]. split; [reflexivity|].
      split; [exact Tc|]. split; [exact (I2 Tc)|reflexivity].
    + assert (Ec : AddExpenseModal.category st = ""%string).
      { destruct (String.eqb_spec (AddExpenseModal.category st) "") as [E|E];
          [exact E|]. apply form_truthy in E. congruence. }
      destruct (AddExpenseModal.truthy (AddExpenseModal.customCategory st))
        eqn:Tu; cbn [negb].
      * apply form_truthy in Tu. rewrite (I3 Tu).
        cbn [AddExpenseModal.sub_amount AddExpenseModal.sub_date
               AddExpenseModal.sub_category].
        split; [exact Ta|]. split; [reflexivity|]. split; [reflexivity|].
        split; [exact Tu|]. split; reflexivity.
      * split; [reflexivity|]. right. split; [exact Ec|].
        destruct (String.eqb_spec (AddExpenseModal.customCategory st) "")
          as [E|E]; [exact E|]. apply form_truthy in E. congruence.
  - split; [reflexivity|]. left.
    destruct (String.eqb_spec (AddExpenseModal.amount st) "") as [E|E];
      [exact E|]. apply form_truthy in E. congruence.
Qed.

(** X28. A goal submitted with its three fields filled in is added at the
    end of the goals with the instant as its id and a current amount of 0,
    and the goals before it are kept. The progress shown for the new goal,
    [currentAmount / targetAmount * 100], is 0 when the target parses to a
    number other than 0, and is [NaN] when it parses to 0 or to [NaN],
    which the form accepts. With a field left empty nothing is added. *)
Theorem new_goal_progress (parseFloat : string -> JS.number) (now : Z)
  (savingGoals : list App.SavingGoal) (st : AddGoalModal.State) :
  let goal :=
    {| App.goal_id := App.integerToString now;
       App.goal_name := AddGoalModal.name st;
       App.targetAmount := parseFloat (AddGoalModal.targetAmount st);
       App.currentAmount := JS.Fin 0%Qc;
       App.targetDate := AddGoalModal.targetDate st |} in
  (AddGoalModal.name st <> ""%string
   /\ AddGoalModal.targetAmount st <> ""%string
   /\ AddGoalModal.targetDate st <> ""%string ->
   AddGoalModal.submit parseFloat now savingGoals st = savingGoals ++ [goal]
   /\ snd (AddGoalModal.handleSubmit parseFloat st) = AddGoalModal.initial)
  /\ (AddGoalModal.name st = ""%string
      \/ AddGoalModal.targetAmount st = ""%string
      \/ AddGoalModal.targetDate st = ""%string ->
      AddGoalModal.submit parseFloat now savingGoals st = savingGoals
      /\ snd (AddGoalModal.handleSubmit parseFloat st) = st)
  /\ App.progress goal
     = match parseFloat (AddGoalModal.targetAmount st) with
       | JS.Fin target => if JS.eqb target 0%Qc then JS.NaN else JS.Fin 0%Qc
       | JS.NaN => JS.NaN
       | _ => JS.Fin 0%Qc
       end.
Proof.
  intro goal.
  assert (T : forall s, AddGoalModal.truthy s = true <-> s <> ""%string).
  { intro s. unfold AddGoalModal.truthy. rewrite negb_true_iff.
    destruct (String.eqb_spec s ""); split; congruence. }
  assert (F : forall s, AddGoalModal.truthy s = false <-> s = ""%string).
  { intro s. unfold AddGoalModal.truthy. rewrite negb_false_iff.
    apply String.eqb_eq. }
  split; [|split].
  - intros [H1 [H2 H3]].
    apply T in H1. apply T in H2. apply T in H3.
    unfold AddGoalModal.submit, AddGoalModal.handleSubmit.
    rewrite H1, H2, H3. cbn [negb orb fst snd].
    split; reflexivity.
  - intro H.
    assert (G : negb (AddGoalModal.truthy (AddGoalModal.name st))
                || negb (AddGoalModal.truthy (AddGoalModal.targetAmount st))
                || negb (AddGoalModal.truthy (AddGoalModal.targetDate st))
                = true).
    { rewrite !orb_true_iff, !negb_true_iff, !F. tauto. }
    unfold AddGoalModal.submit, AddGoalModal.handleSubmit.
    rewrite G. cbn [fst snd]. split; reflexivity.
  - unfold App.progress, goal.
    cbn [App.currentAmount App.targetAmount].
    destruct (parseFloat (AddGoalModal.targetAmount st)) as [target| | |];
      try reflexivity.
    unfold JS.div.
    destruct (JS.sign target =? 0) eqn:S.
    + apply Z.eqb_eq in S. apply sign_zero_iff in S. subst target.
      reflexivity.
    + assert (N : target <> 0%Qc).
      { intro E. subst target. discriminate. }
      assert (E : JS.eqb target 0%Qc = false).
      { apply not_true_is_false. intro E. apply eqb_eq in E. contradiction. }
      rewrite E. unfold JS.mul.
      assert (Z0 : (0 / target * JS.ofZ 100 = 0)%Qc) by (field; exact N).
      rewrite Z0. reflexivity.
Qed.

Lemma new_goal_progress_witness :
  AddGoalModal.submit (fun _ => JS.Fin 0%Qc) Examples.now []
    {| AddGoalModal.name := "Laptop";
       AddGoalModal.targetAmount := "0";
       AddGoalModal.targetDate := "2024-06-01" |}
  = [ {| App.goal_id := "1704888000000";
         App.goal_name := "Laptop";
         App.targetAmount := JS.Fin 0%Qc;
         App.currentAmount := JS.Fin 0%Qc;
         App.targetDate := "2024-06-01" |} ]
  /\ App.progress
       {| App.goal_id := "1704888000000";
          App.goal_name := "Laptop";
          App.targetAmount := JS.Fin 0%Qc;
          App.currentAmount := JS.Fin 0%Qc;
          App.targetDate := "2024-06-01" |}
     = JS.NaN.
Proof.
  pose proof (new_goal_progress (fun _ => JS.Fin 0%Qc) Examples.now []
                {| AddGoalModal.name := "Laptop";
                   AddGoalModal.targetAmount := "0";
                   AddGoalModal.targetDate := "2024-06-01" |}) as P.
  cbv zeta in P. destruct P as [P1 [_ P3]].
  split.
  - apply P1. cbn. repeat split; discriminate.
  - exact P3.
Defined.

Lemma edits_keep (edits : list Calendar.Edit) (st : Calendar.State)
  (e : Client.Expense) :
  Calendar.editingExpense st = Some e ->
  exists e',
    Calendar.editingExpense (fold_left Calendar.edit edits st) = Some e'
    /\ Client.id e' = Client.id e
    /\ Client.date e' = Client.date e
    /\ Calendar.currentDate (fold_left Calendar.edit edits st)
       = Calendar.currentDate st
    /\ Calendar.selectedDate (fold_left Calendar.edit edits st)
       = Calendar.selectedDate st.
Proof.
  revert st e. induction edits as [|ed r IH]; intros st e E.
  - exists e. cbn [fold_left]. repeat split; try reflexivity. exact E.
  - cbn [fold_left].
    assert (G : exists e1,
               Calendar.editingExpense (Calendar.edit st ed) = Some e1
               /\ Client.id e1 = Client.id e
               /\ Client.date e1 = Client.date e
               /\ Calendar.currentDate (Calendar.edit st ed)
                  = Calendar.currentDate st
               /\ Calendar.selectedDate (Calendar.edit st ed)
                  = Calendar.selectedDate st).
    { destruct ed as [parsed|value]; cbn [Calendar.edit];
        [unfold Calendar.typeAmount|unfold Calendar.typeCategory];
        rewrite E; eexists; cbn; repeat split; reflexivity. }
    destruct G as [e1 [G1 [G2 [G3 [G4 G5]]]]].
    destruct (IH _ _ G1) as [e' [H1 [H2 [H3 [H4 H5]]]]].
    exists e'. split; [exact H1|]. split; [congruence|].
    split; [congruence|]. split; congruence.
Qed.

Lemma edit_absent (l : list Client.Expense) (id0 : string)
  (fields : Client.ExpenseFields) :
  ~ In id0 (map Client.id l) -> Client.handleEditExpense l id0 fields = l.
Proof.
  unfold Client.handleEditExpense. induction l as [|x l IH]; intro N.
  - reflexivity.
  - cbn [map]. destruct (String.eqb_spec (Client.id x) id0) as [E|E].
    + exfalso. apply N. left. exact E.
    + f_equal. apply IH. intro I. apply N. right. exact I.
Qed.

(** X29. Saving an edit in the calendar, when the ids of the expenses are
    pairwise distinct. Whatever was typed after the edit button of an
    expense, the edited expense keeps the id and the date of that expense;
    saving closes the editor and replaces that expense, at its place, by
    the edited one and changes no other expense. So every day of the
    calendar lists the expenses of the same ids as before, the day of the
    expense lists the edited expense at the place of the old one, and every
    other day lists the same expenses and has the same total as before. *)
Theorem calendar_save (st : Calendar.State) (expenses : list Client.Expense)
  (e : Client.Expense) (edits : list Calendar.Edit) :
  NoDup (map Client.id expenses) -> In e expenses ->
  let st1 := fold_left Calendar.edit edits (Calendar.startEditing st e) in
  let st2 := fst (Calendar.save st1 expenses) in
  let expenses' := snd (Calendar.save st1 expenses) in
  exists e' before after,
    Calendar.editingExpense st1 = Some e'
    /\ Client.id e' = Client.id e
    /\ Client.date e' = Client.date e
    /\ expenses = before ++ e :: after
    /\ expenses' = before ++ e' :: after
    /\ Calendar.editingExpense st2 = None
    /\ Calendar.currentDate st2 = Calendar.currentDate st
    /\ Calendar.selectedDate st2 = Calendar.selectedDate st
    /\ (forall key,
          map Client.id (Calendar.getExpensesForDate expenses' key)
          = map Client.id (Calendar.getExpensesForDate expenses key))
    /\ Calendar.getExpensesForDate expenses' (Client.date e)
       = Calendar.getExpensesForDate before (Client.date e)
         ++ e' :: Calendar.getExpensesForDate after (Client.date e)
    /\ (forall key, Client.date e <> key ->
          Calendar.getExpensesForDate expenses' key
          = Calendar.getExpensesForDate expenses key
          /\ Calendar.getTotalForDate expenses' key
             = Calendar.getTotalForDate expenses key).
Proof.
  intros N I st1 st2 expenses'.
  destruct (edits_keep edits (Calendar.startEditing st e) e eq_refl)
    as [e' [E1 [E2 [E3 [E4 E5]]]]].
  fold st1 in E1, E4, E5.
  destruct (in_split _ _ I) as [before [after S]].
  exists e', before, after.
  assert (X : expenses' = before ++ e' :: after).
  { unfold expenses', Calendar.save. rewrite E1. cbn [snd].
    rewrite S in N |- *. rewrite map_app in N. cbn [map] in N.
    apply NoDup_remove_2 in N. rewrite in_app_iff in N.
    unfold Client.handleEditExpense. rewrite map_app. cbn [map].
    rewrite E2, String.eqb_refl.
    fold (Client.handleEditExpense before (Client.id e)
            {| Client.new_amount := Client.amount e';
               Client.new_category := Client.category e';
               Client.new_date := Client.date e' |}).
    fold (Client.handleEditExpense after (Client.id e)
            {| Client.new_amount := Client.amount e';
               Client.new_category := Client.category e';
               Client.new_date := Client.date e' |}).
    rewrite !edit_absent by tauto.
    f_equal. f_equal. destruct e'. cbn in *. subst. reflexivity. }
  split; [exact E1|]. split; [exact E2|]. split; [exact E3|].
  split; [exact S|]. split; [exact X|].
  assert (Y : st2 = {| Calendar.currentDate := Calendar.currentDate st1;
                       Calendar.selectedDate := Calendar.selectedDate st1;
                       Calendar.editingExpense := None |}).
  { unfold st2, Calendar.save. rewrite E1. reflexivity. }
  split; [rewrite Y; reflexivity|].
  split; [rewrite Y; exact E4|]. split; [rewrite Y; exact E5|].
  rewrite X, S. split; [|split].
  - intro key. unfold Calendar.getExpensesForDate.
    rewrite !filter_app. cbn [filter]. rewrite E3.
    destruct (String.eqb (Client.date e) key);
      rewrite !map_app; cbn [map]; rewrite ?E2; reflexivity.
  - unfold Calendar.getExpensesForDate.
    rewrite filter_app. cbn [filter]. rewrite E3, String.eqb_refl.
    reflexivity.
  - intros key Hk.
    assert (G : Calendar.getExpensesForDate (before ++ e' :: after) key
                = Calendar.getExpensesForDate (before ++ e :: after) key).
    { unfold Calendar.getExpensesForDate.
      rewrite !filter_app. cbn [filter]. rewrite E3.
      destruct (String.eqb_spec (Client.date e) key);
        [contradiction|reflexivity]. }
    split; [exact G|].
    unfold Calendar.getTotalForDate. cbv zeta. rewrite G. reflexivity.
Qed.

Lemma calendar_save_witness :
  NoDup (map Client.id Examples.clientExpenses)
  /\ In (Examples.clientExpense "2" 30 "Transport" "2024-01-10")
        Examples.clientExpenses
  /\ List.length
       (snd (Calendar.save
               (fold_left Calendar.edit [Calendar.editAmount None]
                  (Calendar.startEditing
                     {| Calendar.currentDate := Examples.now;
                        Calendar.selectedDate := None;
                        Calendar.editingExpense := None |}
                     (Examples.clientExpense "2" 30 "Transport"
                                             "2024-01-10")))
               Examples.clientExpenses))
     = List.length Examples.clientExpenses.
Proof.
  assert (N : NoDup (map Client.id Examples.clientExpenses)).
  { simpl. repeat constructor; simpl; intuition discriminate. }
  assert (I : In (Examples.clientExpense "2" 30 "Transport" "2024-01-10")
                 Examples.clientExpenses)
    by (right; left; reflexivity).
  split; [exact N|]. split; [exact I|].
  destruct (calendar_save
              {| Calendar.currentDate := Examples.now;
                 Calendar.selectedDate := None;
                 Calendar.editingExpense := None |}
              Examples.clientExpenses
              (Examples.clientExpense "2" 30 "Transport" "2024-01-10")
              [Calendar.editAmount None] N I)
    as [e' [before [after [_ [_ [_ [S [X _]]]]]]]].
  rewrite X, S, !length_app. reflexivity.
Defined.

(** * The handlers under the rules of a time zone and in binary64 *)

(** ** Dates under the rules of a zone *)

Lemma makeDate_split (day time : Z) :
  0 <= time < Date.msPerDay ->
  Zoned.Day (Zoned.MakeDate day time) = day
  /\ Zoned.TimeWithinDay (Zoned.MakeDate day time) = time.
Proof.
  unfold Zoned.Day, Zoned.TimeWithinDay, Zoned.MakeDate, Date.msPerDay.
  intro H. split.
  - rewrite Z.add_comm, Z.div_add by discriminate.
    rewrite Z.div_small by exact H. reflexivity.
  - rewrite Z.add_comm, Z.mod_add by discriminate.
    apply Z.mod_small. exact H.
Qed.

Lemma makeDate_parts (t : Z) :
  Zoned.MakeDate (Zoned.Day t) (Zoned.TimeWithinDay t) = t.
Proof.
  unfold Zoned.Day, Zoned.TimeWithinDay, Zoned.MakeDate, Date.msPerDay.
  pose proof (Z.div_mod t 86400000 ltac:(discriminate)). lia.
Qed.

(** The day of a time value, from its year, month and day of the month. *)
Lemma makeDay_back (t k : Z) :
  Zoned.MakeDay (Zoned.YearFromTime t) (Zoned.MonthFromTime t)
                (Zoned.DateFromTime t - k)
  = Zoned.Day t - k.
Proof.
  unfold Zoned.MakeDay, Zoned.YearFromTime, Zoned.MonthFromTime,
    Zoned.DateFromTime.
  pose proof (civil_range (Zoned.Day t)) as R.
  destruct (Date.civil_from_days (Zoned.Day t)) as [[y m] d].
  destruct R as [Hm [_ E]].
  rewrite (days_linear y m d) in E.
  replace ((m - 1) / 12) with 0 by (symmetry; apply Z.div_small; lia).
  replace ((m - 1) mod 12) with (m - 1) by (symmetry; apply Z.mod_small; lia).
  replace (y + 0) with y by ring. replace (m - 1 + 1) with m by ring. lia.
Qed.

(** Moving the day of the month back by [k] days moves the local time back
    by [k] days. *)
Lemma zoned_setDate_back (zone : Zoned.Zone) (t k : Z) :
  Zoned.setDate zone t (Zoned.getDate zone t - k)
  = Zoned.UTC zone (Zoned.LocalTime zone t - k * Date.msPerDay).
Proof.
  unfold Zoned.setDate, Zoned.getDate. cbv zeta. rewrite makeDay_back.
  f_equal. unfold Zoned.MakeDate.
  rewrite <- (makeDate_parts (Zoned.LocalTime zone t)) at 3.
  unfold Zoned.MakeDate. ring.
Qed.

(** In a zone whose offset never changes the operations are those of the
    fixed offset. *)
Lemma fixed_zone (tz t d : Z) :
  Zoned.getFullYear (Zoned.fixed tz) t = Date.getFullYear tz t
  /\ Zoned.getMonth (Zoned.fixed tz) t = Date.getMonth tz t
  /\ Zoned.getDate (Zoned.fixed tz) t = Date.getDate tz t
  /\ Zoned.getDay (Zoned.fixed tz) t = Date.getDay tz t
  /\ Zoned.setHoursZero (Zoned.fixed tz) t = Date.setHoursZero tz t
  /\ Zoned.setDate (Zoned.fixed tz) t (Date.getDate tz t - d)
     = Date.setDate tz t (Date.getDate tz t - d).
Proof.
  split; [reflexivity|]. split; [reflexivity|]. split; [reflexivity|].
  split; [reflexivity|]. split.
  - unfold Zoned.setHoursZero, Date.setHoursZero, Zoned.UTC, Zoned.LocalTime,
      Zoned.MakeDate, Zoned.Day. cbn [Zoned.fixed Zoned.offsetAt Zoned.offsetOfLocal].
    pose proof (Z.div_mod (t + tz) Date.msPerDay ltac:(discriminate)). lia.
  - change (Date.getDate tz t) with (Zoned.getDate (Zoned.fixed tz) t).
    rewrite zoned_setDate_back.
    change (Zoned.getDate (Zoned.fixed tz) t) with (Date.getDate tz t).
    rewrite setDate_back.
    unfold Zoned.UTC, Zoned.LocalTime.
    cbn [Zoned.fixed Zoned.offsetAt Zoned.offsetOfLocal]. ring.
Qed.

Lemma sunday_spec (day : Z) :
  let sunday := day - (day + 4) mod 7 in
  (sunday + 4) mod 7 = 0 /\ sunday <= day < sunday + 7.
Proof.
  intro sunday. unfold sunday.
  pose proof (Z.mod_pos_bound (day + 4) 7 ltac:(lia)) as B.
  split; [|lia].
  replace (day - (day + 4) mod 7 + 4) with (7 * ((day + 4) / 7))
    by (pose proof (Z.div_mod (day + 4) 7 ltac:(discriminate)); lia).
  rewrite Z.mul_comm. apply Z.mod_mul. discriminate.
Qed.

Lemma week_starts (zone : Zoned.Zone) (now : Z) :
  let local := Zoned.LocalTime zone now in
  let sunday := Zoned.Day local - Zoned.getDay zone now in
  Zoned.sameDay zone (local - Zoned.getDay zone now * Date.msPerDay) ->
  Zoned.shown zone (Zoned.MakeDate sunday 0) ->
  ZonedBackend.startOfCurrentWeek zone now
  = Zoned.UTC zone (Zoned.MakeDate sunday 0)
  /\ ZonedBackend.startOfLastWeek zone now
     = Zoned.UTC zone (Zoned.MakeDate (sunday - 7) 0).
Proof.
  intros local sunday Ha Hb.
  assert (E : Zoned.Day (local - Zoned.getDay zone now * Date.msPerDay)
              = sunday).
  { unfold sunday, Zoned.Day.
    replace (local - Zoned.getDay zone now * Date.msPerDay)
      with (local + (- Zoned.getDay zone now) * Date.msPerDay) by ring.
    rewrite Z.div_add by discriminate. ring. }
  assert (S : ZonedBackend.startOfCurrentWeek zone now
              = Zoned.UTC zone (Zoned.MakeDate sunday 0)).
  { unfold ZonedBackend.startOfCurrentWeek. rewrite zoned_setDate_back.
    fold local. unfold Zoned.setHoursZero. cbv zeta.
    unfold Zoned.sameDay in Ha. rewrite Ha, E. reflexivity. }
  split; [exact S|].
  unfold ZonedBackend.startOfLastWeek. cbv zeta.
  rewrite zoned_setDate_back, S. unfold Zoned.shown in Hb. rewrite Hb.
  f_equal. unfold Zoned.MakeDate. ring.
Qed.



Lemma fixed_makeDate (tz year monthIndex day : Z) :
  Zoned.makeDate (Zoned.fixed tz) year monthIndex day
  = Date.makeDate tz year monthIndex day.
Proof.
  unfold Zoned.makeDate, Date.makeDate, Zoned.UTC, Zoned.MakeDate,
    Zoned.MakeDay.
  cbn [Zoned.fixed Zoned.offsetOfLocal]. cbv zeta. ring.
Qed.

Lemma fixed_week_start (tz now : Z) :
  ZonedBackend.startOfCurrentWeek (Zoned.fixed tz) now
  = Backend.startOfCurrentWeek tz now
  /\ ZonedBackend.startOfLastWeek (Zoned.fixed tz) now
     = Backend.startOfLastWeek tz now
  /\ ZonedBackend.startOfWeek (Zoned.fixed tz) now
     = Backend.startOfWeek tz now.
Proof.
  assert (S : ZonedBackend.startOfCurrentWeek (Zoned.fixed tz) now
              = Backend.startOfCurrentWeek tz now).
  { unfold ZonedBackend.startOfCurrentWeek, Backend.startOfCurrentWeek.
    destruct (fixed_zone tz now (Date.getDay tz now))
      as [_ [_ [G [W [_ E]]]]].
    rewrite G, W, E.
    destruct (fixed_zone tz
                (Date.setDate tz now (Date.getDate tz now - Date.getDay tz now))
                0) as [_ [_ [_ [_ [H _]]]]].
    exact H. }
  split; [exact S|]. split.
  - unfold ZonedBackend.startOfLastWeek, Backend.startOfLastWeek. cbv zeta.
    rewrite S.
    destruct (fixed_zone tz (Backend.startOfCurrentWeek tz now) 7)
      as [_ [_ [G [_ [_ E]]]]].
    rewrite G. exact E.
  - unfold ZonedBackend.startOfWeek, Backend.startOfWeek.
    destruct (fixed_zone tz now (Date.getDay tz now))
      as [_ [_ [G [W [_ E]]]]].
    rewrite G, W. exact E.
Qed.

(** In a zone whose offset never changes the two handlers are those of the
    fixed offset. *)
Lemma fixed_handlers (tz now : Z) (user : N) (budgets : list Backend.Budget)
  (db : list Backend.Expense) :
  ZonedBackend.trends (Zoned.fixed tz) now user db
  = Backend.trends tz now user db
  /\ ZonedBackend.budgetStatus (Zoned.fixed tz) now user budgets db
     = Backend.budgetStatus tz now user budgets db.
Proof.
  destruct (fixed_week_start tz now) as [S [P W]].
  split.
  - unfold ZonedBackend.trends, Backend.trends,
      ZonedBackend.currentWeekExpenses, ZonedBackend.lastWeekExpenses,
      ZonedBackend.currentMonthExpenses, ZonedBackend.lastMonthExpenses,
      Backend.currentWeekExpenses, Backend.lastWeekExpenses,
      Backend.currentMonthExpenses, Backend.lastMonthExpenses,
      ZonedBackend.endOfLastWeek, Backend.endOfLastWeek,
      ZonedBackend.startOfCurrentMonth, ZonedBackend.startOfLastMonth,
      ZonedBackend.endOfLastMonth, Backend.startOfCurrentMonth,
      Backend.startOfLastMonth, Backend.endOfLastMonth.
    rewrite S, P, !fixed_makeDate. reflexivity.
  - unfold ZonedBackend.budgetStatus, Backend.budgetStatus.
    apply map_ext. intro b.
    unfold ZonedBackend.statusOf, Backend.statusOf,
      ZonedBackend.budgetExpenses, Backend.budgetExpenses,
      ZonedBackend.startDate, Backend.startDate,
      ZonedBackend.startOfMonth, Backend.startOfMonth.
    rewrite W, fixed_makeDate. reflexivity.
Qed.

Lemma zoned_change_eq (cur prior : Qc) :
  (if JS.ltb 0%Qc prior
   then JS.mul (JS.div (JS.Fin (cur - prior)%Qc) (JS.Fin prior))
               (JS.Fin (JS.ofZ 100))
   else JS.Fin 0%Qc)
  = if JS.ltb 0%Qc prior
    then JS.Fin ((cur - prior) / prior * JS.ofZ 100)%Qc
    else JS.Fin 0%Qc.
Proof.
  destruct (JS.ltb 0%Qc prior) eqn:L; [|reflexivity].
  apply ltb_lt in L. rewrite div_fin_pos by exact L. reflexivity.
Qed.



(** ** The daily series under the rules of a zone *)

Lemma zoned_last7Days (zone : Zoned.Zone) (now : Z) :
  ZonedClient.last7Days zone now
  = map (fun i : nat =>
           Date.toISODate
             (Zoned.UTC zone (Zoned.LocalTime zone now
                              - (6 - Z.of_nat i) * Date.msPerDay)))
        (seq 0 7).
Proof.
  unfold ZonedClient.last7Days. rewrite map_map. apply map_ext.
  intro i. cbv zeta. rewrite zoned_setDate_back. reflexivity.
Qed.

(** C6, as amended.  The daily series has exactly seven entries for every
    list of expenses, oldest first; the key of entry [i] is the date in UTC
    of the instant that has the local time of [now] on the local day
    [6 - i] days before that of [now]; an expense counts for an entry
    exactly when its date string is the key of it, the total of an entry is
    the sum of the amounts of these expenses, and it is 0 when there is
    none, as for the empty list.  When the offset in force at these seven
    local times is the offset of [now], the keys are the seven consecutive
    days that end with the day of [now] in UTC. *)
Theorem daily_series (zone : Zoned.Zone)
  (toLocaleDateString : Client.LabelFormat -> string -> string)
  (now : Z) (expenses : list Client.Expense) :
  let key (i : nat) :=
    Date.toISODate
      (Zoned.UTC zone (Zoned.LocalTime zone now
                       - (6 - Z.of_nat i) * Date.msPerDay)) in
  let total (i : nat) (es : list Client.Expense) :=
    JS.sum (map Client.amount
                (filter (fun e => String.eqb (Client.date e) (key i)) es)) in
  let series (format : Client.LabelFormat) (es : list Client.Expense) :=
    map (fun i => {| Client.point_date := toLocaleDateString format (key i);
                     Client.point_amount := total i es |})
        (seq 0 7) in
  ZonedClient.last7Days zone now = map key (seq 0 7)
  /\ (forall i, total i [] = 0%Qc)
  /\ ZonedClient.dailySpending zone toLocaleDateString now expenses
     = series Client.weekdayShort expenses
  /\ ZonedClient.dailyData zone toLocaleDateString now expenses
     = series Client.monthShortDayNumeric expenses
  /\ List.length (ZonedClient.dailySpending zone toLocaleDateString now
                                            expenses) = 7%nat
  /\ List.length (ZonedClient.dailyData zone toLocaleDateString now expenses)
     = 7%nat
  /\ ((forall k, 0 <= k <= 6 ->
         Zoned.offsetOfLocal zone
           (Zoned.LocalTime zone now - k * Date.msPerDay)
         = Zoned.offsetAt zone now) ->
      forall i, (i < 7)%nat ->
        key i = Date.isoDateOfDay (now / Date.msPerDay - (6 - Z.of_nat i))).
Proof.
  intros key total series.
  pose proof (zoned_last7Days zone now) as K. fold key in K.
  assert (K1 : ZonedClient.dailySpending zone toLocaleDateString now expenses
               = series Client.weekdayShort expenses).
  { unfold ZonedClient.dailySpending. rewrite K, map_map.
    apply map_ext. intro i. cbv zeta.
    rewrite client_sumAmounts_sum. reflexivity. }
  assert (K2 : ZonedClient.dailyData zone toLocaleDateString now expenses
               = series Client.monthShortDayNumeric expenses).
  { unfold ZonedClient.dailyData. rewrite K, map_map.
    apply map_ext. intro i. cbv zeta.
    rewrite client_sumAmounts_sum. reflexivity. }
  split; [exact K|]. split; [intro i; reflexivity|].
  split; [exact K1|]. split; [exact K2|].
  split; [rewrite K1; reflexivity|]. split; [rewrite K2; reflexivity|].
  intros H i Hi. unfold key, Date.toISODate, Zoned.UTC. f_equal.
  rewrite (H (6 - Z.of_nat i)) by lia.
  unfold Zoned.LocalTime.
  replace (now + Zoned.offsetAt zone now - (6 - Z.of_nat i) * Date.msPerDay
           - Zoned.offsetAt zone now)
    with (now + (- (6 - Z.of_nat i)) * Date.msPerDay) by ring.
  rewrite Z.div_add by discriminate. ring.
Qed.

Lemma daily_series_witness :
  (forall k, 0 <= k <= 6 ->
     Zoned.offsetOfLocal Zones.kolkata
       (Zoned.LocalTime Zones.kolkata Examples.now - k * Date.msPerDay)
     = Zoned.offsetAt Zones.kolkata Examples.now)
  /\ ZonedClient.last7Days Zones.kolkata Examples.now
     = [ "2024-01-04"; "2024-01-05"; "2024-01-06"; "2024-01-07";
         "2024-01-08"; "2024-01-09"; "2024-01-10" ]%string.
Proof.
  assert (H : forall k, 0 <= k <= 6 ->
                Zoned.offsetOfLocal Zones.kolkata
                  (Zoned.LocalTime Zones.kolkata Examples.now
                   - k * Date.msPerDay)
                = Zoned.offsetAt Zones.kolkata Examples.now)
    by (intros k _; reflexivity).
  split; [exact H|].
  pose proof (daily_series Zones.kolkata (fun _ s => s) Examples.now []) as D.
  cbv zeta in D. destruct D as [K [_ [_ [_ [_ [_ C]]]]]].
  rewrite K. cbn [map seq].
  rewrite !(C H) by lia. vm_compute. reflexivity.
Defined.

(** C6, on the code: the user's day is not always a day of the series.  At
    2024-01-10 20:00 UTC it is 01:30 of 2024-01-11 in Asia/Kolkata, and the
    series ends with 2024-01-10. *)
Lemma daily_series_without_today :
  ZonedClient.today Zones.kolkata 1704916800000 = "2024-01-11"%string
  /\ ZonedClient.last7Days Zones.kolkata 1704916800000
     = [ "2024-01-04"; "2024-01-05"; "2024-01-06"; "2024-01-07";
         "2024-01-08"; "2024-01-09"; "2024-01-10" ]%string
  /\ ~ In (ZonedClient.today Zones.kolkata 1704916800000)
          (ZonedClient.last7Days Zones.kolkata 1704916800000).
Proof.
  assert (T : ZonedClient.today Zones.kolkata 1704916800000
              = "2024-01-11"%string) by (vm_compute; reflexivity).
  assert (K : ZonedClient.last7Days Zones.kolkata 1704916800000
              = [ "2024-01-04"; "2024-01-05"; "2024-01-06"; "2024-01-07";
                  "2024-01-08"; "2024-01-09"; "2024-01-10" ]%string)
    by (vm_compute; reflexivity).
  split; [exact T|]. split; [exact K|].
  rewrite T, K. cbn [In]. intros [H|[H|[H|[H|[H|[H|[H|[]]]]]]]];
    discriminate.
Qed.

(** At a change of offset a key comes twice and a day has no key: at
    2024-03-13 23:30 UTC, 19:30 in America/New_York, the instants of 19:30
    of the days before 2024-03-10 are of the next day in UTC. *)
Lemma daily_series_daylight_saving :
  ZonedClient.last7Days Zones.newYork 1710372600000
  = [ "2024-03-08"; "2024-03-09"; "2024-03-10"; "2024-03-10";
      "2024-03-11"; "2024-03-12"; "2024-03-13" ]%string.
Proof. vm_compute. reflexivity. Qed.

(** ** The budget status: the week of a budget *)

(** C7, on the code: the week of a budget does not start at midnight.
    On Wednesday 2024-01-10 at 12:00 UTC the week of the trend report
    starts on Sunday 2024-01-07 at 00:00 and the week of a weekly budget at
    12:00 of that Sunday, so the expense of 3 entered that Sunday at 08:00
    is not counted: a weekly budget of 14 for Food has spent 12, has 2
    left and is not over, where the expenses of Food of the week add up
    to 15. *)
Theorem weekly_budget_window :
  let zone := Zoned.fixed 0 in
  let s := ZonedBackend.statusOf zone Examples.now 1 Cases.week
                                 Cases.weeklyFood in
  ZonedBackend.startOfCurrentWeek zone Examples.now = 1704585600000
  /\ ZonedBackend.startDate zone Examples.now Cases.weeklyFood
     = 1704628800000
  /\ map (fun e => this (Backend.amount e))
         (ZonedBackend.budgetExpenses zone Examples.now 1 Cases.weeklyFood
                                      Cases.week)
     = [12%Q]
  /\ (this (Backend.spent s), this (Backend.remaining s),
      Backend.isOverBudget s)
     = (12%Q, 2%Q, false)
  /\ this (JS.sum
             (map Backend.amount
                (filter (fun e =>
                           (Backend.userId e =? 1)%N
                           && String.eqb (Backend.category e) "Food"
                           && (ZonedBackend.startOfCurrentWeek zone
                                                               Examples.now
                               <=? Backend.timestamp e))
                        Cases.week)))
     = 15%Q.
Proof. vm_compute. repeat split; reflexivity. Qed.

(** C8, on the code: a weekly budget of category ["Total"] does not count
    every expense of the user in the week.  At the same instant a weekly
    budget of 35 for ["Total"] counts the expenses of 12 and 20 of the user
    and leaves out those of 3 and 5 entered on Sunday before 12:00: it has
    spent 32 and is not over, where the expenses of the user in the week
    add up to 40.  The expense of the other user is left out, as it should
    be, and a budget of Food counts only expenses of Food. *)
Theorem total_budget_window :
  let zone := Zoned.fixed 0 in
  let s := ZonedBackend.statusOf zone Examples.now 1 Cases.week
                                 Cases.weeklyTotal in
  map (fun e => (this (Backend.amount e), Backend.category e))
      (ZonedBackend.budgetExpenses zone Examples.now 1 Cases.weeklyTotal
                                   Cases.week)
  = [ (12%Q, "Food"%string); (20%Q, "Transport"%string) ]
  /\ (this (Backend.spent s), Backend.isOverBudget s) = (32%Q, false)
  /\ map (fun e => (this (Backend.amount e), Backend.category e))
         (filter (fun e =>
                    (Backend.userId e =? 1)%N
                    && (ZonedBackend.startOfCurrentWeek zone Examples.now
                        <=? Backend.timestamp e))
                 Cases.week)
     = [ (3%Q, "Food"%string); (5%Q, "Transport"%string);
         (12%Q, "Food"%string); (20%Q, "Transport"%string) ]
  /\ this (JS.sum
             (map Backend.amount
                (filter (fun e =>
                           (Backend.userId e =? 1)%N
                           && (ZonedBackend.startOfCurrentWeek zone
                                                               Examples.now
                               <=? Backend.timestamp e))
                        Cases.week)))
     = 40%Q.
Proof. vm_compute. repeat split; reflexivity. Qed.

(** ** The category report in binary64 *)

Lemma sum64_snoc (xs : list Binary64.number) (x : Binary64.number) :
  Binary64.sum (xs ++ [x]) = Binary64.add (Binary64.sum xs) x.
Proof. unfold Binary64.sum. rewrite fold_left_app. reflexivity. Qed.

Lemma sumAmounts64_sum (expenses : list Backend64.Expense) :
  Backend64.sumAmounts expenses
  = Binary64.sum (map Backend64.amount expenses).
Proof.
  unfold Backend64.sumAmounts, Binary64.sum.
  generalize (Binary64.ofZ 0).
  induction expenses as [|e r IH]; intro a; [reflexivity|].
  cbn [map fold_left]. apply IH.
Qed.

Lemma categoryData64_snoc (expenses : list Backend64.Expense)
  (e : Backend64.Expense) :
  Backend64.categoryData (expenses ++ [e])
  = Backend64.groupExpense (Backend64.categoryData expenses) e.
Proof. unfold Backend64.categoryData. now rewrite fold_left_app. Qed.

Lemma amountsOf_snoc (k : string) (expenses : list Backend64.Expense)
  (e : Backend64.Expense) :
  Backend64.amountsOf k (expenses ++ [e])
  = Backend64.amountsOf k expenses
    ++ (if String.eqb (Backend64.category e) k then [Backend64.amount e]
        else []).
Proof.
  unfold Backend64.amountsOf. rewrite filter_app, map_app. cbn [filter].
  destruct (String.eqb (Backend64.category e) k); reflexivity.
Qed.

(** The total a category has in the grouping is the sum of its amounts in
    the order of the input. *)
Lemma categoryData64_total (expenses : list Backend64.Expense) (k : string) :
  option_map Backend64.total (Dict.get k (Backend64.categoryData expenses))
  = if existsb (fun e => String.eqb (Backend64.category e) k) expenses
    then Some (Binary64.sum (Backend64.amountsOf k expenses))
    else None.
Proof.
  induction expenses as [|e es IH] using rev_ind.
  - reflexivity.
  - rewrite categoryData64_snoc, amountsOf_snoc. unfold Backend64.groupExpense.
    rewrite existsb_app. cbn [existsb]. rewrite orb_false_r.
    destruct (String.eqb (Backend64.category e) k) eqn:E.
    + apply String.eqb_eq in E. subst k.
      rewrite get_set_same, orb_true_r. cbn [option_map Backend64.total].
      rewrite sum64_snoc. f_equal. f_equal.
      destruct (existsb _ es) eqn:X.
      * destruct (Dict.get (Backend64.category e)
                           (Backend64.categoryData es)) as [d|];
          cbn [option_map] in IH; [|discriminate].
        congruence.
      * destruct (Dict.get (Backend64.category e)
                           (Backend64.categoryData es)) as [d|];
          cbn [option_map] in IH; [discriminate|].
        unfold Backend64.amountsOf.
        rewrite (existsb_false_filter _ _ X). reflexivity.
    + rewrite orb_false_r, app_nil_r.
      rewrite get_set_other; [exact IH|].
      apply String.eqb_neq in E. congruence.
Qed.

Lemma categoryData64_nodup (expenses : list Backend64.Expense) :
  NoDup (map fst (Backend64.categoryData expenses)).
Proof.
  induction expenses as [|e es IH] using rev_ind.
  - constructor.
  - rewrite categoryData64_snoc. unfold Backend64.groupExpense.
    now apply nodup_keys_set.
Qed.

Lemma categoryData64_keys (expenses : list Backend64.Expense) (k : string) :
  In k (map fst (Backend64.categoryData expenses))
  <-> In k (map Backend64.category expenses).
Proof.
  rewrite get_in_keys.
  pose proof (categoryData64_total expenses k) as T.
  destruct (existsb (fun e => String.eqb (Backend64.category e) k) expenses)
    eqn:E.
  - apply existsb_exists in E. destruct E as [e [He Hk]].
    apply String.eqb_eq in Hk. subst k.
    split; [intros _; now apply in_map|].
    intros _ F. rewrite F in T. discriminate.
  - split.
    + intro F. destruct (Dict.get k (Backend64.categoryData expenses));
        [discriminate|congruence].
    + intro H. exfalso.
      apply in_map_iff in H. destruct H as [e [Hk He]].
      assert (X : existsb (fun e0 => String.eqb (Backend64.category e0) k)
                          expenses = true).
      { apply existsb_exists. exists e. split; [exact He|].
        now apply String.eqb_eq. }
      congruence.
Qed.

Lemma categoryData64_entry (expenses : list Backend64.Expense) (k : string)
  (d : Backend64.CategoryData) :
  In (k, d) (Backend64.categoryData expenses) ->
  Backend64.total d = Binary64.sum (Backend64.amountsOf k expenses).
Proof.
  intro H.
  apply in_nodup_get in H; [|apply categoryData64_nodup].
  pose proof (categoryData64_total expenses k) as T. rewrite H in T.
  cbn [option_map] in T.
  destruct (existsb _ expenses); congruence.
Qed.

Lemma sum_map_add {A : Type} (u v : A -> Qc) (l : list A) :
  JS.sum (map (fun k => (u k + v k)%Qc) l)
  = (JS.sum (map u l) + JS.sum (map v l))%Qc.
Proof.
  induction l as [|k r IH]; cbn [map].
  - rewrite sum_nil. ring.
  - rewrite !sum_cons, IH. ring.
Qed.

Lemma sum_indicator (k0 : string) (v : Qc) (keys : list string) :
  NoDup keys -> In k0 keys ->
  JS.sum (map (fun k => if String.eqb k0 k then v else 0%Qc) keys) = v.
Proof.
  intros N I. induction N as [|k ks Hk N IH]; [destruct I|].
  cbn [map]. rewrite sum_cons.
  destruct (String.eqb_spec k0 k) as [E|E].
  - subst k.
    assert (Z0 : JS.sum (map (fun k => if String.eqb k0 k then v else 0%Qc) ks)
                 = 0%Qc).
    { clear IH I N. induction ks as [|k r IHr]; [reflexivity|].
      cbn [map]. rewrite sum_cons.
      destruct (String.eqb_spec k0 k) as [F|F].
      - exfalso. apply Hk. left. congruence.
      - rewrite IHr; [ring|]. intro G. apply Hk. right. exact G. }
    rewrite Z0. ring.
  - destruct I as [I|I]; [congruence|]. rewrite (IH I). ring.
Qed.

(** The sums of the groups of a list by distinct keys that cover it add up
    to the sum of the list. *)
Lemma sum_groups {A : Type} (key : A -> string) (f : A -> Qc)
  (keys : list string) (l : list A) :
  NoDup keys -> (forall x, In x l -> In (key x) keys) ->
  JS.sum (map (fun k =>
                 JS.sum (map f (filter (fun x => String.eqb (key x) k) l)))
              keys)
  = JS.sum (map f l).
Proof.
  intros N. induction l as [|x r IH]; intro C.
  - clear N C. induction keys as [|k ks IHk]; [reflexivity|].
    cbn [map filter] in *. rewrite sum_cons, IHk.
    change (JS.sum []) with 0%Qc. ring.
  - cbn [map]. rewrite sum_cons, <- IH by (intros y Hy; apply C; now right).
    rewrite <- (sum_indicator (key x) (f x) keys N) at 1
      by (apply C; now left).
    rewrite <- sum_map_add. f_equal. apply map_ext. intro k.
    cbn [filter]. destruct (String.eqb (key x) k).
    + cbn [map]. apply sum_cons.
    + ring.
Qed.

Lemma report64_entry (expenses : list Backend64.Expense)
  (c : Backend64.CategoryInsight) :
  In c (Backend64.categories (Backend64.categoryInsights expenses)) ->
  exists d,
    In (Backend64.cat_category c, d) (Backend64.categoryData expenses)
    /\ c = Backend64.insight (Backend64.sumAmounts expenses)
             (Backend64.cat_category c, d).
Proof.
  unfold Backend64.categoryInsights. cbn [Backend64.categories]. intro H.
  apply sort_in in H. apply in_map_iff in H.
  destruct H as [[k d] [Hc Hin]]. subst c. exists d.
  split; [exact Hin|reflexivity].
Qed.

Lemma report64_categories (expenses : list Backend64.Expense) :
  Permutation
    (map Backend64.cat_category
         (Backend64.categories (Backend64.categoryInsights expenses)))
    (map fst (Backend64.categoryData expenses)).
Proof.
  unfold Backend64.categoryInsights. cbn [Backend64.categories].
  eapply perm_trans; [apply Permutation_map, sort_perm|].
  rewrite map_map. unfold Dict.entries.
  erewrite map_ext; [apply Permutation_refl|].
  intros [k d]. reflexivity.
Qed.

(** A positive binary64 number has a positive value. *)
Lemma value_positive (x : Binary64.number) :
  Binary64.ltb (Binary64.ofZ 0) x = true -> Binary64.isFinite x = true ->
  (0 < Binary64.value x)%Qc.
Proof.
  intros L F. destruct x as [s|s| |[|] m e];
    try (cbv in L; discriminate L); try discriminate F.
  unfold Binary64.value, Qclt. cbn [this Q2Qc].
  change (0 < Qred (inject_Z (Z.pos m) * 2 ^ e))%Q.
  rewrite Qred_correct.
  apply Qmult_lt_0_compat; [reflexivity|].
  apply Qpower_0_lt. reflexivity.
Qed.



